(** * QGroundControl vehicle-communication core (UAS.cc)

    A shallow embedding of the message-driven state reconciliation engine of
    [UAS]: time reconciliation ([getUnixTime] and its variants), the periodic
    link check ([updateState]), and the message dispatcher ([receiveMessage])
    with the handlers for heartbeat, system status, attitude, command
    acknowledgment and image transfer.

    Conventions.
    - [quint64] values are [Z] in [0, 2^64) and every arithmetic result is
      reduced with [wrap64]; [int] values assigned from wider unsigned wire
      fields are reduced with [to_int32].
    - C [float]/[double] values are elements of a carrier [F] with the
      operations of the class [CFloat]; an IEEE binary32 instance built on
      [SpecFloat] is given for evaluation.
    - Qt signals ([emit ...]) and audio output ([_say]) are collected, in
      program order, in a list of [signal]s returned next to the new state.
    - The ground clock ([QGC::groundTimeUsecs], [QGC::groundTimeMilliseconds])
      is an input of each call. *)

From Stdlib Require Import ZArith List Bool Lia.
From Stdlib Require Import Floats.SpecFloat.
From stdpp Require Import gmap strings list.

Local Open Scope Z_scope.

(** ** Machine integers *)

Definition wrap64 (z : Z) : Z := z mod 2 ^ 64.

(** Conversion of an unsigned wire value to a C [int] (two's complement). *)
Definition to_int32 (z : Z) : Z := (z + 2 ^ 31) mod 2 ^ 32 - 2 ^ 31.

(** ** Floating point

    The widths of the floating-point members of [UAS] are fixed by the class
    header (UAS.h) and not by UAS.cc, so the arithmetic is taken through an
    interface.  [Flit n d] is the literal whose decimal value is
    [n / d]; [to_float] is the narrowing conversion of an assignment to a
    [float] variable. *)

Class CFloat (F : Type) := {
  Fadd : F -> F -> F;
  Fsub : F -> F -> F;
  Fmul : F -> F -> F;
  Fdiv : F -> F -> F;
  Fneg : F -> F;
  Fabs : F -> F;
  Flt : F -> F -> bool;
  Fle : F -> F -> bool;
  Feqb : F -> F -> bool;
  F_of_Z : Z -> F;
  Flit : Z -> Z -> F;
  to_float : F -> F;
  M_PI_2 : F
}.

Definition Fgt {F} `{CFloat F} (a b : F) : bool := Flt b a.
Definition Fge {F} `{CFloat F} (a b : F) : bool := Fle b a.

(** The C library functions used by the attitude handlers, the angle
    normalisation of QGC.h and the quaternion conversion of the MAVLink
    headers. *)
Class Libm (F : Type) := {
  asin : F -> F;
  atan2 : F -> F -> F;
  atan2f : F -> F -> F;
  limitAngleToPMPIf : F -> F;
  mavlink_quaternion_to_euler : F * F * F * F -> F * F * F
}.

(** IEEE binary32 arithmetic, round to nearest even. *)
Module Binary32.
Definition prec : Z := 24.
Definition emax : Z := 128.
Definition of_Z (z : Z) : spec_float := binary_normalize prec emax z 0 false.
Definition lit (n d : Z) : spec_float := SFdiv prec emax (of_Z n) (of_Z d).

#[global] Instance float32 : CFloat spec_float := {|
  Fadd := SFadd prec emax;
  Fsub := SFsub prec emax;
  Fmul := SFmul prec emax;
  Fdiv := SFdiv prec emax;
  Fneg := SFopp;
  Fabs := SFabs;
  Flt := SFltb;
  Fle := SFleb;
  Feqb := SFeqb;
  F_of_Z := of_Z;
  Flit := lit;
  to_float := fun x => x;
  M_PI_2 := lit 15707963267949 10000000000000
|}.
End Binary32.

(** ** Signals *)

(** Texts handed to the audio output.  The number formatting of the
    original strings is not reproduced; each text keeps its arguments. *)
Inductive announcement (F : Type) : Type :=
| LinkLost (sys : Z)
| LinkRegained (sys : Z)
| LowBatteryVolts (sys : Z) (lp : F)
| LowBatteryPercent (sys : Z)
| EmergencyFor (sys : Z)
| SystemModeState (sys : Z) (modechanged statechanged : bool) (state : string).
Arguments LinkLost {F}.
Arguments LinkRegained {F}.
Arguments LowBatteryVolts {F}.
Arguments LowBatteryPercent {F}.
Arguments EmergencyFor {F}.
Arguments SystemModeState {F}.

(** A plotted value is an integer or a floating-point number. *)
Inductive qvariant (F : Type) : Type :=
| VInt (z : Z)
| VFloat (x : F).
Arguments VInt {F}.
Arguments VFloat {F}.

Inductive signal (F : Type) : Type :=
| say (a : announcement F)
| heartbeatTimeout (lost : bool) (ms : Z)
| heartbeat
| valueChanged (sys : Z) (name unit : string) (v : qvariant F) (time : Z)
| systemSpecsChanged
| systemTypeSet (type : Z)
| statusChanged (state description : string)
| statusChangedCode (status : Z)
| startEmergencyTimer
| batteryConsumedChanged (consumed : Z)
| loadChanged (load : F)
| batteryChanged (lp current charge : F)
| attitudeControlEnabled (b : bool)
| positionYawControlEnabled (b : bool)
| positionZControlEnabled (b : bool)
| positionXYControlEnabled (b : bool)
| dropRateChanged (rate : F)
| attitudeChangedComp (compid : Z) (roll pitch yaw : F) (time : Z)
| attitudeChanged (roll pitch yaw : F) (time : Z)
| attitudeRotationRatesChanged (rollspeed pitchspeed yawspeed : F) (time : Z)
| textMessageReceived (compid : Z) (severity : Z) (text : string) (command : Z)
| attitudeThrustSetPointChanged (roll pitch yaw thrust : F) (time : Z)
| positionSetPointsChanged (x y z : F) (time : Z)
| imageReady.
Arguments say {F}.
Arguments heartbeatTimeout {F}.
Arguments heartbeat {F}.
Arguments valueChanged {F}.
Arguments systemSpecsChanged {F}.
Arguments systemTypeSet {F}.
Arguments statusChanged {F}.
Arguments statusChangedCode {F}.
Arguments startEmergencyTimer {F}.
Arguments batteryConsumedChanged {F}.
Arguments loadChanged {F}.
Arguments batteryChanged {F}.
Arguments attitudeControlEnabled {F}.
Arguments positionYawControlEnabled {F}.
Arguments positionZControlEnabled {F}.
Arguments positionXYControlEnabled {F}.
Arguments dropRateChanged {F}.
Arguments attitudeChangedComp {F}.
Arguments attitudeChanged {F}.
Arguments attitudeRotationRatesChanged {F}.
Arguments textMessageReceived {F}.
Arguments attitudeThrustSetPointChanged {F}.
Arguments positionSetPointsChanged {F}.
Arguments imageReady {F}.

(** ** Time reconciliation *)

Record TimeState := mkTime {
  attitudeStamped : bool;
  lastAttitude : Z;
  onboardTimeOffset : Z;
  lastNonNullTime : Z
}.

(** 40 years of microseconds. *)
Definition FORTY_YEARS_USEC : Z := 1261440000000000.

(** The guard of the offset assignment in [getUnixTime]. *)
Definition offsetStale (time : Z) (s : TimeState) : bool :=
  (onboardTimeOffset s =? 0) || (time <? wrap64 (lastNonNullTime s - 100)).

(** [UAS::getUnixTime(quint64 time)]; [groundTimeMilliseconds] is the clock
    reading of the call.  The value taken from [lastAttitude] in
    attitude-stamped mode is bound first, as in the source, and each of the
    three branches that follow assigns [ret] again. *)
Definition getUnixTime (groundTimeMilliseconds time : Z) (s : TimeState)
  : Z * TimeState :=
  let ret := 0 in
  let ret := if attitudeStamped s then lastAttitude s else ret in
  if time =? 0 then
    let ret := groundTimeMilliseconds in
    (ret, s)
  else if time <? FORTY_YEARS_USEC then
    let s1 :=
      if offsetStale time s then
        mkTime (attitudeStamped s) (lastAttitude s)
               (wrap64 (groundTimeMilliseconds - time / 1000)) time
      else s in
    let s2 :=
      if time >? lastNonNullTime s1 then
        mkTime (attitudeStamped s1) (lastAttitude s1) (onboardTimeOffset s1) time
      else s1 in
    let ret := wrap64 (time / 1000 + onboardTimeOffset s2) in
    (ret, s2)
  else
    let ret := time / 1000 in
    (ret, s).

(** [UAS::getUnixTimeFromMs]. *)
Definition getUnixTimeFromMs (groundTimeMilliseconds time : Z) (s : TimeState)
  : Z * TimeState :=
  getUnixTime groundTimeMilliseconds (wrap64 (time * 1000)) s.

(** [UAS::getUnixReferenceTime]: as [getUnixTime], without the slack test
    and without [lastNonNullTime]. *)
Definition getUnixReferenceTime (groundTimeMilliseconds time : Z) (s : TimeState)
  : Z * TimeState :=
  if time =? 0 then (groundTimeMilliseconds, s)
  else if time <? FORTY_YEARS_USEC then
    let s1 :=
      if onboardTimeOffset s =? 0 then
        mkTime (attitudeStamped s) (lastAttitude s)
               (wrap64 (groundTimeMilliseconds - time / 1000)) (lastNonNullTime s)
      else s in
    (wrap64 (time / 1000 + onboardTimeOffset s1), s1)
  else (time / 1000, s).

(** The time members as the constructor leaves them. *)
Definition initialTime : TimeState := mkTime false 0 0 0.

(** A run of [getUnixTime] over samples [(groundTimeMilliseconds, time)]:
    the returned timestamps, and the number of samples at which the offset
    was assigned. *)
Fixpoint reconcileAll (samples : list (Z * Z)) (s : TimeState) : list Z :=
  match samples with
  | [] => []
  | (g, t) :: rest =>
      let '(ret, s') := getUnixTime g t s in ret :: reconcileAll rest s'
  end.

Definition offsetAssigned (time : Z) (s : TimeState) : bool :=
  negb (time =? 0) && (time <? FORTY_YEARS_USEC) && offsetStale time s.

Fixpoint recomputations (samples : list (Z * Z)) (s : TimeState) : nat :=
  match samples with
  | [] => O
  | (g, t) :: rest =>
      ((if offsetAssigned t s then 1 else 0)
       + recomputations rest (snd (getUnixTime g t s)))%nat
  end.

(** The members after such a run. *)
Fixpoint membersAfter (samples : list (Z * Z)) (s : TimeState) : TimeState :=
  match samples with
  | [] => s
  | (g, t) :: rest => membersAfter rest (snd (getUnixTime g t s))
  end.

(** Non-decreasing lists of integers. *)
Fixpoint nondecreasing (l : list Z) : Prop :=
  match l with
  | [] => True
  | x :: rest =>
      match rest with
      | [] => True
      | y :: _ => x <= y /\ nondecreasing rest
      end
  end.

(** ** Link supervision *)

Record LinkState := mkLink {
  lastHeartbeat : Z;
  connectionLost : bool;
  connectionLossTime : Z;
  receivedMode : bool;
  positionLock : bool
}.

(** [UAS::updateState], the slot of the 500 ms status timer.
    [timeoutIntervalHeartbeat] is a constant of the interface header.  The
    three tests run in sequence, each on the flag as the previous one left
    it. *)
Definition updateState {F : Type} (timeoutIntervalHeartbeat uasId : Z)
    (groundTimeUsecs : Z) (s : LinkState) : LinkState * list (signal F) :=
  let heartbeatInterval := wrap64 (groundTimeUsecs - lastHeartbeat s) in
  let '(s1, e1) :=
    if negb (connectionLost s) && (heartbeatInterval >? timeoutIntervalHeartbeat)
    then (mkLink (lastHeartbeat s) true (connectionLossTime s) false (positionLock s),
          [say (LinkLost uasId)])
    else (s, []) in
  let '(s2, e2) :=
    if connectionLost s1 && (heartbeatInterval >? timeoutIntervalHeartbeat)
    then (mkLink (lastHeartbeat s1) (connectionLost s1) heartbeatInterval
                 (receivedMode s1) (positionLock s1),
          [heartbeatTimeout true (heartbeatInterval / 1000)])
    else (s1, []) in
  let '(s3, e3) :=
    if connectionLost s2 && (heartbeatInterval <? timeoutIntervalHeartbeat)
    then (mkLink (lastHeartbeat s2) false 0 (receivedMode s2) (positionLock s2),
          [say (LinkRegained uasId); heartbeatTimeout false 0])
    else (s2, []) in
  let s4 :=
    if positionLock s3
    then mkLink (lastHeartbeat s3) (connectionLost s3) (connectionLossTime s3)
                (receivedMode s3) false
    else s3 in
  (s4, e1 ++ e2 ++ e3).

(** What the heartbeat handler writes to the link members:
    [lastHeartbeat = QGC::groundTimeUsecs()] and, further down,
    [receivedMode = true]. *)
Definition heartbeatSeen (groundTimeUsecs : Z) (s : LinkState) : LinkState :=
  mkLink groundTimeUsecs (connectionLost s) (connectionLossTime s) true
         (positionLock s).

(** The link members over time: heartbeats arrive and the timer fires. *)
Inductive linkEvent :=
| Beat (groundTimeUsecs : Z)
| Tick (groundTimeUsecs : Z).

Fixpoint linkRun {F : Type} (timeout uasId : Z) (evs : list linkEvent)
    (s : LinkState) : LinkState * list (signal F) :=
  match evs with
  | [] => (s, [])
  | Beat now :: rest => linkRun timeout uasId rest (heartbeatSeen now s)
  | Tick now :: rest =>
      let '(s1, e1) := updateState timeout uasId now s in
      let '(s2, e2) := linkRun timeout uasId rest s1 in
      (s2, e1 ++ e2)
  end.

(** Number of timer ticks of a run at which [connectionLost] goes from
    false to true, and from true to false. *)
Fixpoint lossTransitions {F : Type} (timeout uasId : Z) (evs : list linkEvent)
    (s : LinkState) : nat :=
  match evs with
  | [] => O
  | Beat now :: rest => lossTransitions (F := F) timeout uasId rest (heartbeatSeen now s)
  | Tick now :: rest =>
      let s1 := fst (updateState (F := F) timeout uasId now s) in
      ((if negb (connectionLost s) && connectionLost s1 then 1 else 0)
       + lossTransitions (F := F) timeout uasId rest s1)%nat
  end.

Fixpoint regainTransitions {F : Type} (timeout uasId : Z) (evs : list linkEvent)
    (s : LinkState) : nat :=
  match evs with
  | [] => O
  | Beat now :: rest => regainTransitions (F := F) timeout uasId rest (heartbeatSeen now s)
  | Tick now :: rest =>
      let s1 := fst (updateState (F := F) timeout uasId now s) in
      ((if connectionLost s && negb (connectionLost s1) then 1 else 0)
       + regainTransitions (F := F) timeout uasId rest s1)%nat
  end.

Definition isLinkLostSay {F : Type} (e : signal F) : bool :=
  match e with say (LinkLost _) => true | _ => false end.
Definition isLinkRegainedSay {F : Type} (e : signal F) : bool :=
  match e with say (LinkRegained _) => true | _ => false end.
Definition isTimeoutSignal {F : Type} (lost : bool) (e : signal F) : bool :=
  match e with heartbeatTimeout b _ => Bool.eqb b lost | _ => false end.

Definition countSignals {F : Type} (p : signal F -> bool) (l : list (signal F)) : nat :=
  length (List.filter p l).

(** ** Battery supervision (SYS_STATUS) *)

Record BatteryState (F : Type) := mkBattery {
  startVoltage : F;
  tickVoltage : F;
  lastTickVoltageValue : F;
  tickLowpassVoltage : F;
  warnLevelPercent : F;
  currentVoltage : F;
  lpVoltage : F;
  currentCurrent : F;
  chargeLevel : F;
  lowBattAlarm : bool;
  lastVoltageWarning : Z
}.
Arguments mkBattery {F}.
Arguments startVoltage {F}.
Arguments tickVoltage {F}.
Arguments lastTickVoltageValue {F}.
Arguments tickLowpassVoltage {F}.
Arguments warnLevelPercent {F}.
Arguments currentVoltage {F}.
Arguments lpVoltage {F}.
Arguments currentCurrent {F}.
Arguments chargeLevel {F}.
Arguments lowBattAlarm {F}.
Arguments lastVoltageWarning {F}.

(** The decoded SYS_STATUS payload. *)
Record mavlink_sys_status_t := mkSysStatus {
  onboard_control_sensors_present : Z;
  onboard_control_sensors_enabled : Z;
  onboard_control_sensors_health : Z;
  load : Z;
  voltage_battery : Z;
  current_battery : Z;
  battery_remaining : Z;
  drop_rate_comm : Z;
  errors_comm : Z;
  errors_count1 : Z;
  errors_count2 : Z;
  errors_count3 : Z;
  errors_count4 : Z
}.

Definition UINT16_MAX : Z := 65535.

Section Battery.
Context {F : Type} `{CFloat F}.

(** The battery members as the constructor leaves them. *)
Definition initialBattery : BatteryState F :=
  mkBattery (Flit (-1) 1) (Flit 105 10) (Flit 13 1) (Flit 12 1)
            (F_of_Z 20) (Flit 126 10) (Flit (-1) 1) (Flit 4 10)
            (F_of_Z (-1)) false 0.

(** [UAS::filterVoltage]. *)
Definition filterVoltage (value : F) (b : BatteryState F) : BatteryState F :=
  let lp := if Flt (lpVoltage b) (Flit 0 1) then value else lpVoltage b in
  let lp := Fadd (Fmul lp (Flit 6 10)) (Fmul value (Flit 4 10)) in
  mkBattery (startVoltage b) (tickVoltage b) (lastTickVoltageValue b)
            (tickLowpassVoltage b) (warnLevelPercent b) (currentVoltage b)
            lp (currentCurrent b) (chargeLevel b) (lowBattAlarm b)
            (lastVoltageWarning b).

(** The condition of the voice alert, on the members as they stand when the
    test is reached. *)
Definition tickAlertDue (groundTimeUsecs : Z) (b : BatteryState F) : bool :=
  Fgt (startVoltage b) (Flit 0 1)
  && Flt (tickLowpassVoltage b) (tickVoltage b)
  && Fgt (Fabs (Fsub (lastTickVoltageValue b) (tickLowpassVoltage b))) (Flit 1 10)
  && Flt (lpVoltage b) (tickVoltage b)
  && Fgt (currentVoltage b) (Flit 33 10)
  && Flt (Fsub (currentVoltage b) (Flit 2 10)) (tickVoltage b)
  && (wrap64 (groundTimeUsecs - lastVoltageWarning b) >? 20000000).

(** The members before the alert test: new sample, both filters, and the
    tick reference, which follows the slow filter while it is above the
    threshold. *)
Definition batterySample (voltage : Z) (b : BatteryState F) : BatteryState F :=
  let cur := Fdiv (F_of_Z voltage) (Flit 1000 1) in
  let b1 :=
    mkBattery (startVoltage b) (tickVoltage b) (lastTickVoltageValue b)
              (tickLowpassVoltage b) (warnLevelPercent b) cur
              (lpVoltage b) (currentCurrent b) (chargeLevel b) (lowBattAlarm b)
              (lastVoltageWarning b) in
  let b2 := filterVoltage cur b1 in
  let tick := Fadd (Fmul (tickLowpassVoltage b2) (Flit 8 10))
                   (Fmul (Flit 2 10) cur) in
  let last := if Fgt tick (tickVoltage b2) then tick
              else lastTickVoltageValue b2 in
  mkBattery (startVoltage b2) (tickVoltage b2) last tick
            (warnLevelPercent b2) (currentVoltage b2) (lpVoltage b2)
            (currentCurrent b2) (chargeLevel b2) (lowBattAlarm b2)
            (lastVoltageWarning b2).

(** The battery block of the SYS_STATUS handler. *)
Definition batteryUpdate (uasId groundTimeUsecs : Z) (st : mavlink_sys_status_t)
    (b : BatteryState F) : BatteryState F * list (signal F) :=
  if Fgt (F_of_Z (voltage_battery st)) (Flit 0 1)
     && negb (voltage_battery st =? UINT16_MAX)
  then
    let b3 := batterySample (voltage_battery st) b in
    let '(b4, e4) :=
      if tickAlertDue groundTimeUsecs b3
      then (mkBattery (startVoltage b3) (tickVoltage b3) (tickLowpassVoltage b3)
                      (tickLowpassVoltage b3) (warnLevelPercent b3)
                      (currentVoltage b3) (lpVoltage b3) (currentCurrent b3)
                      (chargeLevel b3) (lowBattAlarm b3) groundTimeUsecs,
            [say (LowBatteryVolts uasId (lpVoltage b3))])
      else (b3, []) in
    let start :=
      if Feqb (startVoltage b4) (Flit (-1) 1)
         && Fgt (currentVoltage b4) (Flit 1 10)
      then currentVoltage b4 else startVoltage b4 in
    let b5 :=
      mkBattery start (tickVoltage b4) (lastTickVoltageValue b4)
                (tickLowpassVoltage b4) (warnLevelPercent b4)
                (currentVoltage b4) (lpVoltage b4) (currentCurrent b4)
                (F_of_Z (battery_remaining st)) (lowBattAlarm b4)
                (lastVoltageWarning b4) in
    (b5, e4 ++ [batteryChanged (lpVoltage b5) (currentCurrent b5)
                               (chargeLevel b5)])
  else (b, []).

(** [UAS::startLowBattAlarm] and [UAS::stopLowBattAlarm]. *)
Definition startLowBattAlarm (uasId : Z) (b : BatteryState F)
  : BatteryState F * list (signal F) :=
  if negb (lowBattAlarm b)
  then (mkBattery (startVoltage b) (tickVoltage b) (lastTickVoltageValue b)
                  (tickLowpassVoltage b) (warnLevelPercent b) (currentVoltage b)
                  (lpVoltage b) (currentCurrent b) (chargeLevel b) true
                  (lastVoltageWarning b),
        [say (LowBatteryPercent uasId)])
  else (b, []).

Definition stopLowBattAlarm (b : BatteryState F) : BatteryState F :=
  if lowBattAlarm b
  then mkBattery (startVoltage b) (tickVoltage b) (lastTickVoltageValue b)
                 (tickLowpassVoltage b) (warnLevelPercent b) (currentVoltage b)
                 (lpVoltage b) (currentCurrent b) (chargeLevel b) false
                 (lastVoltageWarning b)
  else b.

(** The SYS_STATUS handler after its multi-source guard; [time] is the
    value of [getUnixTime()]. *)
Definition handleSysStatus (uasId sysid groundTimeUsecs time : Z)
    (st : mavlink_sys_status_t) (b : BatteryState F)
  : BatteryState F * list (signal F) :=
  let plot name unit v := valueChanged sysid name unit v time in
  let e1 :=
    [plot "SYS_STATUS.sensors_enabled" "bits" (VInt (onboard_control_sensors_enabled st));
     plot "SYS_STATUS.sensors_health" "bits" (VInt (onboard_control_sensors_health st));
     plot "SYS_STATUS.errors_comm" "-" (VInt (errors_comm st));
     plot "SYS_STATUS.errors_count1" "-" (VInt (errors_count1 st));
     plot "SYS_STATUS.errors_count2" "-" (VInt (errors_count2 st));
     plot "SYS_STATUS.errors_count3" "-" (VInt (errors_count3 st));
     plot "SYS_STATUS.errors_count4" "-" (VInt (errors_count4 st));
     loadChanged (Fdiv (F_of_Z (load st)) (Flit 10 1));
     plot "SYS_STATUS.load" "%" (VFloat (Fdiv (F_of_Z (load st)) (Flit 10 1)))] in
  let '(b1, e2) := batteryUpdate uasId groundTimeUsecs st b in
  let e3 :=
    [plot "SYS_STATUS.battery_remaining" "%" (VFloat (chargeLevel b1));
     plot "SYS_STATUS.battery_voltage" "V" (VFloat (currentVoltage b1))] in
  let '(b2, e4) :=
    if negb (current_battery st =? -1)
    then
      let cc := Fdiv (F_of_Z (current_battery st)) (Flit 100 1) in
      (mkBattery (startVoltage b1) (tickVoltage b1) (lastTickVoltageValue b1)
                 (tickLowpassVoltage b1) (warnLevelPercent b1)
                 (currentVoltage b1) (lpVoltage b1) cc (chargeLevel b1)
                 (lowBattAlarm b1) (lastVoltageWarning b1),
       [plot "SYS_STATUS.battery_current" "A" (VFloat cc)])
    else (b1, []) in
  let '(b3, e5) :=
    if Fge (chargeLevel b2) (F_of_Z 0)
       && Flt (chargeLevel b2) (warnLevelPercent b2)
    then startLowBattAlarm uasId b2
    else (stopLowBattAlarm b2, []) in
  let drop := if drop_rate_comm st >? 10000 then 10000 else drop_rate_comm st in
  let e6 :=
    [attitudeControlEnabled (Z.testbit (onboard_control_sensors_enabled st) 11);
     positionYawControlEnabled (Z.testbit (onboard_control_sensors_enabled st) 12);
     positionZControlEnabled (Z.testbit (onboard_control_sensors_enabled st) 13);
     positionXYControlEnabled (Z.testbit (onboard_control_sensors_enabled st) 14);
     dropRateChanged (Fdiv (F_of_Z drop) (Flit 100 1));
     plot "SYS_STATUS.drop_rate_comm" "%" (VFloat (Fdiv (F_of_Z drop) (Flit 100 1)))] in
  (b3, e1 ++ e2 ++ e3 ++ e4 ++ e5 ++ e6).


End Battery.

(** ** Attitude *)

Record AttitudeState (F : Type) := mkAttitude {
  attitudeKnown : bool;
  roll : F;
  pitch : F;
  yaw : F
}.
Arguments mkAttitude {F}.
Arguments attitudeKnown {F}.
Arguments roll {F}.
Arguments pitch {F}.
Arguments yaw {F}.

Record mavlink_attitude_t (F : Type) := mkAttitudeMsg {
  att_time_boot_ms : Z;
  att_roll : F;
  att_pitch : F;
  att_yaw : F;
  att_rollspeed : F;
  att_pitchspeed : F;
  att_yawspeed : F
}.
Arguments mkAttitudeMsg {F}.
Arguments att_time_boot_ms {F}.
Arguments att_roll {F}.
Arguments att_pitch {F}.
Arguments att_yaw {F}.
Arguments att_rollspeed {F}.
Arguments att_pitchspeed {F}.
Arguments att_yawspeed {F}.

Record mavlink_attitude_quaternion_t (F : Type) := mkAttitudeQuaternion {
  aq_time_boot_ms : Z;
  q1 : F;
  q2 : F;
  q3 : F;
  q4 : F;
  aq_rollspeed : F;
  aq_pitchspeed : F;
  aq_yawspeed : F
}.
Arguments mkAttitudeQuaternion {F}.
Arguments aq_time_boot_ms {F}.
Arguments q1 {F}.
Arguments q2 {F}.
Arguments q3 {F}.
Arguments q4 {F}.
Arguments aq_rollspeed {F}.
Arguments aq_pitchspeed {F}.
Arguments aq_yawspeed {F}.

(** [float dcm[3][3]]. *)
Record dcm_t (F : Type) := mkDcm {
  dcm00 : F; dcm01 : F; dcm02 : F;
  dcm10 : F; dcm11 : F; dcm12 : F;
  dcm20 : F; dcm21 : F; dcm22 : F
}.
Arguments mkDcm {F}.
Arguments dcm00 {F}.
Arguments dcm01 {F}.
Arguments dcm02 {F}.
Arguments dcm10 {F}.
Arguments dcm11 {F}.
Arguments dcm12 {F}.
Arguments dcm20 {F}.
Arguments dcm21 {F}.
Arguments dcm22 {F}.

Section Attitude.
Context {F : Type} `{CFloat F} `{Libm F}.

(** The direction-cosine matrix of the ATTITUDE_QUATERNION handler. *)
Definition quaternionToDcm (a b c d : F) : dcm_t F :=
  let aSq := Fmul a a in
  let bSq := Fmul b b in
  let cSq := Fmul c c in
  let dSq := Fmul d d in
  let two := Flit 2 1 in
  mkDcm
    (to_float (Fsub (Fsub (Fadd aSq bSq) cSq) dSq))
    (to_float (Fmul two (Fsub (Fmul b c) (Fmul a d))))
    (to_float (Fmul two (Fadd (Fmul a c) (Fmul b d))))
    (to_float (Fmul two (Fadd (Fmul b c) (Fmul a d))))
    (to_float (Fsub (Fadd (Fsub aSq bSq) cSq) dSq))
    (to_float (Fmul two (Fsub (Fmul c d) (Fmul a b))))
    (to_float (Fmul two (Fsub (Fmul b d) (Fmul a c))))
    (to_float (Fmul two (Fadd (Fmul a b) (Fmul c d))))
    (to_float (Fadd (Fsub (Fsub aSq bSq) cSq) dSq)).

(** The pitch taken from the matrix: [theta = asin(-dcm[2][0])]. *)
Definition dcmPitch (dcm : dcm_t F) : F := to_float (asin (Fneg (dcm20 dcm))).

Definition nearPlus90 (theta : F) : bool :=
  Flt (Fabs (Fsub theta M_PI_2)) (Flit 1 1000).
Definition nearMinus90 (theta : F) : bool :=
  Flt (Fabs (Fadd theta M_PI_2)) (Flit 1 1000).

(** Euler angles [(phi, theta, psi)] from the matrix, with the two
    branches for a pitch of +90 and -90 degrees. *)
Definition dcmToEuler (dcm : dcm_t F) : F * F * F :=
  let theta := dcmPitch dcm in
  if nearPlus90 theta then
    let phi := Flit 0 1 in
    let psi := to_float (Fadd (atan2 (Fsub (dcm12 dcm) (dcm01 dcm))
                                     (Fadd (dcm02 dcm) (dcm11 dcm))) phi) in
    (phi, theta, psi)
  else if nearMinus90 theta then
    let phi := Flit 0 1 in
    let psi := atan2f (Fsub (dcm12 dcm) (dcm01 dcm))
                      (Fsub (Fadd (dcm02 dcm) (dcm11 dcm)) phi) in
    (phi, theta, psi)
  else
    let phi := atan2f (dcm21 dcm) (dcm22 dcm) in
    let psi := atan2f (dcm10 dcm) (dcm00 dcm) in
    (phi, theta, psi).

Definition quaternionToEuler (q : mavlink_attitude_quaternion_t F) : F * F * F :=
  dcmToEuler (quaternionToDcm (q1 q) (q2 q) (q3 q) (q4 q)).

(** The common tail of the two attitude handlers.  [setRoll], [setPitch]
    and [setYaw] are inline members of the header; they are taken as the
    assignments their names say. *)
Definition attitudeUpdate (compid : Z) (wrongComponent : bool)
    (phi theta psi : F) (rates : F * F * F) (time : Z)
    (ts : TimeState) (a : AttitudeState F)
  : TimeState * AttitudeState F * list (signal F) :=
  let e1 := [attitudeChangedComp compid (limitAngleToPMPIf phi)
               (limitAngleToPMPIf theta) (limitAngleToPMPIf psi) time] in
  if negb wrongComponent then
    let ts1 := mkTime (attitudeStamped ts) time (onboardTimeOffset ts)
                      (lastNonNullTime ts) in
    let a1 := mkAttitude true (limitAngleToPMPIf phi) (limitAngleToPMPIf theta)
                         (limitAngleToPMPIf psi) in
    (ts1, a1,
     e1 ++ [attitudeChanged (roll a1) (pitch a1) (yaw a1) time;
            attitudeRotationRatesChanged (fst (fst rates)) (snd (fst rates))
                                         (snd rates) time])
  else (ts, a, e1).

(** The ATTITUDE handler. *)
Definition handleAttitude (compid : Z) (wrongComponent : bool)
    (groundTimeMilliseconds : Z) (m : mavlink_attitude_t F)
    (ts : TimeState) (a : AttitudeState F)
  : TimeState * AttitudeState F * list (signal F) :=
  let '(time, ts0) := getUnixReferenceTime groundTimeMilliseconds
                        (att_time_boot_ms m) ts in
  attitudeUpdate compid wrongComponent (att_roll m) (att_pitch m) (att_yaw m)
                 (att_rollspeed m, att_pitchspeed m, att_yawspeed m) time ts0 a.

(** The ATTITUDE_QUATERNION handler. *)
Definition handleAttitudeQuaternion (compid : Z) (wrongComponent : bool)
    (groundTimeMilliseconds : Z) (m : mavlink_attitude_quaternion_t F)
    (ts : TimeState) (a : AttitudeState F)
  : TimeState * AttitudeState F * list (signal F) :=
  let '(time, ts0) := getUnixReferenceTime groundTimeMilliseconds
                        (aq_time_boot_ms m) ts in
  let '(phi, theta, psi) := quaternionToEuler m in
  attitudeUpdate compid wrongComponent phi theta psi
                 (aq_rollspeed m, aq_pitchspeed m, aq_yawspeed m) time ts0 a.

End Attitude.

(** ** Image transfer *)

Record ImageState := mkImage {
  imageSize : Z;
  imagePackets : Z;
  imagePacketsArrived : Z;
  imagePayload : Z;
  imageQuality : Z;
  imageType : Z;
  imageWidth : Z;
  imageHeight : Z;
  imageStart : Z;
  imageRecBuffer : list Z
}.

Record mavlink_data_transmission_handshake_t := mkHandshake {
  h_size : Z;
  h_width : Z;
  h_height : Z;
  h_packets : Z;
  h_type : Z;
  h_payload : Z;
  h_jpg_quality : Z
}.

Record mavlink_encapsulated_data_t := mkEncapsulated {
  seqnr : Z;
  data : list Z
}.

(** The DATA_TRANSMISSION_HANDSHAKE handler.  [p.size] is a [uint32_t]
    assigned to an [int]. *)
Definition handleHandshake (groundTimeMilliseconds : Z)
    (p : mavlink_data_transmission_handshake_t) (im : ImageState) : ImageState :=
  mkImage (to_int32 (h_size p)) (h_packets p) 0 (h_payload p)
          (h_jpg_quality p) (h_type p) (h_width p) (h_height p)
          groundTimeMilliseconds (imageRecBuffer im).

(** [imageRecBuffer[pos] = c] on a [QByteArray]: an assignment past the end
    extends the array up to [pos]; the bytes in between are not
    initialised by Qt and are shown as 0 here. *)
Definition bufferAssign (pos c : Z) (buf : list Z) : list Z :=
  if pos <? Z.of_nat (length buf)
  then <[Z.to_nat pos := c]> buf
  else buf ++ replicate (Z.to_nat pos - length buf) 0 ++ [c].

(** The copy loop of the ENCAPSULATED_DATA handler: [n] iterations remain,
    [i] is the loop counter and [pos] the running write position.  Returns
    the buffer and the positions assigned, in order. *)
Fixpoint copyChunk (n : nat) (i pos size : Z) (bytes : list Z)
    (buf : list Z) : list Z * list Z :=
  match n with
  | O => (buf, [])
  | S n' =>
      if pos <=? size then
        let '(buf', ws) :=
          copyChunk n' (i + 1) (pos + 1) size bytes
                    (bufferAssign pos (nth (Z.to_nat i) bytes 0) buf) in
        (buf', pos :: ws)
      else copyChunk n' (i + 1) (pos + 1) size bytes buf
  end.

(** The ENCAPSULATED_DATA handler. *)
Definition handleEncapsulatedData {F : Type} (img : mavlink_encapsulated_data_t)
    (im : ImageState) : ImageState * list (signal F) :=
  let seq := seqnr img in
  let pos := seq * imagePayload im in
  if imagePackets im =? 0 then
    (mkImage (imageSize im) (imagePackets im) 0 (imagePayload im)
             (imageQuality im) (imageType im) (imageWidth im) (imageHeight im)
             (imageStart im) (imageRecBuffer im), [])
  else
    let buf := fst (copyChunk (Z.to_nat (imagePayload im)) 0 pos (imageSize im)
                              (data img) (imageRecBuffer im)) in
    let arrived := imagePacketsArrived im + 1 in
    if arrived >=? imagePackets im then
      (mkImage (imageSize im) 0 0 (imagePayload im)
               (imageQuality im) (imageType im) (imageWidth im) (imageHeight im)
               (imageStart im) buf, [imageReady])
    else
      (mkImage (imageSize im) (imagePackets im) arrived (imagePayload im)
               (imageQuality im) (imageType im) (imageWidth im) (imageHeight im)
               (imageStart im) buf, []).

(** The positions a chunk assigns in the receive buffer. *)
Definition chunkWrites (img : mavlink_encapsulated_data_t) (im : ImageState)
  : list Z :=
  if imagePackets im =? 0 then []
  else snd (copyChunk (Z.to_nat (imagePayload im)) 0
                      (seqnr img * imagePayload im) (imageSize im)
                      (data img) (imageRecBuffer im)).

(** A run of data chunks; the signals of each chunk are kept apart. *)
Fixpoint imageRun {F : Type} (chunks : list mavlink_encapsulated_data_t)
    (im : ImageState) : ImageState * list (list (signal F)) :=
  match chunks with
  | [] => (im, [])
  | c :: rest =>
      let '(im1, e) := handleEncapsulatedData c im in
      let '(im2, es) := imageRun rest im1 in
      (im2, e :: es)
  end.

(** ** Messages *)

(** Message identifiers, component identifiers and enumerations of the
    MAVLink common dialect. *)
Definition MAVLINK_MSG_ID_HEARTBEAT : Z := 0.
Definition MAVLINK_MSG_ID_SYS_STATUS : Z := 1.
Definition MAVLINK_MSG_ID_PARAM_VALUE : Z := 22.
Definition MAVLINK_MSG_ID_GPS_RAW_INT : Z := 24.
Definition MAVLINK_MSG_ID_GPS_STATUS : Z := 25.
Definition MAVLINK_MSG_ID_SCALED_IMU : Z := 26.
Definition MAVLINK_MSG_ID_RAW_IMU : Z := 27.
Definition MAVLINK_MSG_ID_RAW_PRESSURE : Z := 28.
Definition MAVLINK_MSG_ID_SCALED_PRESSURE : Z := 29.
Definition MAVLINK_MSG_ID_ATTITUDE : Z := 30.
Definition MAVLINK_MSG_ID_ATTITUDE_QUATERNION : Z := 31.
Definition MAVLINK_MSG_ID_LOCAL_POSITION_NED : Z := 32.
Definition MAVLINK_MSG_ID_GLOBAL_POSITION_INT : Z := 33.
Definition MAVLINK_MSG_ID_RC_CHANNELS_SCALED : Z := 34.
Definition MAVLINK_MSG_ID_GPS_GLOBAL_ORIGIN : Z := 49.
Definition MAVLINK_MSG_ID_NAV_CONTROLLER_OUTPUT : Z := 62.
Definition MAVLINK_MSG_ID_RC_CHANNELS : Z := 65.
Definition MAVLINK_MSG_ID_MANUAL_CONTROL : Z := 69.
Definition MAVLINK_MSG_ID_VFR_HUD : Z := 74.
Definition MAVLINK_MSG_ID_COMMAND_ACK : Z := 77.
Definition MAVLINK_MSG_ID_ATTITUDE_TARGET : Z := 83.
Definition MAVLINK_MSG_ID_SET_POSITION_TARGET_LOCAL_NED : Z := 84.
Definition MAVLINK_MSG_ID_POSITION_TARGET_LOCAL_NED : Z := 85.
Definition MAVLINK_MSG_ID_HIL_CONTROLS : Z := 91.
Definition MAVLINK_MSG_ID_OPTICAL_FLOW : Z := 100.
Definition MAVLINK_MSG_ID_GLOBAL_VISION_POSITION_ESTIMATE : Z := 101.
Definition MAVLINK_MSG_ID_HIGHRES_IMU : Z := 105.
Definition MAVLINK_MSG_ID_DATA_TRANSMISSION_HANDSHAKE : Z := 130.
Definition MAVLINK_MSG_ID_ENCAPSULATED_DATA : Z := 131.
Definition MAVLINK_MSG_ID_DISTANCE_SENSOR : Z := 132.
Definition MAVLINK_MSG_ID_BATTERY_STATUS : Z := 147.
Definition MAVLINK_MSG_ID_DEBUG_VECT : Z := 250.
Definition MAVLINK_MSG_ID_NAMED_VALUE_FLOAT : Z := 251.
Definition MAVLINK_MSG_ID_NAMED_VALUE_INT : Z := 252.
Definition MAVLINK_MSG_ID_STATUSTEXT : Z := 253.
Definition MAVLINK_MSG_ID_DEBUG : Z := 254.

Definition MAV_COMP_ID_ALL : Z := 0.
Definition MAV_COMP_ID_CAMERA : Z := 100.
Definition MAV_COMP_ID_MISSIONPLANNER : Z := 190.
Definition MAV_COMP_ID_IMU : Z := 200.
Definition MAV_COMP_ID_IMU_2 : Z := 201.

Definition MAV_STATE_UNINIT : Z := 0.
Definition MAV_STATE_BOOT : Z := 1.
Definition MAV_STATE_CALIBRATING : Z := 2.
Definition MAV_STATE_STANDBY : Z := 3.
Definition MAV_STATE_ACTIVE : Z := 4.
Definition MAV_STATE_CRITICAL : Z := 5.
Definition MAV_STATE_EMERGENCY : Z := 6.
Definition MAV_STATE_POWEROFF : Z := 7.

Definition MAV_RESULT_ACCEPTED : Z := 0.
Definition MAV_RESULT_TEMPORARILY_REJECTED : Z := 1.
Definition MAV_RESULT_DENIED : Z := 2.
Definition MAV_RESULT_UNSUPPORTED : Z := 3.
Definition MAV_RESULT_FAILED : Z := 4.

Definition MAV_SEVERITY_ERROR : Z := 3.
Definition MAV_SEVERITY_WARNING : Z := 4.
Definition MAV_SEVERITY_INFO : Z := 6.

Definition MAV_TYPE_GENERIC : Z := 0.
Definition MAV_TYPE_FIXED_WING : Z := 1.
Definition MAV_TYPE_QUADROTOR : Z := 2.
Definition MAV_TYPE_HEXAROTOR : Z := 13.

Record mavlink_heartbeat_t := mkHeartbeat {
  hb_custom_mode : Z;
  hb_type : Z;
  hb_autopilot : Z;
  hb_base_mode : Z;
  hb_system_status : Z
}.

Record mavlink_battery_status_t := mkBatteryStatus {
  current_consumed : Z
}.

Record mavlink_command_ack_t := mkCommandAck {
  command : Z;
  result : Z
}.

Record mavlink_attitude_target_t (F : Type) := mkAttitudeTarget {
  at_time_boot_ms : Z;
  at_q : F * F * F * F;
  at_thrust : F
}.
Arguments mkAttitudeTarget {F}.
Arguments at_time_boot_ms {F}.
Arguments at_q {F}.
Arguments at_thrust {F}.

Record mavlink_position_target_local_ned_t (F : Type) := mkPositionTarget {
  pt_time_boot_ms : Z;
  pt_x : F;
  pt_y : F;
  pt_z : F
}.
Arguments mkPositionTarget {F}.
Arguments pt_time_boot_ms {F}.
Arguments pt_x {F}.
Arguments pt_y {F}.
Arguments pt_z {F}.

(** A received message.  The [mavlink_msg_*_decode] functions of the
    generated headers are functions of the message alone; a message carries
    the value of each of them, so that a statement over all messages is a
    statement over all payloads and all decoders.  In particular the
    message of one type also has a value under the decoder of another. *)
Record mavlink_message_t (F : Type) := mkMessage {
  sysid : Z;
  compid : Z;
  msgid : Z;
  mavlink_msg_heartbeat_decode : mavlink_heartbeat_t;
  mavlink_msg_battery_status_decode : mavlink_battery_status_t;
  mavlink_msg_sys_status_decode : mavlink_sys_status_t;
  mavlink_msg_attitude_decode : mavlink_attitude_t F;
  mavlink_msg_attitude_quaternion_decode : mavlink_attitude_quaternion_t F;
  mavlink_msg_command_ack_decode : mavlink_command_ack_t;
  mavlink_msg_attitude_target_decode : mavlink_attitude_target_t F;
  mavlink_msg_position_target_local_ned_decode : mavlink_position_target_local_ned_t F;
  mavlink_msg_data_transmission_handshake_decode : mavlink_data_transmission_handshake_t;
  mavlink_msg_encapsulated_data_decode : mavlink_encapsulated_data_t
}.
Arguments mkMessage {F}.
Arguments sysid {F}.
Arguments compid {F}.
Arguments msgid {F}.
Arguments mavlink_msg_heartbeat_decode {F}.
Arguments mavlink_msg_battery_status_decode {F}.
Arguments mavlink_msg_sys_status_decode {F}.
Arguments mavlink_msg_attitude_decode {F}.
Arguments mavlink_msg_attitude_quaternion_decode {F}.
Arguments mavlink_msg_command_ack_decode {F}.
Arguments mavlink_msg_attitude_target_decode {F}.
Arguments mavlink_msg_position_target_local_ned_decode {F}.
Arguments mavlink_msg_data_transmission_handshake_decode {F}.
Arguments mavlink_msg_encapsulated_data_decode {F}.

(** The two readings of the ground clock available to one call. *)
Record clock := mkClock {
  groundTimeUsecs : Z;
  groundTimeMilliseconds : Z
}.

(** ** Vehicle state *)

Record ModeState := mkMode {
  type : Z;
  autopilot : Z;
  airframe : Z;
  base_mode : Z;
  custom_mode : Z;
  status : Z
}.

(** The members of [UAS] read or written by the code below.  [rest] stands
    for the members that only the handlers taken as parameters write
    (position, velocity, satellite count, ...). *)
Record UAS (F Rest : Type) := mkUAS {
  uasId : Z;
  components : gmap Z string;
  componentID : gmap Z Z;
  componentMulti : gmap Z bool;
  unknownPackets : list Z;
  timeS : TimeState;
  link : LinkState;
  mode : ModeState;
  battery : BatteryState F;
  attitude : AttitudeState F;
  image : ImageState;
  rest : Rest
}.
Arguments mkUAS {F Rest}.
Arguments uasId {F Rest}.
Arguments components {F Rest}.
Arguments componentID {F Rest}.
Arguments componentMulti {F Rest}.
Arguments unknownPackets {F Rest}.
Arguments timeS {F Rest}.
Arguments link {F Rest}.
Arguments mode {F Rest}.
Arguments battery {F Rest}.
Arguments attitude {F Rest}.
Arguments image {F Rest}.
Arguments rest {F Rest}.

(** Parameters of the dispatcher: the end of the vehicle-type enumeration,
    the airframe setter of the class header, and the bodies of the cases
    that are built from setters of the class header and are not modelled
    here (HIL_CONTROLS, VFR_HUD, LOCAL_POSITION_NED,
    GLOBAL_VISION_POSITION_ESTIMATE, GLOBAL_POSITION_INT, GPS_RAW_INT,
    GPS_STATUS, GPS_GLOBAL_ORIGIN, RC_CHANNELS, RC_CHANNELS_SCALED,
    PARAM_VALUE, SET_POSITION_TARGET_LOCAL_NED, STATUSTEXT,
    NAV_CONTROLLER_OUTPUT).  [handleOther id wrongComponent message clock]
    is the body of the case for [id]; every property below holds for all
    such bodies. *)
Class Collaborators (F Rest : Type) := {
  MAV_TYPE_ENUM_END : Z;
  setAirframeFor : Z -> ModeState -> ModeState * list (signal F);
  handleOther : Z -> bool -> mavlink_message_t F -> clock ->
                UAS F Rest -> UAS F Rest * list (signal F)
}.

Section Dispatcher.
Context {F Rest : Type} `{CFloat F} `{Libm F} `{Collaborators F Rest}.

Local Abbreviation State := (UAS F Rest).
Local Abbreviation Signals := (list (signal F)).

Definition withComponents (c : gmap Z string) (s : State) : State :=
  mkUAS (uasId s) c (componentID s) (componentMulti s) (unknownPackets s)
        (timeS s) (link s) (mode s) (battery s) (attitude s) (image s) (rest s).
Definition withOwnership (ids : gmap Z Z) (multi : gmap Z bool) (s : State) : State :=
  mkUAS (uasId s) (components s) ids multi (unknownPackets s)
        (timeS s) (link s) (mode s) (battery s) (attitude s) (image s) (rest s).
Definition withUnknownPackets (u : list Z) (s : State) : State :=
  mkUAS (uasId s) (components s) (componentID s) (componentMulti s) u
        (timeS s) (link s) (mode s) (battery s) (attitude s) (image s) (rest s).
Definition withTime (t : TimeState) (s : State) : State :=
  mkUAS (uasId s) (components s) (componentID s) (componentMulti s)
        (unknownPackets s) t (link s) (mode s) (battery s) (attitude s)
        (image s) (rest s).
Definition withLink (l : LinkState) (s : State) : State :=
  mkUAS (uasId s) (components s) (componentID s) (componentMulti s)
        (unknownPackets s) (timeS s) l (mode s) (battery s) (attitude s)
        (image s) (rest s).
Definition withMode (m : ModeState) (s : State) : State :=
  mkUAS (uasId s) (components s) (componentID s) (componentMulti s)
        (unknownPackets s) (timeS s) (link s) m (battery s) (attitude s)
        (image s) (rest s).
Definition withBattery (b : BatteryState F) (s : State) : State :=
  mkUAS (uasId s) (components s) (componentID s) (componentMulti s)
        (unknownPackets s) (timeS s) (link s) (mode s) b (attitude s)
        (image s) (rest s).
Definition withAttitude (a : AttitudeState F) (s : State) : State :=
  mkUAS (uasId s) (components s) (componentID s) (componentMulti s)
        (unknownPackets s) (timeS s) (link s) (mode s) (battery s) a
        (image s) (rest s).
Definition withImage (i : ImageState) (s : State) : State :=
  mkUAS (uasId s) (components s) (componentID s) (componentMulti s)
        (unknownPackets s) (timeS s) (link s) (mode s) (battery s)
        (attitude s) i (rest s).

(** [componentID[id]] and [componentMulti[id]]; the constructor fills the
    arrays with -1 and false. *)
Definition ownerOf (s : State) (id : Z) : Z := default (-1) (componentID s !! id).
Definition multiOf (s : State) (id : Z) : bool :=
  default false (componentMulti s !! id).

(** [UAS::setSystemType]. *)
Definition setSystemType (systemType : Z) (m : ModeState)
  : ModeState * Signals :=
  if (systemType >=? MAV_TYPE_GENERIC) && (systemType <? MAV_TYPE_ENUM_END)
  then
    let m1 := mkMode systemType (autopilot m) (airframe m) (base_mode m)
                     (custom_mode m) (status m) in
    let '(m2, e) :=
      if airframe m1 =? 0 then
        if (type m1 =? MAV_TYPE_FIXED_WING) || (type m1 =? MAV_TYPE_QUADROTOR)
           || (type m1 =? MAV_TYPE_HEXAROTOR)
        then setAirframeFor (type m1) m1
        else (m1, [])
      else (m1, []) in
    (m2, e ++ [systemSpecsChanged; systemTypeSet (type m2)])
  else (m, []).

(** [UAS::getStatusForCode]. *)
Definition getStatusForCode (statusCode : Z) : string * string :=
  if statusCode =? MAV_STATE_UNINIT then ("UNINIT", "Unitialized, booting up.")
  else if statusCode =? MAV_STATE_BOOT then ("BOOT", "Booting system, please wait.")
  else if statusCode =? MAV_STATE_CALIBRATING
    then ("CALIBRATING", "Calibrating sensors, please wait.")
  else if statusCode =? MAV_STATE_ACTIVE then ("ACTIVE", "Active, normal operation.")
  else if statusCode =? MAV_STATE_STANDBY
    then ("STANDBY", "Standby mode, ready for launch.")
  else if statusCode =? MAV_STATE_CRITICAL
    then ("CRITICAL", "FAILURE: Continuing operation.")
  else if statusCode =? MAV_STATE_EMERGENCY
    then ("EMERGENCY", "EMERGENCY: Land Immediately!")
  else if statusCode =? MAV_STATE_POWEROFF then ("SHUTDOWN", "Powering off system.")
  else ("UNKNOWN", "Unknown system state").

Definition audioState (uasState : string) : string :=
  if String.eqb uasState "STANDBY" then "standing by"
  else if String.eqb uasState "EMERGENCY" then "emergency condition"
  else if String.eqb uasState "CRITICAL" then "critical condition"
  else if String.eqb uasState "SHUTDOWN" then "shutting down"
  else uasState.

(** The HEARTBEAT handler after its multi-source guard.  The flight-mode
    name supplied by the firmware plugin is part of the spoken text only and
    is left out of [SystemModeState]. *)
Definition handleHeartbeat (message : mavlink_message_t F) (clk : clock)
    (s : State) : State * Signals :=
  let s1 := withLink (mkLink (groundTimeUsecs clk) (connectionLost (link s))
                             (connectionLossTime (link s)) (receivedMode (link s))
                             (positionLock (link s))) s in
  let state := mavlink_msg_heartbeat_decode message in
  let '(time, ts) := getUnixTime (groundTimeMilliseconds clk) 0 (timeS s1) in
  let s2 := withTime ts s1 in
  let e1 :=
    [heartbeat;
     valueChanged (sysid message) "HEARTBEAT.base_mode" "bits"
                  (VInt (hb_base_mode state)) time;
     valueChanged (sysid message) "HEARTBEAT.custom_mode" "bits"
                  (VInt (hb_custom_mode state)) time;
     valueChanged (sysid message) "HEARTBEAT.system_status" "-"
                  (VInt (hb_system_status state)) time] in
  let '(m1, e2) :=
    if negb (type (mode s2) =? hb_type state) then
      setSystemType (hb_type state)
        (mkMode (type (mode s2)) (hb_autopilot state) (airframe (mode s2))
                (base_mode (mode s2)) (custom_mode (mode s2)) (status (mode s2)))
    else (mode s2, []) in
  let statechanged :=
    negb (hb_system_status state =? status m1)
    && negb (hb_system_status state =? MAV_STATE_UNINIT) in
  let '(m2, e3, stateAudio) :=
    if statechanged then
      let '(uasState, stateDescription) := getStatusForCode (hb_system_status state) in
      (mkMode (type m1) (autopilot m1) (airframe m1) (base_mode m1)
              (custom_mode m1) (hb_system_status state),
       [statusChanged uasState stateDescription;
        statusChangedCode (hb_system_status state)],
       audioState uasState)
    else (m1, [], ""%string) in
  let modechanged :=
    negb (base_mode m2 =? hb_base_mode state)
    || negb (custom_mode m2 =? hb_custom_mode state) in
  let m3 :=
    if modechanged then
      mkMode (type m2) (autopilot m2) (airframe m2) (hb_base_mode state)
             (hb_custom_mode state) (status m2)
    else m2 in
  let s3 := withLink (mkLink (lastHeartbeat (link s2)) (connectionLost (link s2))
                             (connectionLossTime (link s2)) true
                             (positionLock (link s2)))
                     (withMode m3 s2) in
  let e4 :=
    if statechanged
       && ((hb_system_status state =? MAV_STATE_CRITICAL)
           || (hb_system_status state =? MAV_STATE_EMERGENCY))
    then [say (EmergencyFor (uasId s)); startEmergencyTimer]
    else if modechanged || statechanged
    then [say (SystemModeState (uasId s) modechanged statechanged stateAudio)]
    else [] in
  (s3, e1 ++ e2 ++ e3 ++ e4).

(** The ATTITUDE_TARGET handler. *)
Definition handleAttitudeTarget (message : mavlink_message_t F) (clk : clock)
    (s : State) : State * Signals :=
  let out := mavlink_msg_attitude_target_decode message in
  let '(roll, pitch, yaw) := mavlink_quaternion_to_euler (at_q out) in
  let '(time, ts) := getUnixTimeFromMs (groundTimeMilliseconds clk)
                       (at_time_boot_ms out) (timeS s) in
  (withTime ts s,
   [attitudeThrustSetPointChanged roll pitch yaw (at_thrust out) time;
    valueChanged (uasId s) "roll sp" "rad" (VFloat roll) time;
    valueChanged (uasId s) "pitch sp" "rad" (VFloat pitch) time;
    valueChanged (uasId s) "yaw sp" "rad" (VFloat yaw) time]).

(** The text of the COMMAND_ACK case for a result code; none for a code
    outside the five listed. *)
Definition commandAckText (message : mavlink_message_t F) (s : State) : Signals :=
  let ack := mavlink_msg_command_ack_decode message in
  let text severity t :=
    [textMessageReceived (compid message) severity t (command ack)] in
  if result ack =? MAV_RESULT_ACCEPTED
    then text MAV_SEVERITY_INFO "SUCCESS: Executed CMD: %1"
  else if result ack =? MAV_RESULT_TEMPORARILY_REJECTED
    then text MAV_SEVERITY_WARNING "FAILURE: Temporarily rejected CMD: %1"
  else if result ack =? MAV_RESULT_DENIED
    then text MAV_SEVERITY_ERROR "FAILURE: Denied CMD: %1"
  else if result ack =? MAV_RESULT_UNSUPPORTED
    then text MAV_SEVERITY_WARNING "FAILURE: Unsupported CMD: %1"
  else if result ack =? MAV_RESULT_FAILED
    then text MAV_SEVERITY_ERROR "FAILURE: Failed CMD: %1"
  else [].

(** The COMMAND_ACK case.  Its block is not closed by a [break]: control
    continues into the ATTITUDE_TARGET case that follows it. *)
Definition handleCommandAck (message : mavlink_message_t F) (clk : clock)
    (s : State) : State * Signals :=
  let e1 := commandAckText message s in
  let '(s1, e2) := handleAttitudeTarget message clk s in
  (s1, e1 ++ e2).

(** The POSITION_TARGET_LOCAL_NED handler after its guard. *)
Definition handlePositionTarget (message : mavlink_message_t F) (clk : clock)
    (s : State) : State * Signals :=
  let p := mavlink_msg_position_target_local_ned_decode message in
  let '(time, ts) := getUnixTimeFromMs (groundTimeMilliseconds clk)
                       (pt_time_boot_ms p) (timeS s) in
  (withTime ts s, [positionSetPointsChanged (pt_x p) (pt_y p) (pt_z p) time]).

(** Case labels whose bodies are [handleOther]. *)
Definition otherIds : list Z :=
  [MAVLINK_MSG_ID_HIL_CONTROLS; MAVLINK_MSG_ID_VFR_HUD;
   MAVLINK_MSG_ID_LOCAL_POSITION_NED;
   MAVLINK_MSG_ID_GLOBAL_VISION_POSITION_ESTIMATE;
   MAVLINK_MSG_ID_GLOBAL_POSITION_INT; MAVLINK_MSG_ID_GPS_RAW_INT;
   MAVLINK_MSG_ID_GPS_STATUS; MAVLINK_MSG_ID_GPS_GLOBAL_ORIGIN;
   MAVLINK_MSG_ID_RC_CHANNELS; MAVLINK_MSG_ID_RC_CHANNELS_SCALED;
   MAVLINK_MSG_ID_PARAM_VALUE; MAVLINK_MSG_ID_SET_POSITION_TARGET_LOCAL_NED;
   MAVLINK_MSG_ID_STATUSTEXT; MAVLINK_MSG_ID_NAV_CONTROLLER_OUTPUT].

(** "Messages to ignore". *)
Definition ignoredIds : list Z :=
  [MAVLINK_MSG_ID_RAW_IMU; MAVLINK_MSG_ID_SCALED_IMU;
   MAVLINK_MSG_ID_RAW_PRESSURE; MAVLINK_MSG_ID_SCALED_PRESSURE;
   MAVLINK_MSG_ID_OPTICAL_FLOW; MAVLINK_MSG_ID_DEBUG_VECT;
   MAVLINK_MSG_ID_DEBUG; MAVLINK_MSG_ID_NAMED_VALUE_FLOAT;
   MAVLINK_MSG_ID_NAMED_VALUE_INT; MAVLINK_MSG_ID_MANUAL_CONTROL;
   MAVLINK_MSG_ID_HIGHRES_IMU; MAVLINK_MSG_ID_DISTANCE_SENSOR].

Definition memZ (x : Z) (l : list Z) : bool := existsb (Z.eqb x) l.

(** The name under which a component enters the registry. *)
Definition componentName (id : Z) : string :=
  if id =? MAV_COMP_ID_ALL then "ANONYMOUS"
  else if id =? MAV_COMP_ID_IMU then "IMU #1"
  else if id =? MAV_COMP_ID_CAMERA then "CAMERA"
  else if id =? MAV_COMP_ID_MISSIONPLANNER then "MISSIONPLANNER"
  else "".

(** First statement of [receiveMessage]: the sender's component enters the
    registry if it is not there yet. *)
Definition registerComponent (message : mavlink_message_t F) (s : State) : State :=
  match components s !! compid message with
  | Some _ => s
  | None =>
      withComponents (<[compid message := componentName (compid message)]>
                        (components s)) s
  end.

(** The condition under which a message is processed. *)
Definition accepted (message : mavlink_message_t F) (s : State) : bool :=
  (sysid message =? uasId s)
  && (negb (attitudeStamped (timeS s))
      || (attitudeStamped (timeS s) && negb (lastAttitude (timeS s) =? 0))
      || (msgid message =? MAVLINK_MSG_ID_ATTITUDE)).

(** Ownership of the message type: returns the state with the two arrays
    updated, [wrongComponent] and [multiComponentSourceDetected]. *)
Definition resolveOwnership (message : mavlink_message_t F) (s : State)
  : State * bool * bool :=
  let id := msgid message in
  let ids1 :=
    if compid message =? MAV_COMP_ID_IMU_2
    then <[id := MAV_COMP_ID_IMU_2]> (componentID s)
    else componentID s in
  let '(ids2, multi2, wrongComponent) :=
    if default (-1) (ids1 !! id) =? -1
    then (<[id := compid message]> ids1, componentMulti s, false)
    else if negb (default (-1) (ids1 !! id) =? compid message)
    then (ids1, <[id := true]> (componentMulti s), true)
    else (ids1, componentMulti s, false) in
  let multiComponentSourceDetected := default false (multi2 !! id) in
  (withOwnership ids2 multi2 s, wrongComponent, multiComponentSourceDetected).

(** The [switch (message.msgid)]. *)
Definition dispatch (message : mavlink_message_t F) (clk : clock)
    (wrongComponent multiComponentSourceDetected : bool) (s : State)
  : State * Signals :=
  let id := msgid message in
  let guarded := multiComponentSourceDetected && wrongComponent in
  if id =? MAVLINK_MSG_ID_HEARTBEAT then
    if guarded then (s, []) else handleHeartbeat message clk s
  else if id =? MAVLINK_MSG_ID_BATTERY_STATUS then
    if guarded then (s, [])
    else (s, [batteryConsumedChanged
                (current_consumed (mavlink_msg_battery_status_decode message))])
  else if id =? MAVLINK_MSG_ID_SYS_STATUS then
    if guarded then (s, [])
    else
      let '(time, ts) := getUnixTime (groundTimeMilliseconds clk) 0 (timeS s) in
      let '(b, e) := handleSysStatus (uasId s) (sysid message)
                       (groundTimeUsecs clk) time
                       (mavlink_msg_sys_status_decode message) (battery s) in
      (withBattery b (withTime ts s), e)
  else if id =? MAVLINK_MSG_ID_ATTITUDE then
    let '(ts, a, e) := handleAttitude (compid message) wrongComponent
                         (groundTimeMilliseconds clk)
                         (mavlink_msg_attitude_decode message)
                         (timeS s) (attitude s) in
    (withAttitude a (withTime ts s), e)
  else if id =? MAVLINK_MSG_ID_ATTITUDE_QUATERNION then
    let '(ts, a, e) := handleAttitudeQuaternion (compid message) wrongComponent
                         (groundTimeMilliseconds clk)
                         (mavlink_msg_attitude_quaternion_decode message)
                         (timeS s) (attitude s) in
    (withAttitude a (withTime ts s), e)
  else if id =? MAVLINK_MSG_ID_COMMAND_ACK then handleCommandAck message clk s
  else if id =? MAVLINK_MSG_ID_ATTITUDE_TARGET then
    handleAttitudeTarget message clk s
  else if id =? MAVLINK_MSG_ID_POSITION_TARGET_LOCAL_NED then
    if guarded then (s, []) else handlePositionTarget message clk s
  else if id =? MAVLINK_MSG_ID_DATA_TRANSMISSION_HANDSHAKE then
    (withImage (handleHandshake (groundTimeMilliseconds clk)
                  (mavlink_msg_data_transmission_handshake_decode message)
                  (image s)) s, [])
  else if id =? MAVLINK_MSG_ID_ENCAPSULATED_DATA then
    let '(im, e) := handleEncapsulatedData
                      (mavlink_msg_encapsulated_data_decode message) (image s) in
    (withImage im s, e)
  else if memZ id otherIds then handleOther id wrongComponent message clk s
  else if memZ id ignoredIds then (s, [])
  else if memZ id (unknownPackets s) then (s, [])
  else (withUnknownPackets (unknownPackets s ++ [id]) s, []).

(** [UAS::receiveMessage]. *)
Definition receiveMessage (message : mavlink_message_t F) (clk : clock)
    (s : State) : State * Signals :=
  let s1 := registerComponent message s in
  if accepted message s1 then
    let '(s2, wrongComponent, multiComponentSourceDetected) :=
      resolveOwnership message s1 in
    dispatch message clk wrongComponent multiComponentSourceDetected s2
  else (s1, []).

End Dispatcher.

(** ** Vehicle classes *)

Definition MAV_TYPE_COAXIAL : Z := 3.
Definition MAV_TYPE_HELICOPTER : Z := 4.
Definition MAV_TYPE_AIRSHIP : Z := 7.
Definition MAV_TYPE_OCTOROTOR : Z := 14.
Definition MAV_TYPE_TRICOPTER : Z := 15.
Definition MAV_TYPE_FLAPPING_WING : Z := 16.

(** [UAS::isRotaryWing], [UAS::isFixedWing] and [UAS::isAirplane], on the
    [type] member. *)
Definition isRotaryWing (type : Z) : bool :=
  (type =? MAV_TYPE_QUADROTOR) || (type =? MAV_TYPE_COAXIAL)
  || (type =? MAV_TYPE_HELICOPTER) || (type =? MAV_TYPE_HEXAROTOR)
  || (type =? MAV_TYPE_OCTOROTOR) || (type =? MAV_TYPE_TRICOPTER).

Definition isFixedWing (type : Z) : bool := type =? MAV_TYPE_FIXED_WING.

Definition isAirplane (type : Z) : bool :=
  (type =? MAV_TYPE_GENERIC) || (type =? MAV_TYPE_FIXED_WING)
  || (type =? MAV_TYPE_AIRSHIP) || (type =? MAV_TYPE_FLAPPING_WING).

(** ** Outbound commands *)

Definition MAV_CMD_DO_SET_HOME : Z := 179.
Definition MAV_CMD_PREFLIGHT_CALIBRATION : Z := 241.
Definition MAV_CMD_PREFLIGHT_UAVCAN : Z := 243.
Definition MAV_FRAME_LOCAL_NED : Z := 1.
Definition MAV_MODE_FLAG_HIL_ENABLED : Z := 32.
Definition MAVLINK_MSG_PARAM_MAP_RC_FIELD_PARAM_ID_LEN : nat := 16.
Definition MAVLINK_MSG_PARAM_VALUE_FIELD_PARAM_ID_LEN : nat := 16.

(** The calibration kinds of the interface header that [startCalibration]
    distinguishes. *)
Inductive StartCalibrationType :=
| StartCalibrationRadio
| StartCalibrationGyro
| StartCalibrationMag
| StartCalibrationAirspeed
| StartCalibrationAccel
| StartCalibrationLevel
| StartCalibrationEsc
| StartCalibrationCopyTrims
| StartCalibrationUavcanEsc.

(** The arguments of [mavlink_msg_command_long_pack] after the sender's
    ids; the seven parameters of the calibration commands are integers. *)
Record command_long := mkCommandLong {
  cl_target_system : Z;
  cl_target_component : Z;
  cl_command : Z;
  cl_confirmation : Z;
  cl_param1 : Z;
  cl_param2 : Z;
  cl_param3 : Z;
  cl_param4 : Z;
  cl_param5 : Z;
  cl_param6 : Z;
  cl_param7 : Z
}.

(** [UAS::startCalibration]: the messages handed to the vehicle;
    [vehicle] tells whether [_vehicle] is set. *)
Definition startCalibration (vehicle : bool) (uasId : Z)
    (calType : StartCalibrationType) : list command_long :=
  if negb vehicle then []
  else
    let gyroCal := match calType with StartCalibrationGyro => 1 | _ => 0 end in
    let magCal := match calType with StartCalibrationMag => 1 | _ => 0 end in
    let airspeedCal := match calType with StartCalibrationAirspeed => 1 | _ => 0 end in
    let radioCal := match calType with
                    | StartCalibrationRadio => 1
                    | StartCalibrationCopyTrims => 2
                    | _ => 0
                    end in
    let accelCal := match calType with
                    | StartCalibrationAccel => 1
                    | StartCalibrationLevel => 2
                    | _ => 0
                    end in
    let escCal := match calType with
                  | StartCalibrationEsc => 1
                  | StartCalibrationUavcanEsc => 2
                  | _ => 0
                  end in
    [mkCommandLong uasId 0 MAV_CMD_PREFLIGHT_CALIBRATION 0
       gyroCal magCal 0 radioCal accelCal airspeedCal escCal].

(** [UAS::stopCalibration]. *)
Definition stopCalibration (vehicle : bool) (uasId : Z) : list command_long :=
  if negb vehicle then []
  else [mkCommandLong uasId 0 MAV_CMD_PREFLIGHT_CALIBRATION 0 0 0 0 0 0 0 0].

(** The two text conversions of the Qt library that the parameter ids go
    through.  A string is the list of its UTF-16 code units, a byte array
    the list of its bytes.  [toLatin1] is [QString::toLatin1], one byte per
    code unit; [fromUtf8] is the decoding done by the constructor
    [QString(const QByteArray &)], which in Qt 5 reads the bytes as UTF-8.
    What either does outside ASCII is left open; on ASCII text both
    encodings give each character the byte of its own code. *)
Class TextCodec := {
  toLatin1 : list Z -> list Z;
  fromUtf8 : list Z -> list Z;
  toLatin1_ascii :
    forall l, Forall (fun c => 0 <= c < 128) l -> toLatin1 l = l;
  fromUtf8_ascii :
    forall l, Forall (fun c => 0 <= c < 128) l -> fromUtf8 l = l
}.

(** The id buffer of [UAS::sendMapRCToParam]: a zero-filled array of 16
    characters; the character at each index below the length of the id is
    assigned the byte at that index of the id's Latin-1 encoding. *)
Definition paramIdBuffer `{TextCodec} (param_id : list Z) : list Z :=
  map (fun i => if (i <? length param_id)%nat
                then nth i (toLatin1 param_id) 0 else 0)
      (seq 0 MAVLINK_MSG_PARAM_MAP_RC_FIELD_PARAM_ID_LEN).

(** The arguments of [mavlink_msg_param_map_rc_pack] after the sender's
    ids. *)
Record param_map_rc (F : Type) := mkParamMapRc {
  pm_target_system : Z;
  pm_target_component : Z;
  pm_param_id : list Z;
  pm_param_index : Z;
  pm_parameter_rc_channel_index : Z;
  pm_param_value0 : F;
  pm_scale : F;
  pm_param_value_min : F;
  pm_param_value_max : F
}.
Arguments mkParamMapRc {F}.
Arguments pm_target_system {F}.
Arguments pm_target_component {F}.
Arguments pm_param_id {F}.
Arguments pm_param_index {F}.
Arguments pm_parameter_rc_channel_index {F}.
Arguments pm_param_value0 {F}.
Arguments pm_scale {F}.
Arguments pm_param_value_min {F}.
Arguments pm_param_value_max {F}.

(** [UAS::sendMapRCToParam]. *)
Definition sendMapRCToParam {F : Type} `{TextCodec} (vehicle : bool) (uasId : Z)
    (param_id : list Z) (scale value0 : F) (param_rc_channel_index : Z)
    (valueMin valueMax : F) : list (param_map_rc F) :=
  if negb vehicle then []
  else [mkParamMapRc uasId 0 (paramIdBuffer param_id) (-1)
          param_rc_channel_index value0 scale valueMin valueMax].

(** The bytes of a byte array up to the first NUL, or all of them. *)
Fixpoint untilNul (bytes : list Z) : list Z :=
  match bytes with
  | [] => []
  | c :: rest => if c =? 0 then [] else c :: untilNul rest
  end.

(** The parameter name of the PARAM_VALUE case: a byte array is made of
    the 16 characters of the field, and the string constructed from it
    decodes its bytes up to the first NUL. *)
Definition parameterName `{TextCodec} (param_id : list Z) : list Z :=
  fromUtf8 (untilNul (take MAVLINK_MSG_PARAM_VALUE_FIELD_PARAM_ID_LEN param_id)).

(** ** Manual control *)

(** What the joystick functions need beyond [CFloat]: the NaN test, the
    constant pi, and the Euler conversions of the MAVLink headers. *)
Class ControlMath (F : Type) := {
  Fisnan : F -> bool;
  M_PI : F;
  mavlink_euler_to_quaternion : F -> F -> F -> F * F * F * F;
  mavlink_euler_to_dcm : F -> F -> F -> dcm_t F
}.

(** The joystick modes of the vehicle header; [JoystickModeOther] stands
    for a value that is none of them. *)
Inductive JoystickMode :=
| JoystickModeRC
| JoystickModeAttitude
| JoystickModePosition
| JoystickModeForce
| JoystickModeVelocity
| JoystickModeOther.

(** The messages packed by the manual-control functions, with the
    arguments of the pack functions after the sender's ids (floating-point
    arguments are shown before their conversion to the field types).
    [unpackedMessage] is the message variable that no branch has packed. *)
Inductive outbound (F : Type) : Type :=
| set_attitude_target (time target component typeMask : Z) (q : F * F * F * F)
    (rollRate pitchRate yawRate thrust : F)
| set_position_target_local_ned (time target component frame typeMask : Z)
    (x y z vx vy vz afx afy afz yaw yawRate : F)
| manual_control (target : Z) (x y z r : F) (buttons : Z)
| unpackedMessage.
Arguments set_attitude_target {F}.
Arguments set_position_target_local_ned {F}.
Arguments manual_control {F}.
Arguments unpackedMessage {F}.

(** The function-local static variables of
    [UAS::setExternalControlSetpoint]. *)
Record ControlState (F : Type) := mkControl {
  manualRollAngle : F;
  manualPitchAngle : F;
  manualYawAngle : F;
  manualThrust : F;
  manualButtons : Z;
  countSinceLastTransmission : Z;
  px : F;
  py : F;
  pz : F;
  vx : F;
  vy : F;
  vz : F;
  yawrate : F
}.
Arguments mkControl {F}.
Arguments manualRollAngle {F}.
Arguments manualPitchAngle {F}.
Arguments manualYawAngle {F}.
Arguments manualThrust {F}.
Arguments manualButtons {F}.
Arguments countSinceLastTransmission {F}.
Arguments px {F}.
Arguments py {F}.
Arguments pz {F}.
Arguments vx {F}.
Arguments vy {F}.
Arguments vz {F}.
Arguments yawrate {F}.

(** The joystick inputs of one call. *)
Record ControlInput (F : Type) := mkControlInput {
  in_roll : F;
  in_pitch : F;
  in_yaw : F;
  in_thrust : F;
  in_buttons : Z;
  in_mode : JoystickMode
}.
Arguments mkControlInput {F}.
Arguments in_roll {F}.
Arguments in_pitch {F}.
Arguments in_yaw {F}.
Arguments in_thrust {F}.
Arguments in_buttons {F}.
Arguments in_mode {F}.

Section ManualControl.
Context {F : Type} `{CFloat F} `{ControlMath F}.

(** The second test of the transmission decision: an input that is not NaN
    differs from the stored one, or the buttons differ. *)
Definition inputsChanged (i : ControlInput F) (st : ControlState F) : bool :=
  (negb (Fisnan (in_roll i)) && negb (Feqb (in_roll i) (manualRollAngle st)))
  || (negb (Fisnan (in_pitch i)) && negb (Feqb (in_pitch i) (manualPitchAngle st)))
  || (negb (Fisnan (in_yaw i)) && negb (Feqb (in_yaw i) (manualYawAngle st)))
  || (negb (Fisnan (in_thrust i)) && negb (Feqb (in_thrust i) (manualThrust st)))
  || negb (in_buttons i =? manualButtons st).

(** [sendCommand] of a call. *)
Definition sendCommand (i : ControlInput F) (st : ControlState F) : bool :=
  (countSinceLastTransmission st >=? 5) || inputsChanged i st.

(** The message of a transmitting call and the accumulators after it. *)
Definition packSetpoint (uasId groundTimeUsecs : Z) (i : ControlInput F)
    (st : ControlState F) : ControlState F * outbound F :=
  let roll := in_roll i in
  let pitch := in_pitch i in
  let yaw := in_yaw i in
  let thrust := in_thrust i in
  let zero := Flit 0 1 in
  match in_mode i with
  | JoystickModeAttitude =>
      (st, set_attitude_target groundTimeUsecs uasId 0 7
             (mavlink_euler_to_quaternion roll pitch yaw) zero zero zero thrust)
  | JoystickModePosition =>
      let px' := Fsub (px st) pitch in
      let py' := Fadd (py st) roll in
      let pz' := Fsub (pz st) (Fmul (Flit 2 1) (Fsub thrust (Flit 5 10))) in
      (mkControl (manualRollAngle st) (manualPitchAngle st) (manualYawAngle st)
                 (manualThrust st) (manualButtons st)
                 (countSinceLastTransmission st) px' py' pz'
                 (vx st) (vy st) (vz st) (yawrate st),
       set_position_target_local_ned groundTimeUsecs uasId 0 MAV_FRAME_LOCAL_NED
         (Z.lor (Z.lor (Z.shiftl 1 11) (Z.shiftl 7 6)) (Z.shiftl 7 3))
         px' py' pz' zero zero zero zero zero zero yaw zero)
  | JoystickModeForce =>
      let dcm := mavlink_euler_to_dcm roll pitch yaw in
      let fx := Fmul (Fneg (dcm02 dcm)) thrust in
      let fy := Fmul (Fneg (dcm12 dcm)) thrust in
      let fz := Fmul (Fneg (dcm22 dcm)) thrust in
      (st, set_position_target_local_ned groundTimeUsecs uasId 0 MAV_FRAME_LOCAL_NED
             (Z.lor (Z.lor (Z.lor (Z.shiftl 3 10) (Z.shiftl 7 3)) (Z.shiftl 7 0))
                    (Z.shiftl 1 9))
             zero zero zero zero zero zero fx fy fz zero zero)
  | JoystickModeVelocity =>
      let vx' := Fsub (vx st) pitch in
      let vy' := Fadd (vy st) roll in
      let vz' := Fsub (vz st) (Fmul (Flit 2 1) (Fsub thrust (Flit 5 10))) in
      let yawrate' := Fadd (yawrate st) yaw in
      (mkControl (manualRollAngle st) (manualPitchAngle st) (manualYawAngle st)
                 (manualThrust st) (manualButtons st)
                 (countSinceLastTransmission st) (px st) (py st) (pz st)
                 vx' vy' vz' yawrate',
       set_position_target_local_ned groundTimeUsecs uasId 0 MAV_FRAME_LOCAL_NED
         (Z.lor (Z.lor (Z.shiftl 1 10) (Z.shiftl 7 6)) (Z.shiftl 7 0))
         zero zero zero vx' vy' vz' zero zero zero zero yawrate')
  | JoystickModeRC =>
      let axesScaling := Flit 1000 1 in
      let newRollCommand := Fmul roll axesScaling in
      let newPitchCommand := Fmul (Fneg pitch) axesScaling in
      let newYawCommand := Fmul yaw axesScaling in
      let newThrustCommand := Fmul thrust axesScaling in
      (st, manual_control uasId newPitchCommand newRollCommand newThrustCommand
             newYawCommand (in_buttons i))
  | JoystickModeOther => (st, unpackedMessage)
  end.

(** [UAS::setExternalControlSetpoint]: the statics after the call, the
    messages handed to the vehicle and the signals emitted.  The counter
    is a [quint8], incremented after it is read. *)
Definition setExternalControlSetpoint (vehicle : bool) (uasId : Z) (clk : clock)
    (i : ControlInput F) (st : ControlState F)
  : ControlState F * list (outbound F) * list (signal F) :=
  if negb vehicle then (st, [], [])
  else
    let old := countSinceLastTransmission st in
    let incremented := (old + 1) mod 256 in
    let count :=
      if old >=? 5 then 0
      else if inputsChanged i st then 10
      else incremented in
    if sendCommand i st then
      let st1 := mkControl (in_roll i) (in_pitch i) (in_yaw i) (in_thrust i)
                           (in_buttons i) count (px st) (py st) (pz st)
                           (vx st) (vy st) (vz st) (yawrate st) in
      let '(st2, message) := packSetpoint uasId (groundTimeUsecs clk) i st1 in
      (st2, [message],
       [attitudeThrustSetPointChanged (in_roll i) (in_pitch i) (in_yaw i)
          (in_thrust i) (groundTimeMilliseconds clk)])
    else
      (mkControl (manualRollAngle st) (manualPitchAngle st) (manualYawAngle st)
                 (manualThrust st) (manualButtons st) count (px st) (py st)
                 (pz st) (vx st) (vy st) (vz st) (yawrate st), [], []).

(** A run of calls: the messages handed to the vehicle by each call. *)
Fixpoint controlRun (uasId : Z) (calls : list (clock * ControlInput F))
    (st : ControlState F) : list (list (outbound F)) :=
  match calls with
  | [] => []
  | (clk, i) :: rest =>
      let '(st1, sent, _) := setExternalControlSetpoint true uasId clk i st in
      sent :: controlRun uasId rest st1
  end.

End ManualControl.

(** ** Simulated GPS *)

(** What [UAS::sendHilGps] asks of the vehicle: a packed HIL_GPS message
    (arguments of the pack function after the sender's ids, floating-point
    arguments before their conversion to the integer fields), or the
    request to switch HIL mode on. *)
Inductive hilRequest (F : Type) : Type :=
| hil_gps (time_us fix_type : Z) (lat lon alt eph epv vel vn ve vd cog : F)
    (satellites : Z)
| setHilMode (on : bool).
Arguments hil_gps {F}.
Arguments setHilMode {F}.

(** The arguments of one call of [sendHilGps]. *)
Record HilGpsInput (F : Type) := mkHilGps {
  hg_time_us : Z;
  hg_lat : F;
  hg_lon : F;
  hg_alt : F;
  hg_fix_type : Z;
  hg_eph : F;
  hg_epv : F;
  hg_vel : F;
  hg_vn : F;
  hg_ve : F;
  hg_vd : F;
  hg_cog : F;
  hg_satellites : Z
}.
Arguments mkHilGps {F}.
Arguments hg_time_us {F}.
Arguments hg_lat {F}.
Arguments hg_lon {F}.
Arguments hg_alt {F}.
Arguments hg_fix_type {F}.
Arguments hg_eph {F}.
Arguments hg_epv {F}.
Arguments hg_vel {F}.
Arguments hg_vn {F}.
Arguments hg_ve {F}.
Arguments hg_vd {F}.
Arguments hg_cog {F}.
Arguments hg_satellites {F}.

Section HilGps.
Context {F : Type} `{CFloat F} `{ControlMath F}.

(** [UAS::sendHilGps]: the new value of [lastSendTimeGPS] and the requests
    made of the vehicle.  [base_mode] is the mode member at the call;
    [groundTimeMilliseconds] is the clock reading of the rate test and
    [stampTime] the later reading that is stored. *)
Definition sendHilGps (vehicle : bool)
    (base_mode groundTimeMilliseconds stampTime : Z)
    (g : HilGpsInput F) (lastSendTimeGPS : Z) : Z * list (hilRequest F) :=
  if negb vehicle then (lastSendTimeGPS, [])
  else if wrap64 (groundTimeMilliseconds - lastSendTimeGPS) <? 100
  then (lastSendTimeGPS, [])
  else if negb (Z.land base_mode MAV_MODE_FLAG_HIL_ENABLED =? 0) then
    let course := hg_cog g in
    let course :=
      if Flt course (Flit 0 1)
      then to_float (Fadd course (Fmul (Flit 2 1) (to_float M_PI)))
      else course in
    let course := to_float (Fmul (Fdiv course M_PI) (Flit 180 1)) in
    (stampTime,
     [hil_gps (hg_time_us g) (hg_fix_type g)
        (Fmul (hg_lat g) (Flit 10000000 1)) (Fmul (hg_lon g) (Flit 10000000 1))
        (Fmul (hg_alt g) (Flit 1000 1)) (Fmul (hg_eph g) (Flit 100 1))
        (Fmul (hg_epv g) (Flit 100 1)) (Fmul (hg_vel g) (Flit 100 1))
        (Fmul (hg_vn g) (Flit 100 1)) (Fmul (hg_ve g) (Flit 100 1))
        (Fmul (hg_vd g) (Flit 100 1)) (Fmul course (Flit 100 1))
        (hg_satellites g)])
  else (lastSendTimeGPS, [setHilMode true]).

Definition isHilGps (r : hilRequest F) : bool :=
  match r with hil_gps _ _ _ _ _ _ _ _ _ _ _ _ _ => true | _ => false end.

(** A run of calls [(base_mode, reading of the rate test, reading stored,
    arguments)] with the vehicle set: the stored readings of the calls
    that pack a message. *)
Fixpoint hilGpsSendTimes (calls : list (Z * Z * Z * HilGpsInput F))
    (lastSendTimeGPS : Z) : list Z :=
  match calls with
  | [] => []
  | (base_mode, now, stamp, g) :: rest =>
      let '(last, out) :=
        sendHilGps true base_mode now stamp g lastSendTimeGPS in
      (if existsb isHilGps out then [stamp] else [])
      ++ hilGpsSendTimes rest last
  end.

(** The clock readings of such a run never go back, starting from
    [from], and stay below [2^64]. *)
Fixpoint clockAdvances (from : Z) (calls : list (Z * Z * Z * HilGpsInput F))
  : Prop :=
  match calls with
  | [] => True
  | (_, now, stamp, _) :: rest =>
      from <= now /\ now <= stamp /\ stamp < 2 ^ 64 /\ clockAdvances stamp rest
  end.

End HilGps.

(** ** Image retrieval *)

Definition MAVLINK_DATA_STREAM_IMG_JPEG : Z := 1.
Definition MAVLINK_DATA_STREAM_IMG_BMP : Z := 2.
Definition MAVLINK_DATA_STREAM_IMG_RAW8U : Z := 3.
Definition MAVLINK_DATA_STREAM_IMG_PGM : Z := 5.
Definition MAVLINK_DATA_STREAM_IMG_PNG : Z := 6.

(** The image library: [loadFromData bytes format] is the decoded image, if
    the bytes decode ([format] is the format name given, if any), and
    [pgmHeader width height] the bytes of the PGM header text. *)
Class ImageCodec (Img : Type) := {
  loadFromData : list Z -> option string -> option Img;
  pgmHeader : Z -> Z -> list Z
}.

(** [UAS::getImage]: the returned image ([None] is the null image), the
    image members after the call and the [image] member after the call,
    which a failed load leaves null.  The receive buffer is null exactly
    when it is empty. *)
Definition getImage {Img : Type} `{ImageCodec Img} (im : ImageState)
    (image : option Img) : option Img * ImageState * option Img :=
  let restart (img : option Img) :=
    (img,
     mkImage (imageSize im) 0 0 (imagePayload im) (imageQuality im)
             (imageType im) (imageWidth im) (imageHeight im) (imageStart im) [],
     img) in
  if imageType im =? MAVLINK_DATA_STREAM_IMG_RAW8U then
    let tmpImage := pgmHeader (imageWidth im) (imageHeight im)
                    ++ imageRecBuffer im in
    match imageRecBuffer im with
    | [] => (None, im, image)
    | _ :: _ =>
        match loadFromData tmpImage (Some "PGM"%string) with
        | None => (None, im, None)
        | Some img => restart (Some img)
        end
    end
  else if (imageType im =? MAVLINK_DATA_STREAM_IMG_BMP)
          || (imageType im =? MAVLINK_DATA_STREAM_IMG_JPEG)
          || (imageType im =? MAVLINK_DATA_STREAM_IMG_PGM)
          || (imageType im =? MAVLINK_DATA_STREAM_IMG_PNG) then
    match loadFromData (imageRecBuffer im) None with
    | None => (None, im, None)
    | Some img => restart (Some img)
    end
  else restart image.

(** ** Home position *)

(** The two messages of [UAS::setHomePosition]: arguments of the command
    pack function after the sender's ids, and the fields of the origin
    message before their conversion to integers. *)
Inductive homeMessage (F : Type) : Type :=
| home_command_long (target_system target_component command confirmation : Z)
    (param1 param2 param3 param4 param5 param6 param7 : F)
| set_gps_global_origin (target_system : Z) (latitude longitude altitude : F).
Arguments home_command_long {F}.
Arguments set_gps_global_origin {F}.

Section HomePosition.
Context {F : Type} `{CFloat F}.

(** [UAS::setHomePosition]: the new value of [blockHomePositionChanges],
    whether the question was put to the user, and the messages handed to
    the vehicle.  [answerYes] is the user's answer if the question is
    put. *)
Definition setHomePosition (vehicle : bool) (uasId : Z) (answerYes : bool)
    (lat lon alt : F) (blockHomePositionChanges : bool)
  : bool * bool * list (homeMessage F) :=
  if negb vehicle || blockHomePositionChanges
  then (blockHomePositionChanges, false, [])
  else if answerYes then
    let zero := Flit 0 1 in
    (blockHomePositionChanges, true,
     [home_command_long uasId 0 MAV_CMD_DO_SET_HOME 1 zero zero zero zero
        lat lon alt;
      set_gps_global_origin uasId (Fmul lat (Flit 10000000 1))
        (Fmul lon (Flit 10000000 1)) (Fmul alt (Flit 1000 1))])
  else (true, true, []).

(** A run of calls [(vehicle, answer, lat, lon, alt)]: the final flag, how
    many questions were put, and the messages sent. *)
Fixpoint homePositionRun (uasId : Z) (calls : list (bool * bool * F * F * F))
    (blocked : bool) : bool * nat * list (homeMessage F) :=
  match calls with
  | [] => (blocked, O, [])
  | (vehicle, answerYes, lat, lon, alt) :: rest =>
      let '(blocked1, asked, sent) :=
        setHomePosition vehicle uasId answerYes lat lon alt blocked in
      let '(blocked2, asked2, sent2) := homePositionRun uasId rest blocked1 in
      (blocked2, ((if asked then 1 else 0) + asked2)%nat, sent ++ sent2)
  end.

End HomePosition.

(** ** Runs of the handlers *)

Section HandlerRuns.
Context {F : Type} `{CFloat F}.

(** A run of [getUnixReferenceTime] over samples
    [(groundTimeMilliseconds, time)]: the members at the end. *)
Fixpoint referenceRun (samples : list (Z * Z)) (s : TimeState) : TimeState :=
  match samples with
  | [] => s
  | (g, t) :: rest => referenceRun rest (snd (getUnixReferenceTime g t s))
  end.

(** A run of the SYS_STATUS handler over
    [(groundTimeUsecs, time, status)]: the battery members at the end and
    the signals, in order. *)
Fixpoint sysStatusRun (uasId sysid : Z)
    (msgs : list (Z * Z * mavlink_sys_status_t)) (b : BatteryState F)
  : BatteryState F * list (signal F) :=
  match msgs with
  | [] => (b, [])
  | (now, time, st) :: rest =>
      let '(b1, e1) := handleSysStatus uasId sysid now time st b in
      let '(b2, e2) := sysStatusRun uasId sysid rest b1 in
      (b2, e1 ++ e2)
  end.

(** Number of messages of such a run at which [lowBattAlarm] goes from
    false to true. *)
Fixpoint alarmOnsets (uasId sysid : Z)
    (msgs : list (Z * Z * mavlink_sys_status_t)) (b : BatteryState F) : nat :=
  match msgs with
  | [] => O
  | (now, time, st) :: rest =>
      let b1 := fst (handleSysStatus uasId sysid now time st b) in
      ((if negb (lowBattAlarm b) && lowBattAlarm b1 then 1 else 0)
       + alarmOnsets uasId sysid rest b1)%nat
  end.

Definition isLowBatteryPercentSay (e : signal F) : bool :=
  match e with say (LowBatteryPercent _) => true | _ => false end.

End HandlerRuns.

(** The message types that have a case of their own in the dispatcher. *)
Definition caseIds : list Z :=
  [MAVLINK_MSG_ID_HEARTBEAT; MAVLINK_MSG_ID_BATTERY_STATUS;
   MAVLINK_MSG_ID_SYS_STATUS; MAVLINK_MSG_ID_ATTITUDE;
   MAVLINK_MSG_ID_ATTITUDE_QUATERNION; MAVLINK_MSG_ID_COMMAND_ACK;
   MAVLINK_MSG_ID_ATTITUDE_TARGET; MAVLINK_MSG_ID_POSITION_TARGET_LOCAL_NED;
   MAVLINK_MSG_ID_DATA_TRANSMISSION_HANDSHAKE; MAVLINK_MSG_ID_ENCAPSULATED_DATA]
  ++ otherIds ++ ignoredIds.

(** Two states with the same system id, component registry, ownership
    records and conflict flags, and the same members outside the model. *)
Definition sameIdentity {F Rest : Type} (s s' : UAS F Rest) : Prop :=
  uasId s' = uasId s
  /\ components s' = components s
  /\ componentID s' = componentID s
  /\ componentMulti s' = componentMulti s
  /\ rest s' = rest s.

(** What the ownership and registry properties need of the case bodies
    that are a parameter here: the body for the type of [message] leaves
    the system id, the component registry, the ownership records and the
    conflict flags as they are.  (The bodies of the source, lines 646 to
    1056, do not mention these members.) *)
Definition otherCaseKeepsIdentity {F Rest : Type} `{Collaborators F Rest}
    (message : mavlink_message_t F) (clk : clock) : Prop :=
  forall (wrongComponent : bool) (s : UAS F Rest),
    let s' := fst (handleOther (msgid message) wrongComponent message clk s) in
    uasId s' = uasId s
    /\ components s' = components s
    /\ componentID s' = componentID s
    /\ componentMulti s' = componentMulti s.

(** A status message that reports 12 V and the given percentage of
    charge. *)
Definition statusWithCharge (percent : Z) : mavlink_sys_status_t :=
  mkSysStatus 0 0 0 0 12000 (-1) percent 0 0 0 0 0 0.

(** Consecutive elements at least 100 apart. *)
Fixpoint spaced100 (l : list Z) : Prop :=
  match l with
  | [] => True
  | x :: rest =>
      match rest with
      | [] => True
      | y :: _ => 100 <= y - x /\ spaced100 rest
      end
  end.

(** ** Predicates of the properties *)

(** The value [getUnixTime] gives to the last accepted raw timestamp. *)
Definition lastValue (s : TimeState) : Z :=
  wrap64 (lastNonNullTime s / 1000 + onboardTimeOffset s).

(** The time members are consistent with a ground clock that has reached
    [g]: the offset is the difference of a clock reading [G] not after [g]
    and the millisecond value [T] of a raw timestamp not after the last
    accepted one; a zero offset has just been assigned. *)
Definition timeConsistent (g : Z) (s : TimeState) : Prop :=
  exists G T : Z,
    onboardTimeOffset s = wrap64 (G - T)
    /\ 0 <= T <= lastNonNullTime s / 1000
    /\ 0 <= G <= g
    /\ 0 <= lastNonNullTime s < FORTY_YEARS_USEC
    /\ (onboardTimeOffset s = 0 -> T = lastNonNullTime s / 1000).

(** Samples [(clock reading, raw timestamp)] whose clock readings are below
    [2^63] and whose raw timestamps are below the 40-year threshold. *)
Definition validSample (x : Z * Z) : Prop :=
  0 <= fst x < 2 ^ 63 /\ 0 <= snd x < FORTY_YEARS_USEC.

(** A sample below the 40-year threshold whose millisecond value and the
    offset [off] add up without passing [2^64]. *)
Definition addsWithoutWrap (off : Z) (x : Z * Z) : Prop :=
  snd x < FORTY_YEARS_USEC /\ snd x / 1000 + off < 2 ^ 64.

(** Number of timer ticks of a run at which the time since the last
    heartbeat exceeds the timeout. *)
Fixpoint overdueTicks (timeout : Z) (evs : list linkEvent) (s : LinkState) : nat :=
  match evs with
  | [] => O
  | Beat now :: rest => overdueTicks timeout rest (heartbeatSeen now s)
  | Tick now :: rest =>
      ((if wrap64 (now - lastHeartbeat s) >? timeout then 1 else 0)
       + overdueTicks timeout rest s)%nat
  end.

(** At every timer tick of the run the time since the last heartbeat is
    within the timeout. *)
Fixpoint withinTimeout (timeout : Z) (evs : list linkEvent) (s : LinkState) : Prop :=
  match evs with
  | [] => True
  | Beat now :: rest => withinTimeout timeout rest (heartbeatSeen now s)
  | Tick now :: rest =>
      wrap64 (now - lastHeartbeat s) <= timeout /\ withinTimeout timeout rest s
  end.

Section BatteryPredicates.
Context {F : Type} `{CFloat F}.



End BatteryPredicates.


(** ** Sample values *)



(** Image members with no transfer announced and an empty buffer. *)
Definition emptyImage : ImageState := mkImage 0 0 0 0 0 0 0 0 0 [].

(** A stand-in for the C library on binary32 values, for evaluating branch
    conditions: [asin] is given at the arguments 1 and -1 only, where it is
    a quarter turn. *)
Definition poleLibm : Libm spec_float := {|
  asin := fun x =>
    if SFeqb x (Binary32.of_Z 1) then M_PI_2
    else if SFeqb x (Binary32.of_Z (-1)) then SFopp M_PI_2
    else Binary32.of_Z 0;
  atan2 := fun _ _ => Binary32.of_Z 0;
  atan2f := fun _ _ => Binary32.of_Z 0;
  limitAngleToPMPIf := fun x => x;
  mavlink_quaternion_to_euler := fun _ =>
    (Binary32.of_Z 0, Binary32.of_Z 0, Binary32.of_Z 0)
|}.

(** Inert collaborators, for evaluating paths that do not reach them. *)
Definition inertCollaborators : Collaborators spec_float unit := {|
  MAV_TYPE_ENUM_END := 0;
  setAirframeFor := fun _ m => (m, []);
  handleOther := fun _ _ _ _ s => (s, [])
|}.

(** An image library that decodes every byte sequence, to the unit
    image. *)
Definition acceptingCodec : ImageCodec unit := {|
  loadFromData := fun _ _ => Some tt;
  pgmHeader := fun _ _ => []
|}.

(** Text conversions for evaluating paths on ASCII ids: a code unit
    outside Latin-1 is shown as a question mark and a byte outside ASCII
    as the replacement character. *)
Definition asciiCodec : TextCodec := {|
  toLatin1 := map (fun c => if c <? 256 then c else 63);
  fromUtf8 := map (fun b => if b <? 128 then b else 65533);
  toLatin1_ascii := ltac:(
    induction 1 as [|c l Hc _ IH]; [reflexivity|];
    cbn [map]; rewrite IH;
    replace (c <? 256) with true by (symmetry; apply Z.ltb_lt; lia);
    reflexivity);
  fromUtf8_ascii := ltac:(
    induction 1 as [|c l Hc _ IH]; [reflexivity|];
    cbn [map]; rewrite IH;
    replace (c <? 128) with true by (symmetry; apply Z.ltb_lt; lia);
    reflexivity)
|}.

(** A control library for evaluating the transmission decision: no value
    is NaN and the conversions give zeros. *)
Definition plainControlMath : ControlMath spec_float := {|
  Fisnan := fun _ => false;
  M_PI := Binary32.lit 314159265 100000000;
  mavlink_euler_to_quaternion := fun _ _ _ =>
    (Binary32.of_Z 0, Binary32.of_Z 0, Binary32.of_Z 0, Binary32.of_Z 0);
  mavlink_euler_to_dcm := fun _ _ _ =>
    let z := Binary32.of_Z 0 in mkDcm z z z z z z z z z
|}.

(** A vehicle with system id 1 as constructed: nothing registered, no
    message type owned. *)
Definition freshVehicle : UAS spec_float unit :=
  mkUAS 1 ∅ ∅ ∅ [] initialTime (mkLink 0 false 0 false false)
        (mkMode 0 0 0 0 0 (-1)) initialBattery
        (mkAttitude false (Binary32.of_Z 0) (Binary32.of_Z 0) (Binary32.of_Z 0))
        emptyImage tt.

(** A message whose decoders all give zeros. *)
Definition blankMessage (sys comp id : Z) : mavlink_message_t spec_float :=
  let z := Binary32.of_Z 0 in
  mkMessage sys comp id
    (mkHeartbeat 0 0 0 0 0) (mkBatteryStatus 0)
    (mkSysStatus 0 0 0 0 0 0 0 0 0 0 0 0 0)
    (mkAttitudeMsg 0 z z z z z z)
    (mkAttitudeQuaternion 0 z z z z z z z)
    (mkCommandAck 0 0)
    (mkAttitudeTarget 0 (z, z, z, z) z)
    (mkPositionTarget 0 z z z)
    (mkHandshake 0 0 0 0 0 0 0)
    (mkEncapsulated 0 []).

(** The message types whose handlers begin with the multi-source guard. *)
Definition guardedIds : list Z :=
  [MAVLINK_MSG_ID_HEARTBEAT; MAVLINK_MSG_ID_BATTERY_STATUS;
   MAVLINK_MSG_ID_SYS_STATUS; MAVLINK_MSG_ID_POSITION_TARGET_LOCAL_NED].

(** A message of system 1 from component [comp] with the given handshake. *)
Definition handshakeMessage (comp : Z) (p : mavlink_data_transmission_handshake_t)
  : mavlink_message_t spec_float :=
  let z := Binary32.of_Z 0 in
  mkMessage 1 comp MAVLINK_MSG_ID_DATA_TRANSMISSION_HANDSHAKE
    (mkHeartbeat 0 0 0 0 0) (mkBatteryStatus 0)
    (mkSysStatus 0 0 0 0 0 0 0 0 0 0 0 0 0)
    (mkAttitudeMsg 0 z z z z z z)
    (mkAttitudeQuaternion 0 z z z z z z z)
    (mkCommandAck 0 0)
    (mkAttitudeTarget 0 (z, z, z, z) z)
    (mkPositionTarget 0 z z z)
    p
    (mkEncapsulated 0 []).

(** A COMMAND_ACK of system 1, component 1, for command 400 with result
    ACCEPTED; under the ATTITUDE_TARGET decoder it reads as zeros. *)
Definition ackMessage : mavlink_message_t spec_float :=
  let z := Binary32.of_Z 0 in
  mkMessage 1 1 MAVLINK_MSG_ID_COMMAND_ACK
    (mkHeartbeat 0 0 0 0 0) (mkBatteryStatus 0)
    (mkSysStatus 0 0 0 0 0 0 0 0 0 0 0 0 0)
    (mkAttitudeMsg 0 z z z z z z)
    (mkAttitudeQuaternion 0 z z z z z z z)
    (mkCommandAck 400 MAV_RESULT_ACCEPTED)
    (mkAttitudeTarget 0 (z, z, z, z) z)
    (mkPositionTarget 0 z z z)
    (mkHandshake 0 0 0 0 0 0 0)
    (mkEncapsulated 0 []).

(** * Properties *)

(** ** Time reconciliation *)

(** Settling a comparison whose outcome follows from the hypotheses. *)
Ltac known_false c :=
  replace c with false
    by (symmetry;
        first [ apply Z.eqb_neq; lia
              | apply Z.ltb_ge; lia
              | rewrite Z.geb_leb; apply Z.leb_gt; lia ]).
Ltac known_true c :=
  replace c with true
    by (symmetry;
        first [ apply Z.eqb_eq; lia
              | apply Z.ltb_lt; lia
              | rewrite Z.geb_leb; apply Z.leb_le; lia ]).

Lemma wrap64_small (z : Z) : 0 <= z < 2 ^ 64 -> wrap64 z = z.
Proof. intros Hz. unfold wrap64. apply Z.mod_small. exact Hz. Qed.

Lemma wrap64_add_r (a b : Z) : wrap64 (a + wrap64 b) = wrap64 (a + b).
Proof. unfold wrap64. apply Zplus_mod_idemp_r. Qed.

Lemma wrap64_range (z : Z) : 0 <= wrap64 z < 2 ^ 64.
Proof. unfold wrap64. apply Z.mod_pos_bound. lia. Qed.

Lemma div1000_mono (a b : Z) : a <= b -> a / 1000 <= b / 1000.
Proof. intros Hab. apply Z.div_le_mono; lia. Qed.

Lemma div1000_bound (t : Z) :
  0 <= t < FORTY_YEARS_USEC -> 0 <= t / 1000 < 2 ^ 62.
Proof.
  unfold FORTY_YEARS_USEC. intros Ht. split.
  - apply Z.div_pos; lia.
  - apply Z.div_lt_upper_bound; lia.
Qed.

(** The attitude-stamped members do not reach the result of [getUnixTime]. *)
Lemma getUnixTime_ignores_attitudeStamped (g t : Z) (b : bool) (la off last : Z) :
  fst (getUnixTime g t (mkTime b la off last))
  = fst (getUnixTime g t (mkTime false 0 off last)).
Proof.
  unfold getUnixTime, offsetStale. cbn [attitudeStamped lastAttitude
    onboardTimeOffset lastNonNullTime].
  destruct (t =? 0); [reflexivity|].
  destruct (t <? FORTY_YEARS_USEC); [|reflexivity].
  destruct ((off =? 0) || (t <? wrap64 (last - 100)));
    cbn [lastNonNullTime onboardTimeOffset];
    destruct (t >? _); reflexivity.
Qed.

(** C1 (code at the failing input): attitude-stamped mode is enabled, the
    last attitude update carries the timestamp 5000 and the offset is
    established; for the raw timestamp 3000000 [getUnixTime] returns the
    reconciled value 1003000 and not the attitude timestamp. *)
Lemma getUnixTime_attitudeStamped_returns_computed_value :
  let s := mkTime true 5000 1000000 2000000 in
  attitudeStamped s = true
  /\ fst (getUnixTime 1003000 3000000 s) = 1003000
  /\ fst (getUnixTime 1003000 3000000 s) <> lastAttitude s.
Proof. cbv zeta. split; [reflexivity|]. split; [reflexivity|]. vm_compute. discriminate. Qed.

Lemma timeConsistent_initial (g : Z) : 0 <= g -> timeConsistent g initialTime.
Proof.
  intros Hg. exists 0, 0. unfold initialTime, FORTY_YEARS_USEC. cbn.
  repeat split; try lia; try reflexivity.
Qed.

Lemma lastValue_consistent (g : Z) (s : TimeState) (G T : Z) :
  onboardTimeOffset s = wrap64 (G - T) ->
  0 <= T <= lastNonNullTime s / 1000 ->
  0 <= G <= g -> g < 2 ^ 63 ->
  0 <= lastNonNullTime s < FORTY_YEARS_USEC ->
  lastValue s = G + lastNonNullTime s / 1000 - T.
Proof.
  intros Hoff HT HG Hg Hlast. unfold lastValue. rewrite Hoff, wrap64_add_r.
  pose proof (div1000_bound _ Hlast) as Hb.
  rewrite wrap64_small; lia.
Qed.

(** One in-order sample: the result is not below the value of the last
    accepted timestamp, and the members stay consistent. *)
Lemma getUnixTime_step (g g' t : Z) (s : TimeState) :
  timeConsistent g s -> g <= g' < 2 ^ 63 ->
  lastNonNullTime s <= t -> 0 < t < FORTY_YEARS_USEC ->
  timeConsistent g' (snd (getUnixTime g' t s))
  /\ lastNonNullTime (snd (getUnixTime g' t s)) = t
  /\ fst (getUnixTime g' t s) = lastValue (snd (getUnixTime g' t s))
  /\ lastValue s <= fst (getUnixTime g' t s).
Proof.
  intros (G & T & Hoff & HT & HG & Hlast & Hzero) Hg Hle Ht.
  pose proof (lastValue_consistent g s G T Hoff HT HG ltac:(lia) Hlast) as Hlv.
  pose proof (div1000_bound t ltac:(lia)) as Htb.
  pose proof (div1000_mono _ _ Hle) as Hmono.
  unfold getUnixTime.
  known_false (t =? 0).
  known_true (t <? FORTY_YEARS_USEC).
  destruct (offsetStale t s) eqn:Hstale.
  - cbn [lastNonNullTime attitudeStamped lastAttitude onboardTimeOffset].
    assert (Htt : (t >? t) = false) by (rewrite Z.gtb_ltb; apply Z.ltb_irrefl).
    rewrite Htt.
    cbn [fst snd lastNonNullTime onboardTimeOffset].
    assert (Hret : wrap64 (t / 1000 + wrap64 (g' - t / 1000)) = g').
    { rewrite wrap64_add_r. replace (t / 1000 + (g' - t / 1000)) with g' by lia.
      apply wrap64_small. lia. }
    split; [|split; [reflexivity|split]].
    + exists g', (t / 1000). cbn [lastNonNullTime onboardTimeOffset].
      repeat split; try lia.
    + unfold lastValue. cbn [lastNonNullTime onboardTimeOffset]. now rewrite Hret.
    + rewrite Hret, Hlv. unfold offsetStale in Hstale.
      apply orb_true_iff in Hstale as [Hz | Hslack].
      * apply Z.eqb_eq in Hz. specialize (Hzero Hz).
        rewrite Hz in Hoff. unfold wrap64 in Hoff. symmetry in Hoff.
        apply Z.mod_divide in Hoff; [|lia]. destruct Hoff as [k Hk].
        pose proof (div1000_bound _ Hlast). lia.
      * apply Z.ltb_lt in Hslack.
        destruct (Z_lt_ge_dec (lastNonNullTime s) 100) as [Hlow | Hhigh].
        -- assert (lastNonNullTime s / 1000 = 0) by (apply Z.div_small; lia). lia.
        -- rewrite wrap64_small in Hslack by (unfold FORTY_YEARS_USEC in *; lia). lia.
  - unfold offsetStale in Hstale. apply orb_false_iff in Hstale as [Hnz _].
    apply Z.eqb_neq in Hnz.
    assert (Hval : wrap64 (t / 1000 + onboardTimeOffset s) = G + t / 1000 - T).
    { rewrite Hoff, wrap64_add_r.
      replace (t / 1000 + (G - T)) with (G + t / 1000 - T) by lia.
      apply wrap64_small. lia. }
    destruct (t >? lastNonNullTime s) eqn:Hgt;
      cbn [fst snd lastNonNullTime attitudeStamped lastAttitude onboardTimeOffset].
    + split; [|split; [reflexivity|split]].
      * exists G, T. cbn [lastNonNullTime onboardTimeOffset].
        repeat split; lia.
      * unfold lastValue. reflexivity.
      * rewrite Hval, Hlv. lia.
    + assert (t = lastNonNullTime s).
      { rewrite Z.gtb_ltb in Hgt. apply Z.ltb_ge in Hgt. lia. }
      subst t. split; [|split; [reflexivity|split]].
      * exists G, T. repeat split; first [lia | assumption].
      * reflexivity.
      * rewrite Hval, Hlv. lia.
Qed.

Lemma nondecreasing_cons (x y : Z) (l : list Z) :
  nondecreasing (x :: y :: l) <-> x <= y /\ nondecreasing (y :: l).
Proof. reflexivity. Qed.

Lemma nondecreasing_tail (x : Z) (l : list Z) :
  nondecreasing (x :: l) -> nondecreasing l.
Proof. destruct l as [|y l]; [intros _; exact I|]. intros [_ Hl]. exact Hl. Qed.

(** In-order non-zero samples from consistent members: the results do not
    decrease, starting from the value of the last accepted timestamp. *)
Lemma reconcileAll_monotone_from (samples : list (Z * Z)) :
  forall (g : Z) (s : TimeState),
    timeConsistent g s ->
    Forall validSample samples ->
    Forall (fun x => 0 < snd x) samples ->
    nondecreasing (g :: map fst samples) ->
    nondecreasing (lastNonNullTime s :: map snd samples) ->
    nondecreasing (lastValue s :: reconcileAll samples s).
Proof.
  induction samples as [|[g1 t1] rest IH]; intros g s Hinv Hvalid Hpos Hclock Hraw.
  - exact I.
  - apply Forall_cons_iff in Hvalid as [[Hg1 Ht1] Hrest]. cbn [fst snd] in Hg1, Ht1.
    apply Forall_cons_iff in Hpos as [Hpos1 Hpos]. cbn [snd] in Hpos1.
    cbn [map fst snd] in Hclock, Hraw.
    apply nondecreasing_cons in Hclock as [Hgg Hclock].
    apply nondecreasing_cons in Hraw as [Htt Hraw].
    destruct (getUnixTime_step g g1 t1 s Hinv ltac:(lia) Htt ltac:(lia))
      as (Hinv' & Hlast' & Hret & Hle).
    cbn [reconcileAll]. destruct (getUnixTime g1 t1 s) as [ret s'] eqn:Hrun.
    cbn [fst snd] in Hinv', Hlast', Hret, Hle.
    apply nondecreasing_cons. split; [exact Hle|].
    rewrite Hret. apply (IH g1 s' Hinv' Hrest Hpos Hclock).
    rewrite Hlast'. exact Hraw.
Qed.

Lemma in_order_positive (l : list (Z * Z)) :
  forall a : Z, 0 < a -> nondecreasing (a :: map snd l) ->
    Forall (fun x => 0 < snd x) l.
Proof.
  induction l as [|[g t] rest IH]; intros a Ha Hl; [constructor|].
  cbn [map snd] in Hl. apply nondecreasing_cons in Hl as [Hat Hl].
  constructor; [cbn [snd]; lia|]. apply (IH t); [lia | exact Hl].
Qed.

(** With no offset on record, a non-zero sample is given the clock reading
    of the call. *)
Lemma getUnixTime_initial (g t : Z) :
  0 < t < FORTY_YEARS_USEC -> 0 <= g < 2 ^ 64 ->
  fst (getUnixTime g t initialTime) = g.
Proof.
  intros Ht Hg. unfold getUnixTime, offsetStale, initialTime.
  known_false (t =? 0).
  known_true (t <? FORTY_YEARS_USEC).
  cbn [onboardTimeOffset lastNonNullTime attitudeStamped lastAttitude Z.eqb orb].
  assert (Htt : (t >? t) = false) by (rewrite Z.gtb_ltb; apply Z.ltb_irrefl).
  rewrite Htt. cbn [fst onboardTimeOffset].
  rewrite wrap64_add_r. replace (t / 1000 + (g - t / 1000)) with g by lia.
  apply wrap64_small. exact Hg.
Qed.

(** In-order samples from the members as constructed, zero timestamps
    included: the results do not decrease. *)
Lemma reconcileAll_from_initial (samples : list (Z * Z)) :
  forall g0 : Z,
    0 <= g0 ->
    Forall validSample samples ->
    nondecreasing (g0 :: map fst samples) ->
    nondecreasing (map snd samples) ->
    nondecreasing (g0 :: reconcileAll samples initialTime).
Proof.
  induction samples as [|[g1 t1] rest IH]; intros g0 Hg0 Hvalid Hclock Hraw.
  - exact I.
  - pose proof Hvalid as Hall.
    apply Forall_cons_iff in Hvalid as [[Hg1 Ht1] Hrest]. cbn [fst snd] in Hg1, Ht1.
    pose proof Hclock as Hclock0.
    cbn [map fst] in Hclock. apply nondecreasing_cons in Hclock as [Hgg Hclock].
    destruct (Z.eq_dec t1 0) as [Hz | Hnz].
    + subst t1. cbn [reconcileAll].
      change (getUnixTime g1 0 initialTime) with (g1, initialTime).
      apply nondecreasing_cons. split; [exact Hgg|].
      apply IH; [lia | exact Hrest | exact Hclock |].
      apply (nondecreasing_tail 0). exact Hraw.
    + assert (Hpos : Forall (fun x => 0 < snd x) ((g1, t1) :: rest)).
      { constructor; [cbn [snd]; lia|].
        apply (in_order_positive rest t1); [lia | exact Hraw]. }
      pose proof (reconcileAll_monotone_from ((g1, t1) :: rest) g0 initialTime
                    (timeConsistent_initial g0 Hg0) Hall Hpos Hclock0) as Hmono.
      cbn [map snd lastNonNullTime initialTime] in Hmono.
      specialize (Hmono ltac:(apply nondecreasing_cons; split; [lia | exact Hraw])).
      apply nondecreasing_tail in Hmono.
      pose proof (getUnixTime_initial g1 t1 ltac:(lia) ltac:(lia)) as Hfirst.
      cbn [reconcileAll] in Hmono |- *.
      destruct (getUnixTime g1 t1 initialTime) as [ret s'].
      cbn [fst] in Hfirst. subst ret.
      apply nondecreasing_cons. split; [exact Hgg | exact Hmono].
Qed.

(** A sample more than 100 below the last accepted raw timestamp has the
    offset assigned from the clock reading of the call. *)
Lemma backward_jump_assigns_offset (g t : Z) (s : TimeState) :
  0 < t < FORTY_YEARS_USEC -> t + 100 < lastNonNullTime s < 2 ^ 64 ->
  offsetAssigned t s = true
  /\ onboardTimeOffset (snd (getUnixTime g t s)) = wrap64 (g - t / 1000)
  /\ lastNonNullTime (snd (getUnixTime g t s)) = t.
Proof.
  intros Ht Hjump.
  assert (Hstale : offsetStale t s = true).
  { unfold offsetStale. apply orb_true_iff. right. apply Z.ltb_lt.
    rewrite wrap64_small by lia. lia. }
  assert (Hnz : (t =? 0) = false) by (apply Z.eqb_neq; lia).
  assert (Hlt : (t <? FORTY_YEARS_USEC) = true) by (apply Z.ltb_lt; lia).
  unfold offsetAssigned, getUnixTime. rewrite Hnz, Hlt, Hstale.
  cbn [lastNonNullTime attitudeStamped lastAttitude onboardTimeOffset negb andb].
  assert (Htt : (t >? t) = false) by (rewrite Z.gtb_ltb; apply Z.ltb_irrefl).
  rewrite Htt. cbn [snd lastNonNullTime onboardTimeOffset]. auto.
Qed.

(** After such a sample the members are consistent with the clock reading
    of the call, which is also the value returned. *)
Lemma backward_jump_consistent (g t : Z) (s : TimeState) :
  0 < t < FORTY_YEARS_USEC -> 0 <= g < 2 ^ 63 ->
  t + 100 < lastNonNullTime s < 2 ^ 64 ->
  timeConsistent g (snd (getUnixTime g t s))
  /\ fst (getUnixTime g t s) = lastValue (snd (getUnixTime g t s))
  /\ fst (getUnixTime g t s) = g.
Proof.
  intros Ht Hg Hjump.
  destruct (backward_jump_assigns_offset g t s Ht Hjump) as (Hassign & Hoff & Hlast).
  pose proof (div1000_bound t ltac:(lia)) as Hb.
  assert (Hret : fst (getUnixTime g t s) = lastValue (snd (getUnixTime g t s))).
  { unfold getUnixTime.
    known_false (t =? 0).
    known_true (t <? FORTY_YEARS_USEC).
    cbn [fst snd]. unfold lastValue.
    match goal with
    | |- wrap64 (_ + onboardTimeOffset ?s2) = _ =>
        assert (Hl : lastNonNullTime s2 = t)
    end.
    { unfold offsetAssigned in Hassign.
      apply andb_true_iff in Hassign as [_ Hstale]. rewrite Hstale.
      cbn [lastNonNullTime attitudeStamped lastAttitude onboardTimeOffset].
      assert (Htt : (t >? t) = false) by (rewrite Z.gtb_ltb; apply Z.ltb_irrefl).
      rewrite Htt. reflexivity. }
    rewrite Hl. reflexivity. }
  split; [|split; [exact Hret|]].
  - exists g, (t / 1000). rewrite Hoff, Hlast. repeat split; lia.
  - rewrite Hret. unfold lastValue. rewrite Hoff, Hlast, wrap64_add_r.
    replace (t / 1000 + (g - t / 1000)) with g by lia. apply wrap64_small. lia.
Qed.

(** With an established offset, a sample not below the last accepted raw
    timestamp (itself at least 100) leaves the offset alone. *)
Lemma in_order_sample_keeps_offset (t' : Z) (s : TimeState) :
  onboardTimeOffset s <> 0 -> 100 <= lastNonNullTime s < 2 ^ 64 ->
  lastNonNullTime s <= t' ->
  offsetAssigned t' s = false.
Proof.
  intros Hoff Hlast Hle. unfold offsetAssigned, offsetStale.
  assert (H1 : (onboardTimeOffset s =? 0) = false) by (apply Z.eqb_neq; exact Hoff).
  assert (H2 : (t' <? wrap64 (lastNonNullTime s - 100)) = false).
  { apply Z.ltb_ge. rewrite wrap64_small by lia. lia. }
  rewrite H1, H2. cbn. apply andb_false_r.
Qed.

Lemma in_order_sample_state (g t' : Z) (s : TimeState) :
  onboardTimeOffset s <> 0 -> 100 <= lastNonNullTime s < 2 ^ 64 ->
  lastNonNullTime s <= t' < FORTY_YEARS_USEC ->
  onboardTimeOffset (snd (getUnixTime g t' s)) = onboardTimeOffset s
  /\ lastNonNullTime (snd (getUnixTime g t' s)) = t'.
Proof.
  intros Hoff Hlast Hle.
  pose proof (in_order_sample_keeps_offset t' s Hoff Hlast ltac:(lia)) as Hkeep.
  unfold offsetAssigned in Hkeep. unfold getUnixTime.
  replace (t' =? 0) with false in * by (symmetry; apply Z.eqb_neq; lia).
  replace (t' <? FORTY_YEARS_USEC) with true in *
    by (symmetry; apply Z.ltb_lt; lia).
  cbn [negb andb] in Hkeep. rewrite Hkeep.
  destruct (t' >? lastNonNullTime s) eqn:Hgt;
    cbn [snd onboardTimeOffset lastNonNullTime]; split; try reflexivity.
  rewrite Z.gtb_ltb in Hgt. apply Z.ltb_ge in Hgt. lia.
Qed.

(** In-order samples on an established offset assign it at no sample. *)
Lemma recomputations_in_order (cont : list (Z * Z)) :
  forall s : TimeState,
    onboardTimeOffset s <> 0 -> 100 <= lastNonNullTime s < 2 ^ 64 ->
    Forall validSample cont ->
    nondecreasing (lastNonNullTime s :: map snd cont) ->
    recomputations cont s = O.
Proof.
  induction cont as [|[g1 t1] rest IH]; intros s Hoff Hlast Hvalid Hraw.
  - reflexivity.
  - apply Forall_cons_iff in Hvalid as [[_ Ht1] Hrest]. cbn [snd] in Ht1.
    cbn [map snd] in Hraw. apply nondecreasing_cons in Hraw as [Hle Hraw].
    cbn [recomputations].
    rewrite (in_order_sample_keeps_offset t1 s Hoff Hlast Hle).
    destruct (in_order_sample_state g1 t1 s Hoff Hlast ltac:(lia)) as [Hoff' Hlast'].
    apply IH.
    + rewrite Hoff'. exact Hoff.
    + rewrite Hlast'. unfold FORTY_YEARS_USEC in Ht1. lia.
    + exact Hrest.
    + rewrite Hlast'. exact Hraw.
Qed.

(** For a last accepted raw timestamp below 100 the unsigned difference
    [lastNonNullTime - 100] wraps, and the slack test holds for every
    sample: each non-zero sample below the threshold has the offset
    assigned. *)
Lemma offsetAssigned_below_slack (t : Z) (s : TimeState) :
  0 <= lastNonNullTime s < 100 -> 0 < t < FORTY_YEARS_USEC ->
  offsetAssigned t s = true.
Proof.
  intros Hlast Ht. unfold offsetAssigned, offsetStale.
  known_false (t =? 0). known_true (t <? FORTY_YEARS_USEC).
  cbn [negb andb]. apply orb_true_iff. right. apply Z.ltb_lt.
  unfold wrap64.
  assert (Hwrap : (lastNonNullTime s - 100) mod 2 ^ 64
                  = lastNonNullTime s - 100 + 2 ^ 64)
    by (symmetry; apply Z.mod_unique_pos with (q := -1); lia).
  rewrite Hwrap. unfold FORTY_YEARS_USEC in Ht. lia.
Qed.

(** The members after an in-order sample on an established offset. *)
Lemma in_order_sample_members (g t' : Z) (s : TimeState) :
  onboardTimeOffset s <> 0 -> 100 <= lastNonNullTime s < 2 ^ 64 ->
  lastNonNullTime s <= t' < FORTY_YEARS_USEC ->
  getUnixTime g t' s
  = (wrap64 (t' / 1000 + onboardTimeOffset s),
     mkTime (attitudeStamped s) (lastAttitude s) (onboardTimeOffset s) t').
Proof.
  intros Hoff Hlast Hle.
  pose proof (in_order_sample_keeps_offset t' s Hoff Hlast ltac:(lia)) as Hkeep.
  unfold offsetAssigned in Hkeep. unfold getUnixTime.
  replace (t' =? 0) with false in * by (symmetry; apply Z.eqb_neq; lia).
  replace (t' <? FORTY_YEARS_USEC) with true in *
    by (symmetry; apply Z.ltb_lt; lia).
  cbn [negb andb] in Hkeep. rewrite Hkeep.
  destruct (t' >? lastNonNullTime s) eqn:Hgt;
    cbn [onboardTimeOffset attitudeStamped lastAttitude]; [reflexivity|].
  rewrite Z.gtb_ltb in Hgt. apply Z.ltb_ge in Hgt.
  assert (t' = lastNonNullTime s) by lia. subst t'.
  destruct s; reflexivity.
Qed.

Lemma nondecreasing_shifted (off : Z) (l : list (Z * Z)) :
  nondecreasing (map snd l) ->
  nondecreasing (map (fun x => snd x / 1000 + off) l).
Proof.
  induction l as [|x [|y l] IH]; intros Hl; try exact I.
  cbn [map] in Hl |- *. destruct Hl as [Hxy Hl].
  split; [pose proof (div1000_mono _ _ Hxy); lia | apply IH; exact Hl].
Qed.

Lemma last_nonempty_default (x : Z) (l : list Z) (d d' y : Z) :
  List.last (x :: l) d = List.last (y :: x :: l) d'.
Proof.
  revert x y. induction l as [|z l IH]; intros x y; [reflexivity|].
  change (List.last (z :: l) d = List.last (x :: z :: l) d').
  apply IH.
Qed.

(** In-order samples on an established offset, whatever the clock
    readings: the results, the number of assignments and the members at
    the end. *)
Lemma reconcileAll_in_order (samples : list (Z * Z)) :
  forall s : TimeState,
    0 < onboardTimeOffset s ->
    100 <= lastNonNullTime s < 2 ^ 64 ->
    Forall (addsWithoutWrap (onboardTimeOffset s)) samples ->
    nondecreasing (lastNonNullTime s :: map snd samples) ->
    reconcileAll samples s
    = map (fun x => snd x / 1000 + onboardTimeOffset s) samples
    /\ recomputations samples s = O
    /\ membersAfter samples s
       = mkTime (attitudeStamped s) (lastAttitude s) (onboardTimeOffset s)
                (List.last (map snd samples) (lastNonNullTime s)).
Proof.
  induction samples as [|[g1 t1] rest IH]; intros s Hoff Hlast Hvalid Hraw.
  - cbn. repeat split. destruct s; reflexivity.
  - apply Forall_cons_iff in Hvalid as [[Ht1 Hsum] Hrest]. cbn [snd] in Ht1, Hsum.
    cbn [map snd] in Hraw. apply nondecreasing_cons in Hraw as [Hle Hraw].
    pose proof (in_order_sample_members g1 t1 s ltac:(lia) Hlast ltac:(lia)) as Hstep.
    pose proof (in_order_sample_keeps_offset t1 s ltac:(lia) Hlast Hle) as Hkeep.
    pose proof (div1000_bound t1 ltac:(lia)) as Hb.
    cbn [reconcileAll recomputations membersAfter]. rewrite Hkeep, Hstep.
    cbn [snd].
    destruct (IH (mkTime (attitudeStamped s) (lastAttitude s)
                         (onboardTimeOffset s) t1))
      as (IHret & IHcount & IHend).
    + exact Hoff.
    + cbn [lastNonNullTime]. unfold FORTY_YEARS_USEC in Ht1. lia.
    + exact Hrest.
    + exact Hraw.
    + cbn [onboardTimeOffset attitudeStamped lastAttitude lastNonNullTime] in *.
      rewrite IHret, IHcount, IHend.
      rewrite wrap64_small by lia.
      split; [reflexivity|]. split; [reflexivity|].
      f_equal. cbn [map snd].
      destruct rest as [|[g2 t2] rest']; [reflexivity|].
      cbn [map snd]. apply last_nonempty_default.
Qed.

(** C3 (as the code has it): with an offset on record (non-zero) and a
    last accepted raw timestamp of at least 100, in-order raw timestamps
    below the 40-year threshold are each given their millisecond value plus
    the offset, whatever the clock readings, as long as that sum stays
    below [2^64]: the results never decrease, and the offset is assigned at
    no sample.  A raw timestamp more than 100 below the last accepted one
    has the offset assigned from the clock reading of that call; when that
    timestamp is at least 100 and the new offset is again non-zero, the
    in-order samples that follow are given their millisecond value plus the
    new offset, as long as that sum stays below [2^64]: the results from
    the jump on never decrease, and the offset is assigned exactly once
    over the jump and those samples. *)
Theorem getUnixTime_monotone_and_single_recomputation
    (samples cont : list (Z * Z)) (s : TimeState) (g t : Z) :
  0 < onboardTimeOffset s ->
  100 <= lastNonNullTime s < 2 ^ 64 ->
  (Forall (addsWithoutWrap (onboardTimeOffset s)) samples ->
   nondecreasing (lastNonNullTime s :: map snd samples) ->
   reconcileAll samples s
   = map (fun x => snd x / 1000 + onboardTimeOffset s) samples
   /\ nondecreasing (reconcileAll samples s)
   /\ recomputations samples s = O
   /\ membersAfter samples s
      = mkTime (attitudeStamped s) (lastAttitude s) (onboardTimeOffset s)
               (List.last (map snd samples) (lastNonNullTime s)))
  /\ (0 < t < FORTY_YEARS_USEC ->
      t + 100 < lastNonNullTime s ->
      offsetAssigned t s = true
      /\ recomputations [(g, t)] s = 1%nat
      /\ onboardTimeOffset (snd (getUnixTime g t s)) = wrap64 (g - t / 1000)
      /\ lastNonNullTime (snd (getUnixTime g t s)) = t
      /\ (100 <= t ->
          wrap64 (g - t / 1000) <> 0 ->
          Forall (addsWithoutWrap (wrap64 (g - t / 1000))) ((g, t) :: cont) ->
          nondecreasing (t :: map snd cont) ->
          reconcileAll ((g, t) :: cont) s
          = map (fun x => snd x / 1000 + wrap64 (g - t / 1000)) ((g, t) :: cont)
          /\ nondecreasing (reconcileAll ((g, t) :: cont) s)
          /\ recomputations ((g, t) :: cont) s = 1%nat)).
Proof.
  intros Hoff Hlast. split.
  - intros Hvalid Hraw.
    destruct (reconcileAll_in_order samples s Hoff Hlast Hvalid Hraw)
      as (Hret & Hcount & Hend).
    split; [exact Hret|]. split; [|split; [exact Hcount | exact Hend]].
    rewrite Hret. apply nondecreasing_shifted.
    apply (nondecreasing_tail (lastNonNullTime s)). exact Hraw.
  - intros Ht Hjump.
    destruct (backward_jump_assigns_offset g t s Ht ltac:(lia))
      as (Hassign & Hnew & Hnewlast).
    split; [exact Hassign|].
    split; [cbn [recomputations]; rewrite Hassign; reflexivity|].
    split; [exact Hnew|]. split; [exact Hnewlast|].
    intros Ht100 Hnz Hvalid Hraw.
    apply Forall_cons_iff in Hvalid as [[_ Hsum] Hvalid]. cbn [snd] in Hsum.
    pose proof (wrap64_range (g - t / 1000)) as Hnewrange.
    destruct (reconcileAll_in_order cont (snd (getUnixTime g t s)))
      as (Hret & Hcount & _).
    + rewrite Hnew. lia.
    + rewrite Hnewlast. unfold FORTY_YEARS_USEC in Ht. lia.
    + rewrite Hnew. exact Hvalid.
    + rewrite Hnewlast. exact Hraw.
    + assert (Hfirst : fst (getUnixTime g t s) = t / 1000 + wrap64 (g - t / 1000)).
      { pose proof (div1000_bound t ltac:(lia)) as Hb.
        rewrite <- Hnew. unfold getUnixTime.
        known_false (t =? 0). known_true (t <? FORTY_YEARS_USEC).
        cbv zeta. cbn [fst snd]. apply wrap64_small.
        unfold getUnixTime in Hnew.
        replace (t =? 0) with false in Hnew by (symmetry; apply Z.eqb_neq; lia).
        replace (t <? FORTY_YEARS_USEC) with true in Hnew
          by (symmetry; apply Z.ltb_lt; lia).
        cbv zeta in Hnew. cbn [snd] in Hnew. rewrite Hnew. lia. }
      assert (Hall : reconcileAll ((g, t) :: cont) s
                     = map (fun x => snd x / 1000 + wrap64 (g - t / 1000))
                           ((g, t) :: cont)).
      { cbn [reconcileAll map snd].
        destruct (getUnixTime g t s) as [ret s'] eqn:Hrun.
        cbn [fst snd] in Hfirst, Hret, Hnew. rewrite Hfirst, Hret, Hnew.
        reflexivity. }
      split; [exact Hall|]. split.
      * rewrite Hall. apply nondecreasing_shifted. exact Hraw.
      * cbn [recomputations]. rewrite Hassign, Hcount. reflexivity.
Qed.

Lemma getUnixTime_monotone_and_single_recomputation_witness :
  nondecreasing (reconcileAll [(9500, 9000); (9400, 12000)]
                   (mkTime false 0 6993 9000))
  /\ recomputations [(9500, 9000); (9400, 12000)] (mkTime false 0 6993 9000) = O
  /\ recomputations [(9000, 2000); (9001, 2500); (9004, 2500)]
       (mkTime false 0 6993 9000) = 1%nat.
Proof.
  destruct (getUnixTime_monotone_and_single_recomputation
              [(9500, 9000); (9400, 12000)] [(9001, 2500); (9004, 2500)]
              (mkTime false 0 6993 9000) 9000 2000)
    as [Horder Hjump].
  - cbn. lia.
  - cbn. lia.
  - destruct Horder as (_ & Hmono & Hnone & _).
    + repeat constructor; unfold FORTY_YEARS_USEC; cbn; lia.
    + cbn. lia.
    + split; [exact Hmono|]. split; [exact Hnone|].
      destruct Hjump as (_ & _ & _ & _ & Hafter).
      * unfold FORTY_YEARS_USEC. lia.
      * cbn. lia.
      * destruct Hafter as (_ & _ & Hone).
        -- lia.
        -- vm_compute. discriminate.
        -- repeat constructor; unfold FORTY_YEARS_USEC; vm_compute; reflexivity.
        -- cbn. lia.
        -- exact Hone.
Defined.

(** Counterexample for C3 as stated.  The members hold the offset 6993 and
    the last accepted raw timestamp 9000000.  A raw timestamp of 5000000,
    more than 100 below it, arrives when the clock reads 5000: the new
    offset is 5000 - 5000 = 0, which the guard reads as no offset, and the
    two in-order samples that follow, with the clock still level with the
    onboard time, have the offset assigned again: three assignments over
    the jump and the samples after it.  And sums are taken modulo [2^64]:
    with the offset [2^64 - 1005] and the last accepted raw timestamp
    1000000, the in-order raw timestamps 1000000 and 1010000 are given
    [2^64 - 5] and then 5. *)
Lemma getUnixTime_zero_offset_assigned_again :
  let s := mkTime false 0 6993 9000000 in
  let run := [(5000, 5000000); (5001, 5001000); (5002, 5002000)] in
  let high := mkTime false 0 (2 ^ 64 - 1005) 1000000 in
  onboardTimeOffset s <> 0
  /\ 5000000 + 100 < lastNonNullTime s
  /\ nondecreasing (map snd run)
  /\ recomputations run s = 3%nat
  /\ onboardTimeOffset high <> 0
  /\ nondecreasing (lastNonNullTime high :: [1000000; 1010000])
  /\ reconcileAll [(0, 1000000); (0, 1010000)] high = [2 ^ 64 - 5; 5]
  /\ ~ nondecreasing (reconcileAll [(0, 1000000); (0, 1010000)] high).
Proof.
  cbv zeta.
  split; [cbn; lia|]. split; [cbn; lia|]. split; [cbn; lia|].
  split; [vm_compute; reflexivity|].
  split; [vm_compute; discriminate|]. split; [cbn; lia|].
  split; [vm_compute; reflexivity|].
  vm_compute. intros [Hle _]. apply Hle. reflexivity.
Qed.

(** ** Link supervision *)

Lemma countSignals_app {F : Type} (p : signal F -> bool) (l1 l2 : list (signal F)) :
  countSignals p (l1 ++ l2) = (countSignals p l1 + countSignals p l2)%nat.
Proof. unfold countSignals. rewrite List.filter_app. apply length_app. Qed.

(** One timer tick. *)
Lemma updateState_tick {F : Type} (timeout uid now : Z) (s : LinkState) :
  let r := updateState (F := F) timeout uid now s in
  let i := wrap64 (now - lastHeartbeat s) in
  countSignals isLinkLostSay (snd r)
    = (if negb (connectionLost s) && connectionLost (fst r) then 1 else 0)%nat
  /\ countSignals isLinkRegainedSay (snd r)
    = (if connectionLost s && negb (connectionLost (fst r)) then 1 else 0)%nat
  /\ countSignals (isTimeoutSignal false) (snd r)
    = (if connectionLost s && negb (connectionLost (fst r)) then 1 else 0)%nat
  /\ countSignals (isTimeoutSignal true) (snd r)
    = (if i >? timeout then 1 else 0)%nat
  /\ (connectionLost s = false -> i <= timeout ->
      snd r = [] /\ connectionLost (fst r) = false)
  /\ lastHeartbeat (fst r) = lastHeartbeat s.
Proof.
  destruct s as [hb lost losstime mode lock].
  unfold updateState. cbn [lastHeartbeat connectionLost connectionLossTime
    receivedMode positionLock].
  rewrite !Z.gtb_ltb.
  destruct lost;
    destruct (Z.ltb_spec timeout (wrap64 (now - hb))) as [Hgt | Hle];
    destruct (Z.ltb_spec (wrap64 (now - hb)) timeout) as [Hlt | Hge];
    try lia; destruct lock; cbn; repeat split; intros; try reflexivity;
    try discriminate; try lia.
Qed.

Lemma updateState_lastHeartbeat {F : Type} (timeout uid now : Z) (s : LinkState) :
  lastHeartbeat (fst (updateState (F := F) timeout uid now s)) = lastHeartbeat s.
Proof. apply (updateState_tick (F := F) timeout uid now s). Qed.

Lemma overdueTicks_lastHeartbeat (timeout : Z) (evs : list linkEvent) :
  forall s s' : LinkState,
    lastHeartbeat s = lastHeartbeat s' ->
    overdueTicks timeout evs s = overdueTicks timeout evs s'.
Proof.
  induction evs as [|[now | now] rest IH]; intros s s' Hhb; cbn [overdueTicks].
  - reflexivity.
  - apply IH. reflexivity.
  - rewrite Hhb. f_equal. apply IH. exact Hhb.
Qed.

Lemma withinTimeout_lastHeartbeat (timeout : Z) (evs : list linkEvent) :
  forall s s' : LinkState,
    lastHeartbeat s = lastHeartbeat s' ->
    withinTimeout timeout evs s -> withinTimeout timeout evs s'.
Proof.
  induction evs as [|[now | now] rest IH]; intros s s' Hhb; cbn [withinTimeout].
  - trivial.
  - apply IH. reflexivity.
  - rewrite Hhb. intros [H1 H2]. split; [exact H1|]. apply (IH s s' Hhb H2).
Qed.

(** C4 (as the code has it): over any run of heartbeats and timer ticks,
    the "link lost" announcement is made exactly once per tick at which the
    link goes from present to lost, the "link regained" announcement and the
    signal [heartbeatTimeout(false, 0)] exactly once per tick at which it
    goes from lost to present; the signal [heartbeatTimeout(true, elapsed)]
    is emitted at every tick at which the time since the last heartbeat
    exceeds the timeout, so again at each tick while the link stays lost;
    and while the link is present and every tick finds the last heartbeat
    within the timeout, nothing is signalled. *)
Theorem link_loss_signalling {F : Type} (timeout uid : Z) (evs : list linkEvent) :
  forall s : LinkState,
    let out := snd (linkRun (F := F) timeout uid evs s) in
    countSignals isLinkLostSay out = lossTransitions (F := F) timeout uid evs s
    /\ countSignals isLinkRegainedSay out = regainTransitions (F := F) timeout uid evs s
    /\ countSignals (isTimeoutSignal false) out
       = regainTransitions (F := F) timeout uid evs s
    /\ countSignals (isTimeoutSignal true) out = overdueTicks timeout evs s
    /\ (connectionLost s = false -> withinTimeout timeout evs s -> out = []).
Proof.
  induction evs as [|[now | now] rest IH]; intros s.
  - cbn. repeat split; reflexivity.
  - cbn [linkRun lossTransitions regainTransitions overdueTicks withinTimeout].
    apply (IH (heartbeatSeen now s)).
  - cbn [linkRun lossTransitions regainTransitions overdueTicks withinTimeout].
    pose proof (updateState_tick (F := F) timeout uid now s) as Htick.
    cbv zeta in Htick.
    destruct (updateState (F := F) timeout uid now s) as [s1 e1] eqn:Hstep.
    cbn [fst snd] in Htick.
    destruct Htick as (Hlost & Hregain & Hfalse & Htrue & Hquiet & Hhb).
    specialize (IH s1). cbv zeta in IH.
    destruct (linkRun (F := F) timeout uid rest s1) as [s2 e2] eqn:Hrest.
    cbn [fst snd] in IH |- *.
    destruct IH as (IHlost & IHregain & IHfalse & IHtrue & IHquiet).
    rewrite !countSignals_app, Hlost, Hregain, Hfalse, Htrue,
      IHlost, IHregain, IHfalse, IHtrue.
    rewrite (overdueTicks_lastHeartbeat timeout rest s1 s Hhb).
    repeat split; try reflexivity.
    intros Hpresent [Hnow Hlater].
    destruct (Hquiet Hpresent Hnow) as [He1 Hs1]. rewrite He1. cbn [app].
    apply IHquiet; [exact Hs1|].
    apply (withinTimeout_lastHeartbeat timeout rest s s1); [symmetry; exact Hhb | exact Hlater].
Qed.

(** Counterexample for C4 as stated: with a timeout of 500 ms and the last
    heartbeat at 0, the ticks at 600 ms and 1100 ms both signal
    [heartbeatTimeout(true, _)], the second while the link remains lost;
    there is one transition into the lost state. *)
Lemma heartbeatTimeout_repeated_while_lost :
  let s0 := mkLink 0 false 0 true false in
  let run := [Tick 600000; Tick 1100000] in
  snd (linkRun (F := unit) 500000 1 run s0)
    = [say (LinkLost 1); heartbeatTimeout true 600; heartbeatTimeout true 1100]
  /\ lossTransitions (F := unit) 500000 1 run s0 = 1%nat
  /\ countSignals (isTimeoutSignal true) (snd (linkRun (F := unit) 500000 1 run s0))
     = 2%nat.
Proof. vm_compute. repeat split; reflexivity. Qed.

Lemma link_loss_signalling_witness :
  snd (linkRun (F := unit) 500000 1
         [Beat 400000; Tick 500000; Beat 800000; Tick 1000000]
         (mkLink 0 false 0 true false)) = [].
Proof.
  apply (link_loss_signalling (F := unit) 500000 1
           [Beat 400000; Tick 500000; Beat 800000; Tick 1000000]
           (mkLink 0 false 0 true false)).
  - reflexivity.
  - cbn [withinTimeout]. repeat split; apply Z.leb_le; vm_compute; reflexivity.
Defined.

(** ** Battery supervision *)

Section BatteryProperties.
Context {F : Type} `{CFloat F}.






End BatteryProperties.




(** ** Image transfer *)

(** While fewer chunks have arrived than were announced, no chunk signals
    and the arrival counter counts the chunks. *)
Lemma imageRun_partial {F : Type} (chunks : list mavlink_encapsulated_data_t) :
  forall im : ImageState,
    0 < imagePackets im ->
    imagePacketsArrived im + Z.of_nat (length chunks) < imagePackets im ->
    Forall (fun e => e = []) (snd (imageRun (F := F) chunks im))
    /\ imagePackets (fst (imageRun (F := F) chunks im)) = imagePackets im
    /\ imagePacketsArrived (fst (imageRun (F := F) chunks im))
       = imagePacketsArrived im + Z.of_nat (length chunks).
Proof.
  induction chunks as [|c rest IH]; intros im Hpos Hlt.
  - cbn. repeat split; [constructor | lia].
  - cbn [length] in Hlt |- *. rewrite Nat2Z.inj_succ in Hlt |- *.
    cbn [imageRun]. unfold handleEncapsulatedData.
    known_false (imagePackets im =? 0).
    known_false (imagePacketsArrived im + 1 >=? imagePackets im).
    match goal with
    | |- context [imageRun rest ?im1] =>
        specialize (IH im1); destruct (imageRun (F := F) rest im1) as [im2 es] eqn:Hrun
    end.
    cbn [imagePackets imagePacketsArrived fst snd] in IH |- *.
    destruct (IH Hpos ltac:(lia)) as (Hsig & Hpk & Harr).
    repeat split; [constructor; [reflexivity | exact Hsig] | exact Hpk |].
    rewrite Harr. lia.
Qed.

(** C6: after a handshake that announces [h_packets p > 0] packets, the
    chunks before the announced count give no signal and are counted; the
    chunk that brings the count to the announced number gives exactly the
    image-ready signal and leaves both counters at zero; and a chunk that
    arrives while no packets are announced gives no signal, leaves the
    buffer and every other member alone and sets the arrival counter to
    zero. *)
Theorem image_ready_at_announced_count {F : Type} (now : Z)
    (p : mavlink_data_transmission_handshake_t) (im0 idle : ImageState)
    (chunks : list mavlink_encapsulated_data_t)
    (final stray : mavlink_encapsulated_data_t) :
  0 < h_packets p ->
  Z.of_nat (length chunks) + 1 = h_packets p ->
  imagePackets idle = 0 ->
  let started := handleHandshake now p im0 in
  let before := imageRun (F := F) chunks started in
  let done := handleEncapsulatedData (F := F) final (fst before) in
  imagePackets started = h_packets p
  /\ imagePacketsArrived started = 0
  /\ Forall (fun e => e = []) (snd before)
  /\ imagePacketsArrived (fst before) = Z.of_nat (length chunks)
  /\ snd done = [imageReady]
  /\ imagePackets (fst done) = 0
  /\ imagePacketsArrived (fst done) = 0
  /\ handleEncapsulatedData (F := F) stray idle
     = (mkImage (imageSize idle) (imagePackets idle) 0 (imagePayload idle)
                (imageQuality idle) (imageType idle) (imageWidth idle)
                (imageHeight idle) (imageStart idle) (imageRecBuffer idle), []).
Proof.
  intros Hpos Hlen Hidle started before done.
  assert (Hstart : imagePackets started = h_packets p) by reflexivity.
  assert (Hzero : imagePacketsArrived started = 0) by reflexivity.
  destruct (imageRun_partial (F := F) chunks started) as (Hsig & Hpk & Harr).
  { rewrite Hstart. exact Hpos. }
  { rewrite Hstart, Hzero. lia. }
  fold before in Hsig, Hpk, Harr. rewrite Hzero in Harr. cbn [Z.add] in Harr.
  assert (Hdone : done = (mkImage (imageSize (fst before)) 0 0
                            (imagePayload (fst before)) (imageQuality (fst before))
                            (imageType (fst before)) (imageWidth (fst before))
                            (imageHeight (fst before)) (imageStart (fst before))
                            (fst (copyChunk (Z.to_nat (imagePayload (fst before))) 0
                                    (seqnr final * imagePayload (fst before))
                                    (imageSize (fst before)) (data final)
                                    (imageRecBuffer (fst before)))),
                          [imageReady])).
  { unfold done, handleEncapsulatedData.
    known_false (imagePackets (fst before) =? 0).
    known_true (imagePacketsArrived (fst before) + 1 >=? imagePackets (fst before)).
    reflexivity. }
  repeat split; try assumption; try (rewrite Hdone; reflexivity).
  unfold handleEncapsulatedData. rewrite Hidle. reflexivity.
Qed.

Lemma image_ready_at_announced_count_witness :
  let started := handleHandshake 0 (mkHandshake 6 0 0 2 0 3 0) emptyImage in
  let before := imageRun (F := unit) [mkEncapsulated 0 [1; 2; 3]] started in
  snd (handleEncapsulatedData (F := unit) (mkEncapsulated 1 [4; 5; 6]) (fst before))
    = [imageReady]
  /\ imageRecBuffer (fst (handleEncapsulatedData (F := unit)
                            (mkEncapsulated 1 [4; 5; 6]) (fst before)))
     = [1; 2; 3; 4; 5; 6].
Proof.
  cbv zeta. split.
  - apply (image_ready_at_announced_count (F := unit) 0 (mkHandshake 6 0 0 2 0 3 0)
             emptyImage emptyImage [mkEncapsulated 0 [1; 2; 3]]
             (mkEncapsulated 1 [4; 5; 6]) (mkEncapsulated 0 [])); reflexivity.
  - reflexivity.
Defined.

(** The positions a chunk assigns lie from its offset
    [seqnr * imagePayload] on, within the payload length, and are at most
    [imageSize]. *)
Lemma copyChunk_positions (n : nat) :
  forall (i pos size : Z) (bytes buf : list Z) (x : Z),
    In x (snd (copyChunk n i pos size bytes buf)) ->
    pos <= x < pos + Z.of_nat n /\ x <= size.
Proof.
  induction n as [|n IH]; intros i pos size bytes buf x Hin.
  - destruct Hin.
  - cbn [copyChunk] in Hin. rewrite Nat2Z.inj_succ.
    destruct (pos <=? size) eqn:Hle.
    + destruct (copyChunk n (i + 1) (pos + 1) size bytes
                  (bufferAssign pos (nth (Z.to_nat i) bytes 0) buf))
        as [buf' ws] eqn:Hrec.
      cbn [snd] in Hin. destruct Hin as [Hx | Hx].
      * subst x. apply Z.leb_le in Hle. lia.
      * assert (Hx' : In x (snd (copyChunk n (i + 1) (pos + 1) size bytes
                  (bufferAssign pos (nth (Z.to_nat i) bytes 0) buf))))
          by (rewrite Hrec; exact Hx).
        apply IH in Hx'. lia.
    + apply IH in Hin. lia.
Qed.

Lemma chunkWrites_positions (img : mavlink_encapsulated_data_t) (im : ImageState)
    (x : Z) :
  In x (chunkWrites img im) ->
  seqnr img * imagePayload im <= x < seqnr img * imagePayload im + imagePayload im
  /\ x <= imageSize im.
Proof.
  unfold chunkWrites. destruct (imagePackets im =? 0); [intros []|].
  intros Hin. apply copyChunk_positions in Hin. lia.
Qed.

(** C7 (code at the failing input): a handshake announces an image of 5
    bytes in 2 packets of 4 bytes; the chunk with sequence number 1 is
    assigned at the positions 4 and 5.  Position 5 is the announced size,
    one past the last byte of the image, and the receive buffer ends up 6
    bytes long. *)
Lemma chunk_assigns_one_past_announced_size :
  let im := handleHandshake 0 (mkHandshake 5 0 0 2 0 4 0) emptyImage in
  let img := mkEncapsulated 1 [10; 11; 12; 13] in
  imageSize im = 5
  /\ chunkWrites img im = [4; 5]
  /\ imageRecBuffer (fst (handleEncapsulatedData (F := unit) img im))
     = [0; 0; 0; 0; 10; 11].
Proof. vm_compute. repeat split; reflexivity. Qed.

(** ** Attitude *)

(** C8: when the pitch taken from the direction-cosine matrix is within
    0.001 of +90 or of -90 degrees, the roll is set to zero, and the yaw is
    [atan2] of the combined terms [dcm[1][2] - dcm[0][1]] and
    [dcm[0][2] + dcm[1][1]]: near +90 degrees with the zero roll added to
    the result, near -90 degrees with the zero roll subtracted from the
    second argument. *)
Theorem quaternion_euler_at_gimbal_lock {F : Type} `{CFloat F} `{Libm F}
    (q : mavlink_attitude_quaternion_t F) :
  let dcm := quaternionToDcm (q1 q) (q2 q) (q3 q) (q4 q) in
  let theta := dcmPitch dcm in
  let y := Fsub (dcm12 dcm) (dcm01 dcm) in
  let x := Fadd (dcm02 dcm) (dcm11 dcm) in
  nearPlus90 theta || nearMinus90 theta = true ->
  quaternionToEuler q
  = (Flit 0 1, theta,
     if nearPlus90 theta
     then to_float (Fadd (atan2 y x) (Flit 0 1))
     else atan2f y (Fsub x (Flit 0 1))).
Proof.
  intros dcm theta y x Hnear. unfold quaternionToEuler, dcmToEuler.
  fold dcm. fold theta.
  destruct (nearPlus90 theta); [reflexivity|].
  cbn [orb] in Hnear. rewrite Hnear. reflexivity.
Qed.

Lemma quaternion_euler_at_gimbal_lock_witness :
  let q := mkAttitudeQuaternion 0 (Binary32.of_Z 1) (Binary32.of_Z 0)
             (Binary32.lit 1 2) (Binary32.of_Z 0)
             (Binary32.of_Z 0) (Binary32.of_Z 0) (Binary32.of_Z 0) in
  fst (fst (quaternionToEuler (H0 := poleLibm) q)) = Binary32.of_Z 0
  /\ snd (fst (quaternionToEuler (H0 := poleLibm) q)) = M_PI_2.
Proof.
  cbv zeta.
  rewrite (quaternion_euler_at_gimbal_lock (H0 := poleLibm)
             (mkAttitudeQuaternion 0 (Binary32.of_Z 1) (Binary32.of_Z 0)
                (Binary32.lit 1 2) (Binary32.of_Z 0)
                (Binary32.of_Z 0) (Binary32.of_Z 0) (Binary32.of_Z 0))).
  - split; vm_compute; reflexivity.
  - vm_compute. reflexivity.
Defined.

(** ** Message dispatcher *)

Section DispatcherProperties.
Context {F Rest : Type} `{CFloat F} `{Libm F} `{Collaborators F Rest}.

Lemma registerComponent_frame (message : mavlink_message_t F) (s : UAS F Rest) :
  registerComponent message s
  = withComponents (components (registerComponent message s)) s.
Proof.
  unfold registerComponent.
  destruct (components s !! compid message); destruct s; reflexivity.
Qed.

Lemma accepted_registerComponent (message : mavlink_message_t F) (s : UAS F Rest) :
  accepted message (registerComponent message s) = accepted message s.
Proof. rewrite registerComponent_frame. reflexivity. Qed.

Lemma withOwnership_same (s : UAS F Rest) :
  withOwnership (componentID s) (componentMulti s) s = s.
Proof. destruct s. reflexivity. Qed.

(** The dispatcher sees the multi-source flag only together with
    [wrongComponent]. *)
Lemma dispatch_right_component (message : mavlink_message_t F) (clk : clock)
    (detected : bool) (s : UAS F Rest) :
  dispatch message clk false detected s = dispatch message clk false false s.
Proof. unfold dispatch. rewrite andb_false_r. reflexivity. Qed.

(** A message of a guarded type from the wrong component, with the flag
    set, does nothing. *)
Lemma dispatch_guarded (message : mavlink_message_t F) (clk : clock)
    (s : UAS F Rest) :
  memZ (msgid message) guardedIds = true ->
  dispatch message clk true true s = (s, []).
Proof.
  unfold memZ, guardedIds. cbn [existsb]. rewrite orb_false_r. intros Hid.
  unfold dispatch.
  repeat match type of Hid with
  | _ || _ = true => apply orb_true_iff in Hid as [Hid | Hid]
  end; apply Z.eqb_eq in Hid; rewrite Hid; reflexivity.
Qed.

(** C9 (as the code has it): a message whose system id is not the
    vehicle's runs no handler and emits nothing; the state is the one left
    by the registration of the sender's component, which differs from the
    old state in the component registry at most, and there only at the
    sender's component id when that was not registered before. *)
Theorem foreign_system_message_registers_only
    (message : mavlink_message_t F) (clk : clock) (s : UAS F Rest) :
  sysid message <> uasId s ->
  receiveMessage message clk s = (registerComponent message s, [])
  /\ registerComponent message s
     = withComponents (components (registerComponent message s)) s
  /\ (forall c : Z, c <> compid message ->
        components (registerComponent message s) !! c = components s !! c)
  /\ (is_Some (components s !! compid message) ->
        registerComponent message s = s).
Proof.
  intros Hsys. split; [|split; [apply registerComponent_frame|split]].
  - unfold receiveMessage. rewrite accepted_registerComponent. unfold accepted.
    replace (sysid message =? uasId s) with false
      by (symmetry; apply Z.eqb_neq; exact Hsys).
    reflexivity.
  - intros c Hc. unfold registerComponent.
    destruct (components s !! compid message) eqn:Hreg; [reflexivity|].
    cbn [withComponents components]. apply lookup_insert_ne. congruence.
  - intros [name Hname]. unfold registerComponent. rewrite Hname. reflexivity.
Qed.

(** What [resolveOwnership] does for an established owner, the
    secondary IMU aside. *)
Lemma resolveOwnership_established (message : mavlink_message_t F)
    (s : UAS F Rest) (owner : Z) :
  ownerOf s (msgid message) = owner -> owner <> -1 ->
  compid message <> MAV_COMP_ID_IMU_2 ->
  resolveOwnership message s
  = if compid message =? owner
    then (s, false, multiOf s (msgid message))
    else (withOwnership (componentID s)
            (<[msgid message := true]> (componentMulti s)) s, true, true).
Proof.
  intros Howner Hset Himu. unfold resolveOwnership, ownerOf in *.
  replace (compid message =? MAV_COMP_ID_IMU_2) with false
    by (symmetry; apply Z.eqb_neq; exact Himu).
  rewrite Howner.
  replace (owner =? -1) with false by (symmetry; apply Z.eqb_neq; exact Hset).
  rewrite (Z.eqb_sym owner).
  destruct (compid message =? owner); cbn [negb].
  - rewrite withOwnership_same. reflexivity.
  - rewrite lookup_insert_eq. reflexivity.
Qed.

(** C2 (as the code has it): for the message types whose handlers begin
    with the multi-source guard (HEARTBEAT, BATTERY_STATUS, SYS_STATUS,
    POSITION_TARGET_LOCAL_NED), once a component owns the type, an accepted
    message of that type from another component, the secondary IMU aside,
    sets the conflict flag of the type, emits nothing and changes nothing
    else beyond the registration of the sender; an accepted message from
    the owner is handled as a message with no conflict. *)
Theorem guarded_type_conflict (message : mavlink_message_t F) (clk : clock)
    (s : UAS F Rest) (owner : Z) :
  memZ (msgid message) guardedIds = true ->
  accepted message s = true ->
  ownerOf s (msgid message) = owner -> owner <> -1 ->
  compid message <> MAV_COMP_ID_IMU_2 ->
  (compid message <> owner ->
     receiveMessage message clk s
     = (withOwnership (componentID s) (<[msgid message := true]> (componentMulti s))
          (registerComponent message s), []))
  /\ (compid message = owner ->
     receiveMessage message clk s
     = dispatch message clk false false (registerComponent message s)).
Proof.
  intros Hid Hacc Howner Hset Himu.
  assert (Howner' : ownerOf (registerComponent message s) (msgid message) = owner).
  { rewrite registerComponent_frame. exact Howner. }
  pose proof (resolveOwnership_established message (registerComponent message s)
                owner Howner' Hset Himu) as Hres.
  assert (Hids : componentID (registerComponent message s) = componentID s)
    by (rewrite registerComponent_frame; reflexivity).
  assert (Hmulti : componentMulti (registerComponent message s) = componentMulti s)
    by (rewrite registerComponent_frame; reflexivity).
  unfold receiveMessage. rewrite accepted_registerComponent, Hacc, Hres.
  split; intros Hcomp.
  - replace (compid message =? owner) with false
      by (symmetry; apply Z.eqb_neq; exact Hcomp).
    rewrite Hids, Hmulti. apply dispatch_guarded. exact Hid.
  - replace (compid message =? owner) with true
      by (symmetry; apply Z.eqb_eq; exact Hcomp).
    apply dispatch_right_component.
Qed.

(** The COMMAND_ACK case runs the ATTITUDE_TARGET handler on the same
    message after emitting its text. *)
Lemma command_ack_runs_attitude_target (message : mavlink_message_t F)
    (clk : clock) (wrong detected : bool) (s : UAS F Rest) :
  msgid message = MAVLINK_MSG_ID_COMMAND_ACK ->
  dispatch message clk wrong detected s
  = (fst (handleAttitudeTarget message clk s),
     commandAckText message s ++ snd (handleAttitudeTarget message clk s)).
Proof.
  intros Hid. unfold dispatch. rewrite Hid. cbn -[handleCommandAck].
  unfold handleCommandAck.
  destruct (handleAttitudeTarget message clk s) as [s1 e2]. reflexivity.
Qed.

End DispatcherProperties.

(** ** Evaluation on sample messages *)

#[local] Existing Instance poleLibm.
#[local] Existing Instance inertCollaborators.

Lemma foreign_system_message_registers_only_witness :
  receiveMessage (blankMessage 2 50 MAVLINK_MSG_ID_HEARTBEAT) (mkClock 0 0)
                 freshVehicle
  = (registerComponent (blankMessage 2 50 MAVLINK_MSG_ID_HEARTBEAT) freshVehicle, []).
Proof.
  apply (foreign_system_message_registers_only
           (blankMessage 2 50 MAVLINK_MSG_ID_HEARTBEAT) (mkClock 0 0) freshVehicle).
  cbn. lia.
Defined.

(** Counterexample for C9 as stated: a heartbeat of system 2, component 50,
    reaches the dispatcher of vehicle 1, whose registry is empty; after the
    call the registry holds component 50. *)
Lemma foreign_system_message_changes_registry :
  let message := blankMessage 2 50 MAVLINK_MSG_ID_HEARTBEAT in
  sysid message <> uasId freshVehicle
  /\ components freshVehicle !! 50 = None
  /\ components (fst (receiveMessage message (mkClock 0 0) freshVehicle)) !! 50
     = Some ""%string.
Proof.
  cbv zeta. split; [cbn; lia|]. split; vm_compute; reflexivity.
Qed.

Lemma guarded_type_conflict_witness :
  let owned := fst (receiveMessage (blankMessage 1 1 MAVLINK_MSG_ID_HEARTBEAT)
                      (mkClock 1000 1) freshVehicle) in
  snd (receiveMessage (blankMessage 1 2 MAVLINK_MSG_ID_HEARTBEAT)
         (mkClock 2000 2) owned) = []
  /\ multiOf (fst (receiveMessage (blankMessage 1 2 MAVLINK_MSG_ID_HEARTBEAT)
                     (mkClock 2000 2) owned)) MAVLINK_MSG_ID_HEARTBEAT = true.
Proof.
  cbv zeta.
  destruct (guarded_type_conflict (blankMessage 1 2 MAVLINK_MSG_ID_HEARTBEAT)
              (mkClock 2000 2)
              (fst (receiveMessage (blankMessage 1 1 MAVLINK_MSG_ID_HEARTBEAT)
                      (mkClock 1000 1) freshVehicle)) 1) as [Hother _].
  - reflexivity.
  - vm_compute. reflexivity.
  - vm_compute. reflexivity.
  - lia.
  - cbn. unfold MAV_COMP_ID_IMU_2. lia.
  - rewrite Hother by (cbn; lia). split; [reflexivity|]. vm_compute. reflexivity.
Defined.

(** Counterexample for C2 as stated: component 1 owns the handshake type
    after announcing 2 packets; a handshake from component 2 sets the
    conflict flag and still replaces the announced packet count by its
    own.  And component 1 owns the heartbeat type; a heartbeat from the
    secondary IMU (component 201) takes the ownership, sets no flag and
    updates the time of the last heartbeat. *)
Lemma other_component_message_alters_state :
  let s1 := fst (receiveMessage (handshakeMessage 1 (mkHandshake 100 0 0 2 0 50 0))
                   (mkClock 0 0) freshVehicle) in
  let s2 := fst (receiveMessage (handshakeMessage 2 (mkHandshake 7 0 0 9 0 3 0))
                   (mkClock 0 0) s1) in
  let h1 := fst (receiveMessage (blankMessage 1 1 MAVLINK_MSG_ID_HEARTBEAT)
                   (mkClock 1000 1) freshVehicle) in
  let h2 := fst (receiveMessage (blankMessage 1 201 MAVLINK_MSG_ID_HEARTBEAT)
                   (mkClock 2000 2) h1) in
  (ownerOf s1 MAVLINK_MSG_ID_DATA_TRANSMISSION_HANDSHAKE = 1
   /\ multiOf s2 MAVLINK_MSG_ID_DATA_TRANSMISSION_HANDSHAKE = true
   /\ imagePackets (image s1) = 2
   /\ imagePackets (image s2) = 9)
  /\ (ownerOf h1 MAVLINK_MSG_ID_HEARTBEAT = 1
      /\ ownerOf h2 MAVLINK_MSG_ID_HEARTBEAT = 201
      /\ multiOf h2 MAVLINK_MSG_ID_HEARTBEAT = false
      /\ lastHeartbeat (link h1) = 1000
      /\ lastHeartbeat (link h2) = 2000).
Proof. vm_compute. repeat split; reflexivity. Qed.

(** C10 (code at the failing input): a COMMAND_ACK for command 400 with
    result ACCEPTED, received by vehicle 1 with the clock at 5000 ms, emits
    the command-result text and then the attitude-thrust setpoint and the
    three setpoint plot values of the ATTITUDE_TARGET handler. *)
Lemma command_ack_emits_attitude_setpoint :
  snd (receiveMessage ackMessage (mkClock 5000000 5000) freshVehicle)
  = [textMessageReceived 1 MAV_SEVERITY_INFO "SUCCESS: Executed CMD: %1" 400;
     attitudeThrustSetPointChanged (Binary32.of_Z 0) (Binary32.of_Z 0)
       (Binary32.of_Z 0) (Binary32.of_Z 0) 5000;
     valueChanged 1 "roll sp" "rad" (VFloat (Binary32.of_Z 0)) 5000;
     valueChanged 1 "pitch sp" "rad" (VFloat (Binary32.of_Z 0)) 5000;
     valueChanged 1 "yaw sp" "rad" (VFloat (Binary32.of_Z 0)) 5000].
Proof. vm_compute. reflexivity. Qed.

(** * Further properties *)

(** ** Time reconciliation *)

Lemma getUnixReferenceTime_established (g t : Z) (s : TimeState) :
  onboardTimeOffset s <> 0 ->
  getUnixReferenceTime g t s
  = (if t =? 0 then g
     else if t <? FORTY_YEARS_USEC then wrap64 (t / 1000 + onboardTimeOffset s)
     else t / 1000, s).
Proof.
  intros Hoff. unfold getUnixReferenceTime.
  destruct (t =? 0); [reflexivity|].
  destruct (t <? FORTY_YEARS_USEC); [|reflexivity].
  replace (onboardTimeOffset s =? 0) with false
    by (symmetry; apply Z.eqb_neq; exact Hoff).
  reflexivity.
Qed.

(** X1: whenever [getUnixTime] does not assign the offset, it returns what
    [getUnixReferenceTime] returns for the same clock reading, raw
    timestamp and members. *)
Theorem getUnixTime_agrees_with_reference (g t : Z) (s : TimeState) :
  offsetAssigned t s = false ->
  fst (getUnixTime g t s) = fst (getUnixReferenceTime g t s).
Proof.
  unfold offsetAssigned, getUnixTime, getUnixReferenceTime, offsetStale.
  destruct (t =? 0); [reflexivity|].
  destruct (t <? FORTY_YEARS_USEC); [|reflexivity].
  cbn [negb andb]. intros Hstale. rewrite Hstale.
  apply orb_false_iff in Hstale as [Hoff _]. rewrite Hoff.
  destruct (t >? lastNonNullTime s); reflexivity.
Qed.

Lemma getUnixTime_agrees_with_reference_witness :
  fst (getUnixTime 9000 2500000 (mkTime false 0 6993 2000000))
  = fst (getUnixReferenceTime 9000 2500000 (mkTime false 0 6993 2000000)).
Proof.
  apply (getUnixTime_agrees_with_reference 9000 2500000
           (mkTime false 0 6993 2000000)).
  vm_compute. reflexivity.
Defined.

(** X2: a boot time in milliseconds (positive, below [2^32]) whose
    microsecond value is not below the last accepted raw timestamp is
    recorded as the last accepted raw timestamp.  With an offset on record
    and a last accepted raw timestamp of at least 100 it is given the value
    [ms + offset], and the offset stays.  With a last accepted raw
    timestamp below 100 (as before the first non-zero sample) the slack
    test wraps: the offset on record is replaced by the clock reading less
    [ms], and the value is computed with the new offset. *)
Theorem getUnixTimeFromMs_adds_offset (g ms : Z) (s : TimeState) :
  0 < ms < 2 ^ 32 ->
  onboardTimeOffset s <> 0 ->
  0 <= lastNonNullTime s <= ms * 1000 ->
  lastNonNullTime (snd (getUnixTimeFromMs g ms s)) = ms * 1000
  /\ (100 <= lastNonNullTime s ->
      fst (getUnixTimeFromMs g ms s) = wrap64 (ms + onboardTimeOffset s)
      /\ onboardTimeOffset (snd (getUnixTimeFromMs g ms s)) = onboardTimeOffset s)
  /\ (lastNonNullTime s < 100 ->
      fst (getUnixTimeFromMs g ms s) = wrap64 (ms + wrap64 (g - ms))
      /\ onboardTimeOffset (snd (getUnixTimeFromMs g ms s)) = wrap64 (g - ms)).
Proof.
  intros Hms Hoff Hlast. unfold getUnixTimeFromMs.
  rewrite (wrap64_small (ms * 1000)) by lia.
  assert (Hrange : 0 < ms * 1000 < FORTY_YEARS_USEC)
    by (unfold FORTY_YEARS_USEC; lia).
  destruct (Z_lt_ge_dec (lastNonNullTime s) 100) as [Hlow | Hhigh].
  - pose proof (offsetAssigned_below_slack (ms * 1000) s ltac:(lia) Hrange)
      as Hassign.
    unfold offsetAssigned in Hassign. unfold getUnixTime.
    replace (ms * 1000 =? 0) with false in Hassign |- *
      by (symmetry; apply Z.eqb_neq; lia).
    replace (ms * 1000 <? FORTY_YEARS_USEC) with true in Hassign |- *
      by (symmetry; apply Z.ltb_lt; lia).
    cbn [negb andb] in Hassign. rewrite Hassign.
    cbv zeta. cbn [lastNonNullTime attitudeStamped lastAttitude onboardTimeOffset].
    assert (Htt : (ms * 1000 >? ms * 1000) = false)
      by (rewrite Z.gtb_ltb; apply Z.ltb_irrefl).
    rewrite Htt, Z.div_mul by lia.
    cbn [fst snd lastNonNullTime onboardTimeOffset].
    split; [reflexivity|]. split; [intros; lia|]. intros _. split; reflexivity.
  - rewrite (in_order_sample_members g (ms * 1000) s Hoff ltac:(lia) ltac:(lia)).
    cbn [fst snd lastNonNullTime onboardTimeOffset]. rewrite Z.div_mul by lia.
    split; [reflexivity|]. split; [intros _; split; reflexivity | intros; lia].
Qed.

Lemma getUnixTimeFromMs_adds_offset_witness :
  fst (getUnixTimeFromMs 9000 2500 (mkTime false 0 6993 2000000)) = 9493
  /\ fst (getUnixTimeFromMs 9000 2500 (mkTime false 0 6993 0)) = 9000.
Proof.
  destruct (getUnixTimeFromMs_adds_offset 9000 2500 (mkTime false 0 6993 2000000))
    as (_ & Hhigh & _).
  - lia.
  - cbn. lia.
  - cbn. lia.
  - destruct (getUnixTimeFromMs_adds_offset 9000 2500 (mkTime false 0 6993 0))
      as (_ & _ & Hlow).
    + lia.
    + cbn. lia.
    + cbn. lia.
    + destruct Hhigh as [-> _]; [cbn; lia|].
      destruct Hlow as [-> _]; [cbn; lia|].
      split; reflexivity.
Defined.

(** X3: once an offset is on record, no call of [getUnixReferenceTime]
    changes any time member, whatever the samples, backward jumps
    included; and with or without an offset it never writes the
    attitude-stamped members or the last accepted raw timestamp. *)
Theorem getUnixReferenceTime_keeps_offset (samples : list (Z * Z)) :
  forall s : TimeState,
    (onboardTimeOffset s <> 0 -> referenceRun samples s = s)
    /\ attitudeStamped (referenceRun samples s) = attitudeStamped s
    /\ lastAttitude (referenceRun samples s) = lastAttitude s
    /\ lastNonNullTime (referenceRun samples s) = lastNonNullTime s.
Proof.
  induction samples as [|[g t] rest IH]; intros s.
  - cbn. auto.
  - cbn [referenceRun].
    destruct (IH (snd (getUnixReferenceTime g t s))) as (IHoff & IHst & IHla & IHlast).
    split; [|].
    + intros Hoff. rewrite (getUnixReferenceTime_established g t s Hoff) in IHoff |- *.
      cbn [snd] in IHoff |- *. apply IHoff. exact Hoff.
    + rewrite IHst, IHla, IHlast. unfold getUnixReferenceTime.
      destruct (t =? 0); [auto|].
      destruct (t <? FORTY_YEARS_USEC); [|auto].
      destruct (onboardTimeOffset s =? 0); cbn; auto.
Qed.

Lemma getUnixReferenceTime_keeps_offset_witness :
  referenceRun [(9000, 2500000); (9100, 1000)] (mkTime false 0 6993 2000000)
  = mkTime false 0 6993 2000000.
Proof.
  apply (getUnixReferenceTime_keeps_offset [(9000, 2500000); (9100, 1000)]
           (mkTime false 0 6993 2000000)).
  cbn. lia.
Defined.

(** ** Link supervision *)

(** X4: the link flag after a check is decided by the time since the last
    heartbeat alone, except at exactly the timeout, where it is kept; the
    position lock is always cleared, the time of the last heartbeat is
    never written, and the mode is forgotten exactly when the link goes
    from present to lost. *)
Theorem updateState_flag {F : Type} (timeout uid now : Z) (s : LinkState) :
  let r := fst (updateState (F := F) timeout uid now s) in
  let i := wrap64 (now - lastHeartbeat s) in
  connectionLost r
    = (if i >? timeout then true
       else if i <? timeout then false
       else connectionLost s)
  /\ positionLock r = false
  /\ lastHeartbeat r = lastHeartbeat s
  /\ receivedMode r
     = (if negb (connectionLost s) && (i >? timeout) then false
        else receivedMode s).
Proof.
  destruct s as [hb lost losstime mode lock].
  unfold updateState. cbn [lastHeartbeat connectionLost connectionLossTime
    receivedMode positionLock].
  rewrite !Z.gtb_ltb.
  destruct lost;
    destruct (Z.ltb_spec timeout (wrap64 (now - hb))) as [Hgt | Hle];
    destruct (Z.ltb_spec (wrap64 (now - hb)) timeout) as [Hlt | Hge];
    try lia; destruct lock; cbn; auto.
Qed.

(** Opening the pairs bound by the handlers. *)
Ltac open_pairs :=
  repeat match goal with
  | |- context [let '(_, _) := ?x in _] => destruct x
  end.

Ltac open_pairs_in H :=
  repeat match type of H with
  | context [let '(_, _) := ?x in _] => destruct x
  end.

Section HeartbeatProperties.
Context {F Rest : Type} `{CFloat F} `{Libm F} `{Collaborators F Rest}.

Lemma handleHeartbeat_link (message : mavlink_message_t F) (clk : clock)
    (s : UAS F Rest) :
  link (fst (handleHeartbeat message clk s))
  = heartbeatSeen (groundTimeUsecs clk) (link s).
Proof.
  unfold handleHeartbeat, heartbeatSeen.
  change (getUnixTime (groundTimeMilliseconds clk) 0 ?t)
    with (groundTimeMilliseconds clk, t).
  cbv zeta. open_pairs. destruct s. reflexivity.
Qed.

(** X5: the heartbeat handler writes the link members as [heartbeatSeen]
    does (the clock reading as the time of the last heartbeat, the mode
    as received, the link flag untouched); so a check that follows a
    heartbeat by less than the timeout always leaves the link present,
    and it signals the regain, once, exactly when the link was lost
    before. *)
Theorem heartbeat_then_check (message : mavlink_message_t F) (clk : clock)
    (s : UAS F Rest) (timeout uid now' : Z) :
  0 <= groundTimeUsecs clk <= now' ->
  now' < 2 ^ 64 ->
  now' - groundTimeUsecs clk < timeout ->
  let l := link (fst (handleHeartbeat message clk s)) in
  l = heartbeatSeen (groundTimeUsecs clk) (link s)
  /\ connectionLost (fst (updateState (F := F) timeout uid now' l)) = false
  /\ snd (updateState (F := F) timeout uid now' l)
     = (if connectionLost (link s)
        then [say (LinkRegained uid); heartbeatTimeout false 0]
        else []).
Proof.
  intros Hnow Hbound Hwithin l. unfold l. rewrite handleHeartbeat_link.
  split; [reflexivity|].
  unfold updateState, heartbeatSeen.
  cbn [lastHeartbeat connectionLost connectionLossTime receivedMode positionLock].
  rewrite (wrap64_small (now' - groundTimeUsecs clk)) by lia.
  assert (Hgt : (now' - groundTimeUsecs clk >? timeout) = false)
    by (rewrite Z.gtb_ltb; apply Z.ltb_ge; lia).
  assert (Hlt : (now' - groundTimeUsecs clk <? timeout) = true)
    by (apply Z.ltb_lt; lia).
  rewrite Hgt, Hlt.
  destruct (connectionLost (link s)); destruct (positionLock (link s));
    cbn; auto.
Qed.

End HeartbeatProperties.

Lemma heartbeat_then_check_witness :
  connectionLost
    (fst (updateState (F := spec_float) 3500000 1 3000000
            (link (fst (handleHeartbeat
                          (blankMessage 1 1 MAVLINK_MSG_ID_HEARTBEAT)
                          (mkClock 1000000 1000) freshVehicle))))) = false.
Proof.
  apply (heartbeat_then_check
           (blankMessage 1 1 MAVLINK_MSG_ID_HEARTBEAT) (mkClock 1000000 1000)
           freshVehicle 3500000 1 3000000); cbn; lia.
Defined.

(** ** Battery supervision *)

Section BatteryLatch.
Context {F : Type} `{CFloat F}.

Lemma batteryUpdate_frame (uid now : Z) (st : mavlink_sys_status_t)
    (b : BatteryState F) :
  tickVoltage (fst (batteryUpdate uid now st b)) = tickVoltage b
  /\ warnLevelPercent (fst (batteryUpdate uid now st b)) = warnLevelPercent b
  /\ lowBattAlarm (fst (batteryUpdate uid now st b)) = lowBattAlarm b
  /\ countSignals isLowBatteryPercentSay (snd (batteryUpdate uid now st b)) = O.
Proof.
  unfold batteryUpdate.
  destruct (Fgt (F_of_Z (voltage_battery st)) (Flit 0 1)
            && negb (voltage_battery st =? UINT16_MAX)); [|cbn; auto].
  destruct (tickAlertDue now (batterySample (voltage_battery st) b));
    cbn; auto.
Qed.

(** One SYS_STATUS message. *)
Lemma handleSysStatus_step (uid sysid now time : Z) (st : mavlink_sys_status_t)
    (b : BatteryState F) :
  let r := handleSysStatus uid sysid now time st b in
  tickVoltage (fst r) = tickVoltage b
  /\ warnLevelPercent (fst r) = warnLevelPercent b
  /\ lowBattAlarm (fst r)
     = Fge (chargeLevel (fst r)) (F_of_Z 0)
       && Flt (chargeLevel (fst r)) (warnLevelPercent (fst r))
  /\ countSignals isLowBatteryPercentSay (snd r)
     = (if negb (lowBattAlarm b) && lowBattAlarm (fst r) then 1 else 0)%nat.
Proof.
  cbv zeta. unfold handleSysStatus.
  destruct (batteryUpdate_frame uid now st b) as (Htick & Hwarn & Halarm & Hcount).
  destruct (batteryUpdate uid now st b) as [b1 e2].
  cbn [fst snd] in Htick, Hwarn, Halarm, Hcount.
  destruct (negb (current_battery st =? -1));
    cbn [chargeLevel warnLevelPercent lowBattAlarm tickVoltage];
    (destruct (Fge (chargeLevel b1) (F_of_Z 0)
               && Flt (chargeLevel b1) (warnLevelPercent b1)) eqn:Hlow;
     unfold startLowBattAlarm, stopLowBattAlarm;
     cbn [lowBattAlarm]; rewrite Halarm;
     destruct (lowBattAlarm b);
     cbn [negb fst snd chargeLevel warnLevelPercent lowBattAlarm tickVoltage andb];
     rewrite ?Hlow; rewrite !countSignals_app, Hcount; cbn;
     rewrite ?Halarm; auto).
Qed.

(** X6: over any sequence of SYS_STATUS messages the warning thresholds
    (tick voltage and warn level) are never written; after each message
    the low-battery flag says whether the charge level is known and below
    the warn level; and "low battery" is announced exactly once for each
    message at which the flag goes from clear to set, not again while it
    stays set. *)
Theorem low_battery_latch (uid sysid : Z)
    (msgs : list (Z * Z * mavlink_sys_status_t)) :
  forall b : BatteryState F,
    let final := fst (sysStatusRun uid sysid msgs b) in
    tickVoltage final = tickVoltage b
    /\ warnLevelPercent final = warnLevelPercent b
    /\ (msgs <> [] ->
        lowBattAlarm final
        = Fge (chargeLevel final) (F_of_Z 0)
          && Flt (chargeLevel final) (warnLevelPercent final))
    /\ countSignals isLowBatteryPercentSay (snd (sysStatusRun uid sysid msgs b))
       = alarmOnsets uid sysid msgs b.
Proof.
  induction msgs as [|[[now time] st] rest IH]; intros b.
  - cbn. repeat split; try reflexivity. intros Hne. contradiction.
  - cbn [sysStatusRun alarmOnsets].
    destruct (handleSysStatus_step uid sysid now time st b)
      as (Htick & Hwarn & Hflag & Hcount).
    cbv zeta in Htick, Hwarn, Hflag, Hcount.
    destruct (handleSysStatus uid sysid now time st b) as [b1 e1].
    cbn [fst snd] in Htick, Hwarn, Hflag, Hcount |- *.
    specialize (IH b1). cbv zeta in IH.
    destruct (sysStatusRun uid sysid rest b1) as [b2 e2] eqn:Hrun.
    cbn [fst snd] in IH |- *.
    destruct IH as (IHtick & IHwarn & IHflag & IHcount).
    split; [rewrite IHtick; exact Htick|].
    split; [rewrite IHwarn; exact Hwarn|].
    split; [|rewrite countSignals_app, Hcount, IHcount; reflexivity].
    intros _. destruct rest as [|m rest'].
    + cbn in Hrun. injection Hrun as <- <-. exact Hflag.
    + apply IHflag. discriminate.
Qed.

End BatteryLatch.

Lemma low_battery_latch_witness :
  lowBattAlarm (fst (sysStatusRun 1 1 [(0, 0, statusWithCharge 10)]
                       (initialBattery (F := spec_float)))) = true.
Proof.
  destruct (low_battery_latch 1 1 [(0, 0, statusWithCharge 10)]
              (initialBattery (F := spec_float))) as (_ & _ & Hflag & _).
  rewrite Hflag by discriminate. vm_compute. reflexivity.
Defined.

(** ** Message dispatcher *)

Section DispatcherFrame.
Context {F Rest : Type} `{CFloat F} `{Libm F} `{Collaborators F Rest}.

Lemma sameIdentity_refl (s : UAS F Rest) : sameIdentity s s.
Proof. unfold sameIdentity. repeat split; reflexivity. Qed.

Ltac frame_handler s :=
  cbv zeta; open_pairs; destruct s; unfold sameIdentity; cbn;
  repeat split; reflexivity.

Lemma handleHeartbeat_frame (message : mavlink_message_t F) (clk : clock)
    (s : UAS F Rest) :
  sameIdentity s (fst (handleHeartbeat message clk s))
  /\ unknownPackets (fst (handleHeartbeat message clk s)) = unknownPackets s.
Proof. unfold handleHeartbeat. frame_handler s. Qed.

Lemma handleAttitudeTarget_frame (message : mavlink_message_t F) (clk : clock)
    (s : UAS F Rest) :
  sameIdentity s (fst (handleAttitudeTarget message clk s))
  /\ unknownPackets (fst (handleAttitudeTarget message clk s)) = unknownPackets s.
Proof. unfold handleAttitudeTarget. frame_handler s. Qed.

Lemma handleCommandAck_frame (message : mavlink_message_t F) (clk : clock)
    (s : UAS F Rest) :
  sameIdentity s (fst (handleCommandAck message clk s))
  /\ unknownPackets (fst (handleCommandAck message clk s)) = unknownPackets s.
Proof.
  unfold handleCommandAck.
  pose proof (handleAttitudeTarget_frame message clk s) as Hframe.
  destruct (handleAttitudeTarget message clk s). exact Hframe.
Qed.

Lemma handlePositionTarget_frame (message : mavlink_message_t F) (clk : clock)
    (s : UAS F Rest) :
  sameIdentity s (fst (handlePositionTarget message clk s))
  /\ unknownPackets (fst (handlePositionTarget message clk s)) = unknownPackets s.
Proof. unfold handlePositionTarget. frame_handler s. Qed.

(** The cases modelled here leave the system id, the registry, the
    ownership records, the conflict flags and the members outside the
    model alone, and write the list of unknown types only in the default
    case. *)
Lemma dispatch_frame (message : mavlink_message_t F) (clk : clock)
    (wrong detected : bool) (s : UAS F Rest) :
  memZ (msgid message) otherIds = false ->
  sameIdentity s (fst (dispatch message clk wrong detected s))
  /\ unknownPackets (fst (dispatch message clk wrong detected s))
     = (if memZ (msgid message) caseIds || memZ (msgid message) (unknownPackets s)
        then unknownPackets s
        else unknownPackets s ++ [msgid message]).
Proof.
  intros Hother.
  assert (Hcase : forall k, msgid message = k -> memZ k caseIds = true ->
                  memZ (msgid message) caseIds = true)
    by (intros k -> Hk; exact Hk).
  unfold dispatch. rewrite Hother.
  repeat match goal with
  | |- context [if msgid message =? ?k then _ else _] =>
      let Hk := fresh "Hk" in
      destruct (msgid message =? k) eqn:Hk;
      [apply Z.eqb_eq in Hk; rewrite (Hcase k Hk eq_refl); cbn [orb]|]
  end.
  - destruct (detected && wrong); [split; [apply sameIdentity_refl | reflexivity]|].
    apply handleHeartbeat_frame.
  - destruct (detected && wrong); split; (apply sameIdentity_refl || reflexivity).
  - destruct (detected && wrong); [split; [apply sameIdentity_refl | reflexivity]|].
    frame_handler s.
  - unfold handleAttitude. frame_handler s.
  - unfold handleAttitudeQuaternion. frame_handler s.
  - apply handleCommandAck_frame.
  - apply handleAttitudeTarget_frame.
  - destruct (detected && wrong); [split; [apply sameIdentity_refl | reflexivity]|].
    apply handlePositionTarget_frame.
  - destruct s; unfold sameIdentity; cbn; repeat split; reflexivity.
  - frame_handler s.
  - destruct (memZ (msgid message) ignoredIds) eqn:Hign.
    + assert (Hc : memZ (msgid message) caseIds = true).
      { unfold caseIds, memZ in *. rewrite !existsb_app, Hign.
        rewrite !orb_true_r. reflexivity. }
      rewrite Hc. split; [apply sameIdentity_refl | reflexivity].
    + assert (Hc : memZ (msgid message) caseIds = false).
      { unfold caseIds, memZ in *. rewrite !existsb_app, Hign, Hother.
        cbn [existsb]. rewrite Hk, Hk0, Hk1, Hk2, Hk3, Hk4, Hk5, Hk6, Hk7, Hk8.
        reflexivity. }
      rewrite Hc. cbn [orb].
      destruct (memZ (msgid message) (unknownPackets s));
        [split; [apply sameIdentity_refl | reflexivity]|].
      destruct s; unfold sameIdentity; cbn; repeat split; reflexivity.
Qed.

End DispatcherFrame.

Section OwnershipProperties.
Context {F Rest : Type} `{CFloat F} `{Libm F} `{Collaborators F Rest}.

(** What the ownership step decides, in closed form. *)
Lemma resolveOwnership_spec (message : mavlink_message_t F) (s : UAS F Rest) :
  let owner := ownerOf s (msgid message) in
  let wrong := negb (owner =? -1)
               && negb (compid message =? MAV_COMP_ID_IMU_2)
               && negb (owner =? compid message) in
  exists ids multi,
    resolveOwnership message s = (withOwnership ids multi s, wrong, default false (multi !! msgid message))
    /\ default (-1) (ids !! msgid message)
       = (if (owner =? -1) || (compid message =? MAV_COMP_ID_IMU_2)
          then compid message else owner)
    /\ (forall id, id <> msgid message -> ids !! id = componentID s !! id)
    /\ (forall id, default false (multi !! id)
                   = multiOf s id || ((id =? msgid message) && wrong)).
Proof.
  cbv zeta. unfold resolveOwnership, ownerOf, multiOf.
  destruct (compid message =? MAV_COMP_ID_IMU_2) eqn:Himu.
  - apply Z.eqb_eq in Himu. rewrite !Himu, lookup_insert_eq.
    change (default (-1) (Some MAV_COMP_ID_IMU_2)) with MAV_COMP_ID_IMU_2.
    change (MAV_COMP_ID_IMU_2 =? -1) with false.
    rewrite !Z.eqb_refl. cbn [negb].
    rewrite andb_false_r, orb_true_r. cbn [andb].
    eexists _, _. split; [reflexivity|].
    rewrite lookup_insert_eq. split; [reflexivity|]. split.
    + intros id Hid. rewrite lookup_insert_ne by congruence. reflexivity.
    + intros id. rewrite andb_false_r, orb_false_r. reflexivity.
  - destruct (default (-1) (componentID s !! msgid message) =? -1) eqn:Hfree.
    + cbn [negb andb orb]. eexists _, _. split; [reflexivity|].
      rewrite lookup_insert_eq. cbn [default]. split; [reflexivity|]. split.
      * intros id Hid. rewrite lookup_insert_ne by congruence. reflexivity.
      * intros id. rewrite andb_false_r, orb_false_r. reflexivity.
    + cbn [negb andb orb].
      destruct (default (-1) (componentID s !! msgid message) =? compid message)
        eqn:Hsame; cbn [negb].
      * eexists _, _. split; [reflexivity|]. split; [reflexivity|]. split.
        -- intros id Hid. reflexivity.
        -- intros id. rewrite andb_false_r, orb_false_r. reflexivity.
      * eexists _, _. split; [reflexivity|]. split; [reflexivity|]. split.
        -- intros id Hid. reflexivity.
        -- intros id. rewrite andb_true_r.
           destruct (Z.eqb_spec id (msgid message)) as [-> | Hne].
           ++ rewrite lookup_insert_eq, orb_true_r. reflexivity.
           ++ rewrite lookup_insert_ne, orb_false_r by congruence. reflexivity.
Qed.

(** The types in [otherIds] reach the case bodies taken as a parameter. *)
Lemma dispatch_other (message : mavlink_message_t F) (clk : clock)
    (wrong detected : bool) (s : UAS F Rest) :
  memZ (msgid message) otherIds = true ->
  dispatch message clk wrong detected s
  = handleOther (msgid message) wrong message clk s.
Proof.
  unfold memZ, otherIds. cbn [existsb]. rewrite orb_false_r. intros Hid.
  repeat match type of Hid with
  | _ || _ = true => apply orb_true_iff in Hid as [Hid | Hid]
  end; apply Z.eqb_eq in Hid; unfold dispatch; rewrite Hid; reflexivity.
Qed.

(** The switch leaves the system id, the registry, the ownership records
    and the conflict flags as they are, given that the case body taken as
    a parameter does so when the message reaches it. *)
Lemma dispatch_identity (message : mavlink_message_t F) (clk : clock)
    (wrong detected : bool) (s : UAS F Rest) :
  (memZ (msgid message) otherIds = true -> otherCaseKeepsIdentity message clk) ->
  let s' := fst (dispatch message clk wrong detected s) in
  uasId s' = uasId s
  /\ components s' = components s
  /\ componentID s' = componentID s
  /\ componentMulti s' = componentMulti s.
Proof.
  intros Hkeeps. cbv zeta.
  destruct (memZ (msgid message) otherIds) eqn:Hother.
  - rewrite dispatch_other by exact Hother. apply (Hkeeps eq_refl).
  - destruct (dispatch_frame message clk wrong detected s Hother)
      as [(Hu & Hc & Hi & Hm & _) _].
    repeat split; assumption.
Qed.

(** The state a processed message leaves has the registry of the
    registration step and the ownership records of the ownership step. *)
Lemma receiveMessage_identity (message : mavlink_message_t F) (clk : clock)
    (s : UAS F Rest) :
  (memZ (msgid message) otherIds = true -> otherCaseKeepsIdentity message clk) ->
  accepted message s = true ->
  let s2 := fst (fst (resolveOwnership message (registerComponent message s))) in
  let s' := fst (receiveMessage message clk s) in
  uasId s' = uasId s2
  /\ components s' = components s2
  /\ componentID s' = componentID s2
  /\ componentMulti s' = componentMulti s2.
Proof.
  intros Hkeeps Hacc. cbv zeta. unfold receiveMessage.
  rewrite accepted_registerComponent, Hacc.
  destruct (resolveOwnership message (registerComponent message s))
    as [[s2 wrong] detected].
  apply dispatch_identity. exact Hkeeps.
Qed.

(** X7: a processed message makes its sender the owner of its type when
    the type had no owner or the sender is the second IMU, and keeps the
    owner otherwise; the owners of all other types stay.  A conflict flag
    is raised for the type exactly when an owner was set, the sender is
    another component and not the second IMU; no flag is ever cleared.
    This holds for the ten types whose cases are embedded here, for the
    ignored types and for the types without a case; for the fourteen
    types whose case bodies are a parameter it holds provided the body
    leaves the ownership records alone. *)
Theorem ownership_after_message (message : mavlink_message_t F) (clk : clock)
    (s : UAS F Rest) :
  (memZ (msgid message) otherIds = true -> otherCaseKeepsIdentity message clk) ->
  accepted message s = true ->
  let s' := fst (receiveMessage message clk s) in
  let owner := ownerOf s (msgid message) in
  ownerOf s' (msgid message)
  = (if (owner =? -1) || (compid message =? MAV_COMP_ID_IMU_2)
     then compid message else owner)
  /\ (forall id, id <> msgid message -> ownerOf s' id = ownerOf s id)
  /\ (forall id, multiOf s' id
                 = multiOf s id
                   || ((id =? msgid message)
                       && negb (owner =? -1)
                       && negb (compid message =? MAV_COMP_ID_IMU_2)
                       && negb (owner =? compid message))).
Proof.
  intros Hkeeps Hacc. cbv zeta.
  pose proof (receiveMessage_identity message clk s Hkeeps Hacc)
    as (_ & _ & Hids & Hmulti). cbv zeta in Hids, Hmulti.
  destruct (resolveOwnership_spec message (registerComponent message s))
    as (ids & multi & Hres & Howner & Hrest & Hflag).
  rewrite Hres in Hids, Hmulti. cbn [fst] in Hids, Hmulti.
  assert (Hreg : componentID (registerComponent message s) = componentID s
                 /\ componentMulti (registerComponent message s) = componentMulti s)
    by (rewrite registerComponent_frame; split; reflexivity).
  destruct Hreg as [Hreg1 Hreg2].
  unfold ownerOf, multiOf in *. rewrite Hids, Hmulti.
  unfold withOwnership. cbn [componentID componentMulti].
  rewrite Hreg1 in Howner, Hrest, Hflag. rewrite Hreg2 in Hflag.
  split; [exact Howner|]. split.
  - intros id Hid. rewrite Hrest by exact Hid. reflexivity.
  - intros id. rewrite Hflag. rewrite !andb_assoc. reflexivity.
Qed.

(** X8: whatever a message does, afterwards its sender's component is in
    the registry, every component registered before is there under its old
    name, no other entry was added, and the system id is the old one.
    This holds for every message that is not accepted, and for every
    accepted message of the ten types whose cases are embedded here, of
    the ignored types and of the types without a case; for an accepted
    message of the fourteen types whose case bodies are a parameter it
    holds provided the body leaves the registry and the system id alone.
    For all but those fourteen types the members outside the model stay
    too. *)
Theorem registry_after_message (message : mavlink_message_t F) (clk : clock)
    (s : UAS F Rest) :
  (accepted message s = true -> memZ (msgid message) otherIds = true ->
   otherCaseKeepsIdentity message clk) ->
  let s' := fst (receiveMessage message clk s) in
  is_Some (components s' !! compid message)
  /\ (forall c name, components s !! c = Some name ->
                     components s' !! c = Some name)
  /\ (forall c, c <> compid message -> components s' !! c = components s !! c)
  /\ uasId s' = uasId s
  /\ (memZ (msgid message) otherIds = false -> rest s' = rest s).
Proof.
  intros Hkeeps. cbv zeta.
  assert (Hcomp : components (fst (receiveMessage message clk s))
                  = components (registerComponent message s)
                  /\ uasId (fst (receiveMessage message clk s)) = uasId s
                  /\ (memZ (msgid message) otherIds = false ->
                      rest (fst (receiveMessage message clk s)) = rest s)).
  { destruct (accepted message s) eqn:Hacc.
    - pose proof (receiveMessage_identity message clk s (Hkeeps eq_refl) Hacc)
        as (Hu & Hc & _ & _). cbv zeta in Hu, Hc.
      destruct (resolveOwnership_spec message (registerComponent message s))
        as (ids & multi & Hres & _).
      rewrite Hres in Hu, Hc. cbn [fst] in Hu, Hc.
      rewrite Hu, Hc. rewrite (registerComponent_frame message s).
      split; [reflexivity|]. split; [reflexivity|].
      intros Hother. unfold receiveMessage.
      rewrite accepted_registerComponent, Hacc, Hres.
      destruct (dispatch_frame message clk
                  (negb (ownerOf (registerComponent message s) (msgid message) =? -1)
                   && negb (compid message =? MAV_COMP_ID_IMU_2)
                   && negb (ownerOf (registerComponent message s) (msgid message)
                            =? compid message))
                  (default false (multi !! msgid message))
                  (withOwnership ids multi (registerComponent message s)) Hother)
        as [(_ & _ & _ & _ & Hr) _].
      rewrite Hr. rewrite (registerComponent_frame message s). reflexivity.
    - unfold receiveMessage. rewrite accepted_registerComponent, Hacc.
      cbn [fst]. rewrite (registerComponent_frame message s).
      repeat split; reflexivity. }
  destruct Hcomp as (-> & -> & Hrest).
  unfold registerComponent.
  destruct (components s !! compid message) as [name0|] eqn:Hlook.
  - split; [rewrite Hlook; eauto|]. repeat split; auto.
  - unfold withComponents. cbn [components].
    split; [rewrite lookup_insert_eq; eauto|].
    split; [|split; [|split; [reflexivity | exact Hrest]]].
    + intros c name Hc. rewrite lookup_insert_ne by congruence. exact Hc.
    + intros c Hc. rewrite lookup_insert_ne by congruence. reflexivity.
Qed.

End OwnershipProperties.

Lemma ownership_after_message_witness :
  ownerOf (fst (receiveMessage
                  (blankMessage 1 50 MAVLINK_MSG_ID_LOCAL_POSITION_NED)
                  (mkClock 0 0) freshVehicle))
          MAVLINK_MSG_ID_LOCAL_POSITION_NED = 50
  /\ ownerOf (fst (receiveMessage (blankMessage 1 50 MAVLINK_MSG_ID_HEARTBEAT)
                     (mkClock 0 0) freshVehicle)) MAVLINK_MSG_ID_HEARTBEAT = 50.
Proof.
  split.
  - destruct (ownership_after_message
                (blankMessage 1 50 MAVLINK_MSG_ID_LOCAL_POSITION_NED)
                (mkClock 0 0) freshVehicle) as [Howner _].
    + intros _ wrong s. cbn. repeat split; reflexivity.
    + reflexivity.
    + exact Howner.
  - destruct (ownership_after_message
                (blankMessage 1 50 MAVLINK_MSG_ID_HEARTBEAT)
                (mkClock 0 0) freshVehicle) as [Howner _].
    + intros Hother. vm_compute in Hother. discriminate.
    + reflexivity.
    + exact Howner.
Defined.

Lemma registry_after_message_witness :
  is_Some (components (fst (receiveMessage
                              (blankMessage 1 50 MAVLINK_MSG_ID_LOCAL_POSITION_NED)
                              (mkClock 0 0) freshVehicle)) !! 50)
  /\ is_Some (components (fst (receiveMessage
                                 (blankMessage 2 50 MAVLINK_MSG_ID_LOCAL_POSITION_NED)
                                 (mkClock 0 0) freshVehicle)) !! 50).
Proof.
  split.
  - destruct (registry_after_message
                (blankMessage 1 50 MAVLINK_MSG_ID_LOCAL_POSITION_NED)
                (mkClock 0 0) freshVehicle) as [Hreg _].
    + intros _ _ wrong s. cbn. repeat split; reflexivity.
    + exact Hreg.
  - destruct (registry_after_message
                (blankMessage 2 50 MAVLINK_MSG_ID_LOCAL_POSITION_NED)
                (mkClock 0 0) freshVehicle) as [Hreg _].
    + intros Hacc. vm_compute in Hacc. discriminate.
    + exact Hreg.
Defined.

Section UnknownTypes.
Context {F Rest : Type} `{CFloat F} `{Libm F} `{Collaborators F Rest}.

Lemma default_of_Some {A : Type} (d x : A) : default d (Some x) = x.
Proof. reflexivity. Qed.

Lemma memZ_app (x : Z) (l1 l2 : list Z) :
  memZ x (l1 ++ l2) = memZ x l1 || memZ x l2.
Proof. apply existsb_app. Qed.

Lemma memZ_In (x : Z) (l : list Z) : memZ x l = true <-> In x l.
Proof.
  unfold memZ. rewrite existsb_exists. split.
  - intros (y & Hin & Heq). apply Z.eqb_eq in Heq. subst. exact Hin.
  - intros Hin. exists x. split; [exact Hin | apply Z.eqb_refl].
Qed.

(** The default case of the switch. *)
Lemma dispatch_unknown (message : mavlink_message_t F) (clk : clock)
    (wrong detected : bool) (s : UAS F Rest) :
  memZ (msgid message) caseIds = false ->
  dispatch message clk wrong detected s
  = (if memZ (msgid message) (unknownPackets s) then s
     else withUnknownPackets (unknownPackets s ++ [msgid message]) s, []).
Proof.
  unfold caseIds. rewrite !memZ_app. intros Hcase.
  apply orb_false_iff in Hcase as [Hlabels Hcase].
  apply orb_false_iff in Hcase as [Hother Hign].
  unfold memZ in Hlabels. cbn [existsb] in Hlabels.
  repeat match type of Hlabels with
  | _ || _ = false => apply orb_false_iff in Hlabels as [?Hk Hlabels]
  end.
  unfold dispatch.
  repeat match goal with
  | Hk : (msgid message =? _) = false |- _ => rewrite Hk; clear Hk
  end.
  rewrite Hother, Hign.
  destruct (memZ (msgid message) (unknownPackets s)); reflexivity.
Qed.

Lemma resolveOwnership_idempotent (message : mavlink_message_t F)
    (s : UAS F Rest) :
  let s1 := fst (fst (resolveOwnership message s)) in
  fst (fst (resolveOwnership message s1)) = s1.
Proof.
  cbv zeta. unfold resolveOwnership.
  destruct (compid message =? MAV_COMP_ID_IMU_2) eqn:Himu.
  - apply Z.eqb_eq in Himu. rewrite !Himu, !lookup_insert_eq.
    change (default (-1) (Some MAV_COMP_ID_IMU_2)) with MAV_COMP_ID_IMU_2.
    change (MAV_COMP_ID_IMU_2 =? -1) with false.
    rewrite !Z.eqb_refl. cbn [negb fst].
    unfold withOwnership.
    cbn [uasId components componentID componentMulti unknownPackets timeS
         link mode battery attitude image rest].
    rewrite insert_insert_eq. reflexivity.
  - destruct (default (-1) (componentID s !! msgid message) =? -1) eqn:Hfree.
    + cbn [fst]. unfold withOwnership.
      cbn [uasId components componentID componentMulti unknownPackets timeS
           link mode battery attitude image rest].
      rewrite lookup_insert_eq, default_of_Some.
      destruct (compid message =? -1) eqn:Hminus.
      * cbn [fst]. rewrite insert_insert_eq. reflexivity.
      * rewrite Z.eqb_refl. cbn [negb fst]. reflexivity.
    + destruct (default (-1) (componentID s !! msgid message) =? compid message)
        eqn:Hsame; cbn [negb fst]; unfold withOwnership;
        cbn [uasId components componentID componentMulti unknownPackets timeS
             link mode battery attitude image rest];
        rewrite Hfree, Hsame; cbn [negb fst].
      * reflexivity.
      * rewrite insert_insert_eq. reflexivity.
Qed.

(** X9: a processed message whose type has no case in the switch emits
    nothing and leaves its type in the list of unknown types; a list
    without repetitions stays so; and delivering the same message again
    changes nothing at all. *)
Theorem unknown_type_recorded_once (message : mavlink_message_t F)
    (clk clk' : clock) (s : UAS F Rest) :
  memZ (msgid message) caseIds = false ->
  accepted message s = true ->
  NoDup (unknownPackets s) ->
  let s' := fst (receiveMessage message clk s) in
  snd (receiveMessage message clk s) = []
  /\ In (msgid message) (unknownPackets s')
  /\ NoDup (unknownPackets s')
  /\ receiveMessage message clk' s' = (s', []).
Proof.
  intros Hcase Hacc Hnodup. cbv zeta.
  assert (Hreg : registerComponent message (registerComponent message s)
                 = registerComponent message s).
  { unfold registerComponent at 2 3.
    destruct (components s !! compid message) eqn:Hlook.
    - unfold registerComponent. rewrite Hlook. reflexivity.
    - unfold registerComponent, withComponents. cbn [components].
      rewrite lookup_insert_eq. reflexivity. }
  pose proof (resolveOwnership_idempotent message (registerComponent message s))
    as Hidem. cbv zeta in Hidem.
  set (s2 := fst (fst (resolveOwnership message (registerComponent message s))))
    in Hidem.
  assert (Hs2 : s2 = withOwnership (componentID s2) (componentMulti s2)
                       (registerComponent message s)).
  { subst s2. unfold resolveOwnership. open_pairs. reflexivity. }
  assert (Hrun : receiveMessage message clk s
                 = (if memZ (msgid message) (unknownPackets s2) then s2
                    else withUnknownPackets
                           (unknownPackets s2 ++ [msgid message]) s2, [])).
  { unfold receiveMessage. rewrite accepted_registerComponent, Hacc.
    subst s2.
    destruct (resolveOwnership message (registerComponent message s))
      as [[s2 wrong] detected].
    apply dispatch_unknown. exact Hcase. }
  rewrite Hrun. cbn [fst snd]. clearbody s2.
  assert (Hunk : unknownPackets s2 = unknownPackets s).
  { rewrite Hs2. rewrite (registerComponent_frame message s). reflexivity. }
  split; [reflexivity|].
  set (s3 := if memZ (msgid message) (unknownPackets s2) then s2
             else withUnknownPackets (unknownPackets s2 ++ [msgid message]) s2).
  assert (Hmem : memZ (msgid message) (unknownPackets s3) = true).
  { subst s3. destruct (memZ (msgid message) (unknownPackets s2)) eqn:Hm.
    - exact Hm.
    - unfold withUnknownPackets. cbn [unknownPackets].
      rewrite memZ_app. unfold memZ at 2. cbn [existsb].
      rewrite Z.eqb_refl, orb_true_r. reflexivity. }
  split; [apply memZ_In; exact Hmem|]. split.
  - subst s3. destruct (memZ (msgid message) (unknownPackets s2)) eqn:Hm.
    + rewrite Hunk. exact Hnodup.
    + unfold withUnknownPackets. cbn [unknownPackets]. rewrite Hunk in *.
      apply NoDup_app. split; [exact Hnodup|]. split.
      * intros x Hx Hx'. apply list_elem_of_singleton in Hx'. subst x.
        apply list_elem_of_In, memZ_In in Hx. congruence.
      * apply NoDup_singleton.
  - assert (Hshape : exists u, s3 = withUnknownPackets u s2).
    { subst s3. destruct (memZ (msgid message) (unknownPackets s2)).
      - exists (unknownPackets s2). destruct s2. reflexivity.
      - eexists. reflexivity. }
    destruct Hshape as [u Hshape].
    assert (Hreg3 : registerComponent message s3 = s3).
    { rewrite Hshape. rewrite Hs2. rewrite <- Hreg at 2.
      generalize (registerComponent message s) as r. intros r.
      unfold registerComponent, withUnknownPackets, withOwnership.
      cbn [components].
      destruct (components r !! compid message); [reflexivity|].
      destruct r. reflexivity. }
    unfold receiveMessage. rewrite Hreg3.
    assert (Hacc3 : accepted message s3 = true).
    { rewrite Hshape, Hs2, (registerComponent_frame message s). exact Hacc. }
    rewrite Hacc3.
    assert (Hres3 : fst (fst (resolveOwnership message s3)) = s3).
    { rewrite Hshape. rewrite <- Hidem at 2.
      unfold resolveOwnership, withUnknownPackets, withOwnership.
      cbn [componentID componentMulti]. open_pairs. destruct s2. reflexivity. }
    destruct (resolveOwnership message s3) as [[s4 wrong'] detected'].
    cbn [fst] in Hres3. subst s4.
    rewrite dispatch_unknown by exact Hcase. rewrite Hmem. reflexivity.
Qed.

End UnknownTypes.

Lemma unknown_type_recorded_once_witness :
  In 5 (unknownPackets (fst (receiveMessage (blankMessage 1 50 5)
                                 (mkClock 0 0) freshVehicle))).
Proof.
  destruct (unknown_type_recorded_once (blankMessage 1 50 5) (mkClock 0 0)
              (mkClock 0 0) freshVehicle eq_refl eq_refl (NoDup_nil_2 (A := Z)))
    as (_ & Hin & _).
  exact Hin.
Defined.

Section AttitudeProperties.
Context {F Rest : Type} `{CFloat F} `{Libm F} `{Collaborators F Rest}.

Lemma attitudeUpdate_wrong (comp : Z) (phi theta psi : F) (rates : F * F * F)
    (time : Z) (ts : TimeState) (a : AttitudeState F) :
  attitudeUpdate comp true phi theta psi rates time ts a
  = (ts, a, [attitudeChangedComp comp (limitAngleToPMPIf phi)
               (limitAngleToPMPIf theta) (limitAngleToPMPIf psi) time]).
Proof. reflexivity. Qed.

Lemma getUnixReferenceTime_lastAttitude (g t : Z) (ts : TimeState) :
  lastAttitude (snd (getUnixReferenceTime g t ts)) = lastAttitude ts
  /\ attitudeStamped (snd (getUnixReferenceTime g t ts)) = attitudeStamped ts.
Proof.
  unfold getUnixReferenceTime.
  repeat match goal with
  | |- context [if ?c then _ else _] => destruct c
  end; cbn; auto.
Qed.

(** X10: an attitude message (Euler or quaternion) that comes from a
    component other than the owner of its type, the second IMU apart,
    leaves the vehicle's attitude and the time of the last attitude as
    they are; it emits the one component-tagged attitude signal and raises
    the conflict flag of the type. *)
Theorem attitude_from_other_component (message : mavlink_message_t F)
    (clk : clock) (s : UAS F Rest) :
  msgid message = MAVLINK_MSG_ID_ATTITUDE
  \/ msgid message = MAVLINK_MSG_ID_ATTITUDE_QUATERNION ->
  accepted message s = true ->
  ownerOf s (msgid message) <> -1 ->
  ownerOf s (msgid message) <> compid message ->
  compid message <> MAV_COMP_ID_IMU_2 ->
  let s' := fst (receiveMessage message clk s) in
  attitude s' = attitude s
  /\ lastAttitude (timeS s') = lastAttitude (timeS s)
  /\ multiOf s' (msgid message) = true
  /\ exists phi theta psi time,
       snd (receiveMessage message clk s)
       = [attitudeChangedComp (compid message) phi theta psi time].
Proof.
  intros Hid Hacc Hset Hother Himu. cbv zeta.
  assert (Hown : ownerOf (registerComponent message s) (msgid message)
                 = ownerOf s (msgid message))
    by (rewrite registerComponent_frame; reflexivity).
  pose proof (resolveOwnership_established message (registerComponent message s)
                (ownerOf s (msgid message)) Hown Hset Himu) as Hres.
  replace (compid message =? ownerOf s (msgid message)) with false in Hres
    by (symmetry; apply Z.eqb_neq; congruence).
  unfold receiveMessage. rewrite accepted_registerComponent, Hacc, Hres.
  set (s2 := withOwnership _ _ _).
  assert (Hs2 : attitude s2 = attitude s /\ timeS s2 = timeS s
                /\ multiOf s2 (msgid message) = true).
  { subst s2. rewrite (registerComponent_frame message s).
    unfold multiOf, withOwnership, withComponents.
    cbn [attitude timeS componentMulti]. rewrite lookup_insert_eq.
    repeat split; reflexivity. }
  destruct Hs2 as (Hatt & Htime & Hmulti).
  destruct Hid as [Hid | Hid].
  - replace (dispatch message clk true true s2)
      with (let '(ts, a, e) :=
              handleAttitude (compid message) true (groundTimeMilliseconds clk)
                (mavlink_msg_attitude_decode message) (timeS s2) (attitude s2) in
            (withAttitude a (withTime ts s2), e))
      by (unfold dispatch; rewrite Hid; reflexivity).
    unfold handleAttitude.
    pose proof (getUnixReferenceTime_lastAttitude (groundTimeMilliseconds clk)
                  (att_time_boot_ms (mavlink_msg_attitude_decode message))
                  (timeS s2)) as [Hlast _].
    destruct (getUnixReferenceTime _ _ (timeS s2)) as [time ts0].
    rewrite attitudeUpdate_wrong. cbn [fst snd] in *.
    unfold withAttitude, withTime, multiOf in *.
    cbn [attitude timeS componentMulti].
    rewrite Hlast, Htime. repeat split; eauto.
  - replace (dispatch message clk true true s2)
      with (let '(ts, a, e) :=
              handleAttitudeQuaternion (compid message) true
                (groundTimeMilliseconds clk)
                (mavlink_msg_attitude_quaternion_decode message)
                (timeS s2) (attitude s2) in
            (withAttitude a (withTime ts s2), e))
      by (unfold dispatch; rewrite Hid; reflexivity).
    unfold handleAttitudeQuaternion.
    pose proof (getUnixReferenceTime_lastAttitude (groundTimeMilliseconds clk)
                  (aq_time_boot_ms (mavlink_msg_attitude_quaternion_decode message))
                  (timeS s2)) as [Hlast _].
    destruct (getUnixReferenceTime _ _ (timeS s2)) as [time ts0].
    destruct (quaternionToEuler _) as [[phi theta] psi].
    rewrite attitudeUpdate_wrong. cbn [fst snd] in *.
    unfold withAttitude, withTime, multiOf in *.
    cbn [attitude timeS componentMulti].
    rewrite Hlast, Htime. repeat split; eauto.
Qed.

(** X11: with attitude stamping on and no attitude seen yet, a message of
    the vehicle's own system that is not an ATTITUDE message only registers
    its sender; an ATTITUDE message for a type without owner is processed
    and stores the onboard time it carries, converted by
    [getUnixReferenceTime], as the time of the last attitude. *)
Theorem attitude_stamped_gate (message : mavlink_message_t F)
    (clk : clock) (s : UAS F Rest) :
  attitudeStamped (timeS s) = true ->
  lastAttitude (timeS s) = 0 ->
  sysid message = uasId s ->
  (msgid message <> MAVLINK_MSG_ID_ATTITUDE ->
   receiveMessage message clk s = (registerComponent message s, []))
  /\ (msgid message = MAVLINK_MSG_ID_ATTITUDE ->
      ownerOf s MAVLINK_MSG_ID_ATTITUDE = -1 ->
      let s' := fst (receiveMessage message clk s) in
      lastAttitude (timeS s')
      = fst (getUnixReferenceTime (groundTimeMilliseconds clk)
               (att_time_boot_ms (mavlink_msg_attitude_decode message))
               (timeS s))
      /\ attitudeStamped (timeS s') = true
      /\ attitudeKnown (attitude s') = true).
Proof.
  intros Hstamped Hlast Hsys. split.
  - intros Hid. unfold receiveMessage.
    rewrite accepted_registerComponent. unfold accepted.
    rewrite Hstamped, Hlast.
    replace (msgid message =? MAVLINK_MSG_ID_ATTITUDE) with false
      by (symmetry; apply Z.eqb_neq; exact Hid).
    rewrite andb_false_r. reflexivity.
  - intros Hid Hfree. cbv zeta.
    assert (Hacc : accepted message s = true).
    { unfold accepted. rewrite Hid, Hsys, !Z.eqb_refl, orb_true_r.
      reflexivity. }
    unfold receiveMessage. rewrite accepted_registerComponent, Hacc.
    destruct (resolveOwnership_spec message (registerComponent message s))
      as (ids & multi & Hres & _).
    rewrite Hres.
    assert (Hown : ownerOf (registerComponent message s) (msgid message) = -1)
      by (rewrite registerComponent_frame, Hid; exact Hfree).
    rewrite Hown. cbn [Z.eqb negb andb].
    set (s2 := withOwnership _ _ _).
    assert (Htime : timeS s2 = timeS s)
      by (subst s2; rewrite (registerComponent_frame message s); reflexivity).
    replace (dispatch message clk false _ s2)
      with (let '(ts, a, e) :=
              handleAttitude (compid message) false (groundTimeMilliseconds clk)
                (mavlink_msg_attitude_decode message) (timeS s2) (attitude s2) in
            (withAttitude a (withTime ts s2), e))
      by (unfold dispatch; rewrite Hid; reflexivity).
    unfold handleAttitude. rewrite Htime.
    pose proof (getUnixReferenceTime_lastAttitude (groundTimeMilliseconds clk)
                  (att_time_boot_ms (mavlink_msg_attitude_decode message))
                  (timeS s)) as [_ Hst].
    destruct (getUnixReferenceTime _ _ (timeS s)) as [time ts0].
    cbn [fst snd] in *. unfold attitudeUpdate. cbn [negb].
    unfold withAttitude, withTime.
    cbn [attitude timeS attitudeStamped lastAttitude attitudeKnown fst].
    rewrite Hst, Hstamped. repeat split; reflexivity.
Qed.

End AttitudeProperties.

Lemma attitude_from_other_component_witness :
  let owned := withOwnership (<[MAVLINK_MSG_ID_ATTITUDE := 1]> ∅) ∅ freshVehicle in
  attitude (fst (receiveMessage (blankMessage 1 2 MAVLINK_MSG_ID_ATTITUDE)
                   (mkClock 2000 2) owned)) = attitude owned.
Proof.
  cbv zeta.
  destruct (attitude_from_other_component
              (blankMessage 1 2 MAVLINK_MSG_ID_ATTITUDE) (mkClock 2000 2)
              (withOwnership (<[MAVLINK_MSG_ID_ATTITUDE := 1]> ∅) ∅ freshVehicle))
    as [Hatt _].
  - left. reflexivity.
  - vm_compute. reflexivity.
  - vm_compute. discriminate.
  - vm_compute. discriminate.
  - vm_compute. discriminate.
  - exact Hatt.
Defined.

Lemma attitude_stamped_gate_witness :
  let stamped := withTime (mkTime true 0 0 0) freshVehicle in
  receiveMessage (blankMessage 1 50 MAVLINK_MSG_ID_HEARTBEAT) (mkClock 0 0) stamped
  = (registerComponent (blankMessage 1 50 MAVLINK_MSG_ID_HEARTBEAT) stamped, []).
Proof.
  cbv zeta.
  destruct (attitude_stamped_gate (blankMessage 1 50 MAVLINK_MSG_ID_HEARTBEAT)
              (mkClock 0 0) (withTime (mkTime true 0 0 0) freshVehicle)
              eq_refl eq_refl eq_refl) as [Hclosed _].
  apply Hclosed. vm_compute. discriminate.
Defined.

(** ** Image transfer and retrieval *)

Lemma bufferAssign_length (pos c : Z) (buf : list Z) :
  0 <= pos ->
  length (bufferAssign pos c buf) = Nat.max (length buf) (Z.to_nat pos + 1).
Proof.
  intros Hpos. unfold bufferAssign.
  destruct (Z.ltb_spec pos (Z.of_nat (length buf))) as [Hin | Hout].
  - rewrite length_insert. lia.
  - rewrite !length_app, length_replicate. cbn [length]. lia.
Qed.

Lemma bufferAssign_lookup_eq (pos c : Z) (buf : list Z) :
  0 <= pos -> bufferAssign pos c buf !! Z.to_nat pos = Some c.
Proof.
  intros Hpos. unfold bufferAssign.
  destruct (Z.ltb_spec pos (Z.of_nat (length buf))) as [Hin | Hout].
  - apply list_lookup_insert_eq. lia.
  - rewrite app_assoc. apply list_lookup_middle.
    rewrite length_app, length_replicate. lia.
Qed.

Lemma bufferAssign_lookup_ne (pos c : Z) (buf : list Z) (k : nat) :
  (k < length buf)%nat -> k <> Z.to_nat pos ->
  bufferAssign pos c buf !! k = buf !! k.
Proof.
  intros Hk Hne. unfold bufferAssign.
  destruct (pos <? Z.of_nat (length buf)).
  - apply list_lookup_insert_ne. congruence.
  - apply lookup_app_l. exact Hk.
Qed.

Lemma copyChunk_fst_step (n : nat) (i pos size : Z) (bytes buf : list Z) :
  fst (copyChunk (S n) i pos size bytes buf)
  = fst (copyChunk n (i + 1) (pos + 1) size bytes
           (if pos <=? size
            then bufferAssign pos (nth (Z.to_nat i) bytes 0) buf
            else buf)).
Proof.
  cbn [copyChunk]. destruct (pos <=? size); [|reflexivity].
  destruct (copyChunk n (i + 1) (pos + 1) size bytes
              (bufferAssign pos (nth (Z.to_nat i) bytes 0) buf)).
  reflexivity.
Qed.

(** The copy loop never shortens the buffer. *)
Lemma copyChunk_length (n : nat) (size : Z) (bytes : list Z) :
  forall (i pos : Z) (buf : list Z),
    0 <= pos ->
    (length buf <= length (fst (copyChunk n i pos size bytes buf)))%nat.
Proof.
  induction n as [|n IH]; intros i pos buf Hpos.
  - cbn. lia.
  - rewrite copyChunk_fst_step.
    etransitivity; [|apply IH; lia].
    destruct (pos <=? size); [|lia].
    rewrite bufferAssign_length by exact Hpos. lia.
Qed.

(** The copy loop leaves alone what lies outside the window it copies to. *)
Lemma copyChunk_frame (n : nat) (size : Z) (bytes : list Z) :
  forall (i pos : Z) (buf : list Z) (k : nat),
    0 <= pos ->
    (k < length buf)%nat ->
    Z.of_nat k < pos \/ pos + Z.of_nat n <= Z.of_nat k \/ size < Z.of_nat k ->
    fst (copyChunk n i pos size bytes buf) !! k = buf !! k.
Proof.
  induction n as [|n IH]; intros i pos buf k Hpos Hk Hout.
  - reflexivity.
  - rewrite copyChunk_fst_step.
    destruct (Z.leb_spec pos size) as [Hle | Hgt].
    + rewrite IH.
      * apply bufferAssign_lookup_ne; [exact Hk | lia].
      * lia.
      * rewrite bufferAssign_length by exact Hpos. lia.
      * lia.
    + apply IH; [lia | exact Hk | lia].
Qed.

(** Inside the window, and up to position [size], the buffer holds the
    chunk's bytes afterwards. *)
Lemma copyChunk_read (n : nat) (size : Z) (bytes : list Z) :
  forall (i pos : Z) (buf : list Z) (d : nat),
    0 <= pos -> 0 <= i ->
    (d < n)%nat ->
    pos + Z.of_nat d <= size ->
    fst (copyChunk n i pos size bytes buf) !! Z.to_nat (pos + Z.of_nat d)
    = Some (nth (Z.to_nat i + d) bytes 0).
Proof.
  induction n as [|n IH]; intros i pos buf d Hpos Hi Hd Hsize; [lia|].
  rewrite copyChunk_fst_step.
  destruct (Z.leb_spec pos size) as [Hle | Hgt]; [|lia].
  destruct d as [|d].
  - rewrite Z.add_0_r, Nat.add_0_r.
    rewrite copyChunk_frame.
    + apply bufferAssign_lookup_eq. exact Hpos.
    + lia.
    + rewrite bufferAssign_length by exact Hpos. lia.
    + lia.
  - replace (pos + Z.of_nat (S d)) with (pos + 1 + Z.of_nat d) by lia.
    rewrite IH by lia. f_equal. f_equal. lia.
Qed.

Section ImageProperties.
Context {F : Type}.

Lemma handleEncapsulatedData_fields (img : mavlink_encapsulated_data_t)
    (im : ImageState) :
  let im' := fst (handleEncapsulatedData (F := F) img im) in
  imageSize im' = imageSize im
  /\ imagePayload im' = imagePayload im
  /\ imageRecBuffer im'
     = (if imagePackets im =? 0 then imageRecBuffer im
        else fst (copyChunk (Z.to_nat (imagePayload im)) 0
                    (seqnr img * imagePayload im) (imageSize im)
                    (data img) (imageRecBuffer im))).
Proof.
  cbv zeta. unfold handleEncapsulatedData.
  destruct (imagePackets im =? 0); [repeat split; reflexivity|].
  destruct (imagePacketsArrived im + 1 >=? imagePackets im);
    repeat split; reflexivity.
Qed.

Lemma handleEncapsulatedData_read (img : mavlink_encapsulated_data_t)
    (im : ImageState) (d : Z) :
  imagePackets im <> 0 ->
  0 <= seqnr img * imagePayload im ->
  0 <= d < imagePayload im ->
  seqnr img * imagePayload im + d <= imageSize im ->
  imageRecBuffer (fst (handleEncapsulatedData (F := F) img im))
    !! Z.to_nat (seqnr img * imagePayload im + d)
  = Some (nth (Z.to_nat d) (data img) 0).
Proof.
  intros Hrun Hpos Hd Hsize.
  destruct (handleEncapsulatedData_fields img im) as (_ & _ & ->).
  replace (imagePackets im =? 0) with false
    by (symmetry; apply Z.eqb_neq; exact Hrun).
  replace d with (Z.of_nat (Z.to_nat d)) at 1 by lia.
  rewrite copyChunk_read by lia. reflexivity.
Qed.

(** X12: a data chunk of a running transfer is stored at its sequence
    number times the payload size: every byte of it that lands at a
    position up to [imageSize] reads back from the buffer, the bytes
    outside the chunk's window are the old ones, and the buffer does not
    shrink. *)
Theorem chunk_read_back (img : mavlink_encapsulated_data_t) (im : ImageState) :
  imagePackets im <> 0 ->
  0 <= seqnr img * imagePayload im ->
  imagePayload im <= Z.of_nat (length (data img)) ->
  let pos := seqnr img * imagePayload im in
  let buf' := imageRecBuffer (fst (handleEncapsulatedData (F := F) img im)) in
  (forall d, 0 <= d < imagePayload im -> pos + d <= imageSize im ->
             buf' !! Z.to_nat (pos + d) = Some (nth (Z.to_nat d) (data img) 0))
  /\ (forall k : nat,
        (k < length (imageRecBuffer im))%nat ->
        Z.of_nat k < pos \/ pos + imagePayload im <= Z.of_nat k
        \/ imageSize im < Z.of_nat k ->
        buf' !! k = imageRecBuffer im !! k)
  /\ (length (imageRecBuffer im) <= length buf')%nat.
Proof.
  intros Hrun Hpos Hdata. cbv zeta.
  destruct (handleEncapsulatedData_fields img im) as (_ & _ & ->).
  replace (imagePackets im =? 0) with false
    by (symmetry; apply Z.eqb_neq; exact Hrun).
  split; [|split].
  - intros d Hd Hsize.
    replace d with (Z.of_nat (Z.to_nat d)) at 1 by lia.
    rewrite copyChunk_read by lia. reflexivity.
  - intros k Hk Hout. apply copyChunk_frame; [exact Hpos | exact Hk | lia].
  - apply copyChunk_length. exact Hpos.
Qed.

Lemma handleEncapsulatedData_frame (img : mavlink_encapsulated_data_t)
    (im : ImageState) (k : nat) :
  0 <= seqnr img * imagePayload im ->
  (k < length (imageRecBuffer im))%nat ->
  Z.of_nat k < seqnr img * imagePayload im ->
  imageRecBuffer (fst (handleEncapsulatedData (F := F) img im)) !! k
  = imageRecBuffer im !! k
  /\ (k < length (imageRecBuffer (fst (handleEncapsulatedData (F := F) img im))))%nat.
Proof.
  intros Hpos Hk Hbelow.
  destruct (handleEncapsulatedData_fields img im) as (_ & _ & ->).
  destruct (imagePackets im =? 0); [split; [reflexivity | exact Hk]|].
  split.
  - apply copyChunk_frame; [exact Hpos | exact Hk | lia].
  - eapply Nat.lt_le_trans; [exact Hk | apply copyChunk_length; exact Hpos].
Qed.

Lemma imageRun_cons (c : mavlink_encapsulated_data_t)
    (cs : list mavlink_encapsulated_data_t) (im : ImageState) :
  fst (imageRun (F := F) (c :: cs) im)
  = fst (imageRun (F := F) cs (fst (handleEncapsulatedData (F := F) c im))).
Proof.
  cbn [imageRun].
  destruct (handleEncapsulatedData c im) as [im1 e]. cbn [fst].
  destruct (imageRun cs im1) as [im2 es]. reflexivity.
Qed.

(** Later chunks leave the bytes of earlier windows alone. *)
Lemma imageRun_frame (cs : list mavlink_encapsulated_data_t) :
  forall (im : ImageState) (k0 : Z) (k : nat),
    0 <= k0 -> 0 <= imagePayload im ->
    (forall idx c, cs !! idx = Some c -> k0 <= seqnr c) ->
    (k < length (imageRecBuffer im))%nat ->
    Z.of_nat k < k0 * imagePayload im ->
    imageRecBuffer (fst (imageRun (F := F) cs im)) !! k = imageRecBuffer im !! k.
Proof.
  induction cs as [|c cs IH]; intros im k0 k Hk0 Hpl Hseq Hk Hbelow.
  - reflexivity.
  - rewrite imageRun_cons.
    assert (Hc : k0 <= seqnr c) by (apply (Hseq 0%nat); reflexivity).
    destruct (handleEncapsulatedData_fields c im) as (_ & Hpl1 & _).
    cbv zeta in Hpl1.
    destruct (handleEncapsulatedData_frame c im k) as [Hsame Hlen];
      [nia | exact Hk | nia |].
    rewrite (IH _ k0 k); [exact Hsame | exact Hk0 | lia | | exact Hlen | ].
    + intros idx c' Hc'. apply (Hseq (S idx)). exact Hc'.
    + rewrite Hpl1. exact Hbelow.
Qed.

Lemma imageRun_read (cs : list mavlink_encapsulated_data_t) :
  forall (im : ImageState) (k0 : Z),
    0 <= k0 -> 0 < imagePayload im ->
    0 <= imagePacketsArrived im ->
    imagePacketsArrived im + Z.of_nat (length cs) <= imagePackets im ->
    (forall idx c, cs !! idx = Some c ->
                   seqnr c = k0 + Z.of_nat idx
                   /\ imagePayload im <= Z.of_nat (length (data c))) ->
    forall (idx : nat) (c : mavlink_encapsulated_data_t) (d : Z),
      cs !! idx = Some c ->
      0 <= d < imagePayload im ->
      (k0 + Z.of_nat idx) * imagePayload im + d <= imageSize im ->
      imageRecBuffer (fst (imageRun (F := F) cs im))
        !! Z.to_nat ((k0 + Z.of_nat idx) * imagePayload im + d)
      = Some (nth (Z.to_nat d) (data c) 0).
Proof.
  induction cs as [|c0 cs IH];
    intros im k0 Hk0 Hpl Harr Hcount Hseq idx c d Hc Hd Hsize.
  - discriminate.
  - rewrite imageRun_cons.
    destruct (Hseq 0%nat c0 eq_refl) as [Hc0 Hdata0].
    rewrite Z.add_0_r in Hc0.
    cbn [length] in Hcount. rewrite Nat2Z.inj_succ in Hcount.
    assert (Hrun : imagePackets im <> 0) by lia.
    destruct (handleEncapsulatedData_fields c0 im) as (Hsz1 & Hpl1 & Hbuf1).
    cbv zeta in Hsz1, Hpl1, Hbuf1.
    destruct idx as [|idx].
    + injection Hc as <-. rewrite Z.add_0_r in *.
      assert (Hbyte : imageRecBuffer (fst (handleEncapsulatedData (F := F) c0 im))
                        !! Z.to_nat (k0 * imagePayload im + d)
                      = Some (nth (Z.to_nat d) (data c0) 0)).
      { rewrite <- Hc0. apply handleEncapsulatedData_read; rewrite ?Hc0;
          [exact Hrun | nia | exact Hd | exact Hsize]. }
      rewrite (imageRun_frame cs _ (k0 + 1)).
      * exact Hbyte.
      * lia.
      * lia.
      * intros idx c' Hc'. destruct (Hseq (S idx) c' Hc') as [-> _]. lia.
      * apply lookup_lt_Some in Hbyte. exact Hbyte.
      * rewrite Hpl1. nia.
    + cbn [lookup] in Hc.
      assert (Hmore : cs <> []) by (intros ->; discriminate).
      assert (Hlen : (0 < length cs)%nat) by (destruct cs; [congruence | cbn; lia]).
      assert (Hstep : imagePackets (fst (handleEncapsulatedData (F := F) c0 im))
                      = imagePackets im
                      /\ imagePacketsArrived (fst (handleEncapsulatedData (F := F) c0 im))
                         = imagePacketsArrived im + 1).
      { unfold handleEncapsulatedData.
        known_false (imagePackets im =? 0).
        known_false (imagePacketsArrived im + 1 >=? imagePackets im).
        split; reflexivity. }
      destruct Hstep as [Hpk1 Harr1].
      replace ((k0 + Z.of_nat (S idx)) * imagePayload im + d)
        with ((k0 + 1 + Z.of_nat idx)
              * imagePayload (fst (handleEncapsulatedData (F := F) c0 im)) + d)
        by (rewrite Hpl1; lia).
      apply IH.
      * lia.
      * lia.
      * lia.
      * lia.
      * intros idx' c' Hc'. destruct (Hseq (S idx') c' Hc') as [-> Hdata'].
        rewrite Hpl1. split; [lia | exact Hdata'].
      * exact Hc.
      * lia.
      * rewrite Hpl1, Hsz1. nia.
Qed.

(** X13: after a handshake that announces as many packets as then arrive,
    in the order of their sequence numbers from 0 and each with a full
    payload, the receive buffer holds, at every position up to the announced size that a chunk covers,
    the byte of the chunk that covers it. *)
Theorem in_order_transfer_reassembles (now : Z)
    (p : mavlink_data_transmission_handshake_t) (im0 : ImageState)
    (cs : list mavlink_encapsulated_data_t) :
  0 < h_payload p ->
  0 <= h_size p < 2 ^ 31 ->
  h_packets p = Z.of_nat (length cs) ->
  (forall idx c, cs !! idx = Some c ->
                 seqnr c = Z.of_nat idx
                 /\ h_payload p <= Z.of_nat (length (data c))) ->
  let final := fst (imageRun (F := F) cs (handleHandshake now p im0)) in
  forall (idx : nat) (c : mavlink_encapsulated_data_t) (d : Z),
    cs !! idx = Some c ->
    0 <= d < h_payload p ->
    Z.of_nat idx * h_payload p + d <= h_size p ->
    imageRecBuffer final !! Z.to_nat (Z.of_nat idx * h_payload p + d)
    = Some (nth (Z.to_nat d) (data c) 0).
Proof.
  intros Hpl Hsz Hpk Hseq final idx c d Hc Hd Hsize. subst final.
  assert (Hsize32 : to_int32 (h_size p) = h_size p).
  { unfold to_int32. rewrite Z.mod_small by lia. lia. }
  pose proof (imageRun_read cs (handleHandshake now p im0) 0) as Hread.
  cbn [handleHandshake imagePayload imagePacketsArrived imagePackets imageSize]
    in Hread.
  rewrite Hsize32 in Hread. cbn [Z.add] in Hread.
  apply Hread; try lia.
  - intros idx' c' Hc'. destruct (Hseq idx' c' Hc') as [-> Hdata'].
    split; [lia | exact Hdata'].
  - exact Hc.
Qed.

End ImageProperties.

Lemma chunk_read_back_witness :
  imageRecBuffer
    (fst (handleEncapsulatedData (F := spec_float) (mkEncapsulated 1 [12; 13])
            (mkImage 4 2 0 2 0 0 0 0 0 []))) !! 3%nat = Some 13.
Proof.
  destruct (chunk_read_back (F := spec_float) (mkEncapsulated 1 [12; 13])
              (mkImage 4 2 0 2 0 0 0 0 0 [])) as [Hread _].
  - cbn. lia.
  - cbn. lia.
  - cbn. lia.
  - apply (Hread 1); cbn; lia.
Defined.

Lemma in_order_transfer_reassembles_witness :
  imageRecBuffer
    (fst (imageRun (F := spec_float)
            [mkEncapsulated 0 [10; 11]; mkEncapsulated 1 [12; 13]]
            (handleHandshake 0 (mkHandshake 4 0 0 2 0 2 0) emptyImage)))
    !! 3%nat = Some 13.
Proof.
  assert (Hseq : forall idx c,
             [mkEncapsulated 0 [10; 11]; mkEncapsulated 1 [12; 13]] !! idx = Some c ->
             seqnr c = Z.of_nat idx
             /\ h_payload (mkHandshake 4 0 0 2 0 2 0) <= Z.of_nat (length (data c))).
  { intros [|[|idx]] c Hc; cbn in Hc; try discriminate;
      injection Hc as <-; cbn; lia. }
  exact (in_order_transfer_reassembles (F := spec_float) 0
           (mkHandshake 4 0 0 2 0 2 0) emptyImage
           [mkEncapsulated 0 [10; 11]; mkEncapsulated 1 [12; 13]]
           ltac:(cbn; lia) ltac:(cbn; lia) eq_refl Hseq
           1%nat (mkEncapsulated 1 [12; 13]) 1 eq_refl
           ltac:(cbn; lia) ltac:(cbn; lia)).
Defined.

Section ImageRetrieval.
Context {F Img : Type} `{ImageCodec Img}.

(** X14: for the five stream types it knows, [getImage] either fails,
    returning the null image and leaving the transfer members as they
    are, or returns a decoded image and restarts the transfer: the buffer
    is empty and the packet counts are zero, so that a data chunk that
    arrives afterwards is dropped, and a raw 8-bit image cannot be fetched
    a second time. *)
Theorem getImage_restarts_transfer (im : ImageState) (image : option Img) :
  memZ (imageType im)
       [MAVLINK_DATA_STREAM_IMG_RAW8U; MAVLINK_DATA_STREAM_IMG_BMP;
        MAVLINK_DATA_STREAM_IMG_JPEG; MAVLINK_DATA_STREAM_IMG_PGM;
        MAVLINK_DATA_STREAM_IMG_PNG] = true ->
  let result := fst (fst (getImage im image)) in
  let im' := snd (fst (getImage im image)) in
  match result with
  | None => im' = im
  | Some _ =>
      imageRecBuffer im' = []
      /\ imagePackets im' = 0
      /\ imagePacketsArrived im' = 0
      /\ (forall chunk, handleEncapsulatedData (F := F) chunk im' = (im', []))
      /\ (imageType im = MAVLINK_DATA_STREAM_IMG_RAW8U ->
          forall image', fst (fst (getImage im' image')) = None)
  end.
Proof.
  unfold memZ. cbn [existsb]. rewrite orb_false_r. intros Htype. cbv zeta.
  unfold getImage.
  destruct (imageType im =? MAVLINK_DATA_STREAM_IMG_RAW8U) eqn:Hraw.
  - destruct (imageRecBuffer im) as [|b0 buf] eqn:Hbuf; [reflexivity|].
    destruct (loadFromData _ (Some "PGM"%string)); [|reflexivity].
    cbn [fst snd imageRecBuffer imagePackets imagePacketsArrived imageType].
    repeat split.
    intros _ image'. rewrite Hraw. reflexivity.
  - cbn [orb] in Htype.
    replace ((imageType im =? MAVLINK_DATA_STREAM_IMG_BMP)
             || (imageType im =? MAVLINK_DATA_STREAM_IMG_JPEG)
             || (imageType im =? MAVLINK_DATA_STREAM_IMG_PGM)
             || (imageType im =? MAVLINK_DATA_STREAM_IMG_PNG)) with true
      by (rewrite <- Htype, !orb_assoc; reflexivity).
    destruct (loadFromData (imageRecBuffer im) None); [|reflexivity].
    cbn [fst snd imageRecBuffer imagePackets imagePacketsArrived imageType].
    repeat split.
    intros Hraw'. rewrite Hraw' in Hraw. discriminate.
Qed.

End ImageRetrieval.

#[local] Existing Instance acceptingCodec.

Lemma getImage_restarts_transfer_witness :
  imagePackets
    (snd (fst (getImage (mkImage 4 2 1 2 0 MAVLINK_DATA_STREAM_IMG_JPEG 0 0 0 [7])
                 (None : option unit)))) = 0.
Proof.
  pose proof (getImage_restarts_transfer (F := spec_float)
                (mkImage 4 2 1 2 0 MAVLINK_DATA_STREAM_IMG_JPEG 0 0 0 [7])
                (None : option unit) eq_refl) as Hget.
  cbv zeta in Hget.
  change (fst (fst (getImage
                      (mkImage 4 2 1 2 0 MAVLINK_DATA_STREAM_IMG_JPEG 0 0 0 [7])
                      (None : option unit)))) with (Some tt) in Hget.
  destruct Hget as (_ & Hpackets & _). exact Hpackets.
Defined.

(** ** Outbound commands *)

(** X15: the calibration command names the vehicle and tells the kinds of
    calibration apart: two kinds never give the same message, and no start
    message is the stop message; without a vehicle nothing is sent. *)
Theorem calibration_command_identifies_kind (uasId : Z)
    (t1 t2 : StartCalibrationType) :
  (startCalibration true uasId t1 = startCalibration true uasId t2 -> t1 = t2)
  /\ startCalibration true uasId t1 <> stopCalibration true uasId
  /\ (exists m, startCalibration true uasId t1 = [m]
                /\ cl_target_system m = uasId
                /\ cl_command m = MAV_CMD_PREFLIGHT_CALIBRATION)
  /\ startCalibration false uasId t1 = []
  /\ stopCalibration false uasId = [].
Proof.
  split; [|split; [|split; [|split; reflexivity]]].
  - destruct t1, t2; cbn; intros Heq; first [reflexivity | discriminate].
  - destruct t1; cbn; discriminate.
  - eexists. split; [reflexivity|]. split; reflexivity.
Qed.

Lemma untilNul_no_nul (l : list Z) :
  Forall (fun c => c <> 0) l -> untilNul l = l.
Proof.
  induction 1 as [|c l Hc _ IH]; [reflexivity|].
  cbn [untilNul]. replace (c =? 0) with false by (symmetry; apply Z.eqb_neq; exact Hc).
  rewrite IH. reflexivity.
Qed.

Lemma untilNul_padded (l : list Z) (pad : list Z) :
  Forall (fun c => c <> 0) l -> untilNul (l ++ 0 :: pad) = l.
Proof.
  induction 1 as [|c l Hc _ IH]; [reflexivity|].
  cbn [untilNul app].
  replace (c =? 0) with false by (symmetry; apply Z.eqb_neq; exact Hc).
  rewrite IH. reflexivity.
Qed.

Section ParameterIds.
Context `{TextCodec}.

Lemma paramIdBuffer_shape (param_id : list Z) :
  length (toLatin1 param_id) = length param_id ->
  paramIdBuffer param_id
  = take MAVLINK_MSG_PARAM_MAP_RC_FIELD_PARAM_ID_LEN (toLatin1 param_id)
    ++ replicate (MAVLINK_MSG_PARAM_MAP_RC_FIELD_PARAM_ID_LEN - length param_id) 0.
Proof.
  intros Hlen. unfold paramIdBuffer.
  generalize MAVLINK_MSG_PARAM_MAP_RC_FIELD_PARAM_ID_LEN as n. intros n.
  apply list_eq. intros k.
  rewrite list_lookup_fmap.
  destruct (Nat.lt_ge_cases k n) as [Hk | Hk].
  - rewrite lookup_seq_lt by exact Hk. cbn [fmap option_fmap option_map Nat.add].
    destruct (Nat.ltb_spec k (length param_id)) as [Hin | Hout].
    + rewrite lookup_app_l by (rewrite length_take; lia).
      rewrite lookup_take_lt by exact Hk.
      destruct (lookup_lt_is_Some_2 (toLatin1 param_id) k ltac:(lia)) as [c Hc].
      rewrite Hc. f_equal. apply nth_lookup_Some with (d := 0) in Hc.
      rewrite <- Hc. reflexivity.
    + rewrite lookup_app_r by (rewrite length_take; lia).
      rewrite length_take. symmetry. apply lookup_replicate_2. lia.
  - rewrite lookup_seq_ge by exact Hk. cbn [fmap option_fmap option_map].
    symmetry. apply lookup_ge_None_2.
    rewrite length_app, length_take, length_replicate. lia.
Qed.

(** X16: the id field packed for the RC-to-parameter map is 16 bytes long
    whatever the id, and for an id of ASCII characters other than NUL (for
    which the Latin-1 encoding of the sender and the UTF-8 decoding of the
    receiver agree) the name the PARAM_VALUE case reads from such a field
    is the id again, cut to 16 characters. *)
Theorem param_id_round_trip (param_id : list Z) :
  length (paramIdBuffer param_id) = MAVLINK_MSG_PARAM_MAP_RC_FIELD_PARAM_ID_LEN
  /\ (Forall (fun c => 0 < c < 128) param_id ->
      parameterName (paramIdBuffer param_id)
      = take MAVLINK_MSG_PARAM_VALUE_FIELD_PARAM_ID_LEN param_id).
Proof.
  split.
  - unfold paramIdBuffer. rewrite length_map, length_seq. reflexivity.
  - intros Hascii.
    assert (Hrange : Forall (fun c => 0 <= c < 128) param_id)
      by (eapply Forall_impl; [exact Hascii | cbn; intros c Hc; lia]).
    assert (Hnul : Forall (fun c => c <> 0) param_id)
      by (eapply Forall_impl; [exact Hascii | cbn; intros c Hc; lia]).
    unfold parameterName.
    rewrite paramIdBuffer_shape by (rewrite toLatin1_ascii by exact Hrange; reflexivity).
    rewrite (toLatin1_ascii param_id Hrange).
    unfold MAVLINK_MSG_PARAM_MAP_RC_FIELD_PARAM_ID_LEN,
      MAVLINK_MSG_PARAM_VALUE_FIELD_PARAM_ID_LEN.
    assert (Hname : untilNul (take 16 (take 16 param_id
                                       ++ replicate (16 - length param_id) 0))
                    = take 16 param_id).
    { destruct (Nat.le_gt_cases 16 (length param_id)) as [Hlong | Hshort].
      - replace (16 - length param_id)%nat with 0%nat by lia.
        cbn [replicate]. rewrite app_nil_r.
        rewrite take_take, Nat.min_id.
        apply untilNul_no_nul. apply Forall_take. exact Hnul.
      - rewrite (take_ge param_id) by lia.
        rewrite take_ge by (rewrite length_app, length_replicate; lia).
        destruct (16 - length param_id)%nat as [|n] eqn:Hpad; [lia|].
        cbn [replicate]. apply untilNul_padded. exact Hnul. }
    rewrite Hname. apply fromUtf8_ascii. apply Forall_take. exact Hrange.
Qed.

End ParameterIds.

(** X17: the vehicle classes do not overlap: no type is both rotary wing
    and airplane, and every fixed-wing type is an airplane. *)
Theorem vehicle_classes_disjoint (type : Z) :
  (isRotaryWing type = true -> isAirplane type = false)
  /\ (isFixedWing type = true -> isAirplane type = true)
  /\ (isFixedWing type = true -> isRotaryWing type = false).
Proof.
  unfold isRotaryWing, isFixedWing, isAirplane.
  unfold MAV_TYPE_QUADROTOR, MAV_TYPE_COAXIAL, MAV_TYPE_HELICOPTER,
    MAV_TYPE_HEXAROTOR, MAV_TYPE_OCTOROTOR, MAV_TYPE_TRICOPTER,
    MAV_TYPE_FIXED_WING, MAV_TYPE_GENERIC, MAV_TYPE_AIRSHIP,
    MAV_TYPE_FLAPPING_WING.
  repeat split; intros Hclass;
    repeat match goal with
    | |- context [?a =? ?b] =>
        destruct (Z.eqb_spec a b); try lia; cbn [orb] in *
    end; try reflexivity; try discriminate.
Qed.

Lemma calibration_command_identifies_kind_witness :
  startCalibration true 1 StartCalibrationGyro <> stopCalibration true 1.
Proof.
  exact (proj1 (proj2 (calibration_command_identifies_kind
                         1 StartCalibrationGyro StartCalibrationGyro))).
Defined.

#[local] Existing Instance asciiCodec.

Lemma param_id_round_trip_witness :
  parameterName (paramIdBuffer [65; 66; 67]) = [65; 66; 67].
Proof.
  apply (param_id_round_trip [65; 66; 67]).
  repeat constructor; lia.
Defined.

Lemma vehicle_classes_disjoint_witness : isAirplane MAV_TYPE_QUADROTOR = false.
Proof.
  apply (vehicle_classes_disjoint MAV_TYPE_QUADROTOR). reflexivity.
Defined.

(** ** Manual control *)

Section ManualControlProperties.
Context {F : Type} `{CFloat F} `{ControlMath F}.

Lemma packSetpoint_count (uasId now : Z) (i : ControlInput F)
    (st : ControlState F) :
  countSinceLastTransmission (fst (packSetpoint uasId now i st))
  = countSinceLastTransmission st.
Proof. unfold packSetpoint. destruct (in_mode i); reflexivity. Qed.

(** One call with the vehicle set: whether it transmits, and the counter
    after it. *)
Lemma setExternalControlSetpoint_step (uasId : Z) (clk : clock)
    (i : ControlInput F) (st : ControlState F) :
  let r := setExternalControlSetpoint true uasId clk i st in
  let old := countSinceLastTransmission st in
  (snd (fst r) <> [] <-> sendCommand i st = true)
  /\ (snd (fst r) = [] <-> sendCommand i st = false)
  /\ countSinceLastTransmission (fst (fst r))
     = (if old >=? 5 then 0
        else if inputsChanged i st then 10
        else (old + 1) mod 256).
Proof.
  cbv zeta. unfold setExternalControlSetpoint. cbn [negb].
  destruct (sendCommand i st).
  - match goal with
    | |- context [packSetpoint ?u ?t ?j ?s] =>
        pose proof (packSetpoint_count u t j s) as Hcount;
        destruct (packSetpoint u t j s) as [st2 message]
    end.
    cbn [fst snd] in *. rewrite Hcount. cbn [countSinceLastTransmission].
    repeat split; intros; congruence.
  - cbn [fst snd countSinceLastTransmission].
    repeat split; intros; congruence.
Qed.

Lemma controlRun_cons (uasId : Z) (clk : clock) (i : ControlInput F)
    (rest : list (clock * ControlInput F)) (st : ControlState F) :
  controlRun uasId ((clk, i) :: rest) st
  = snd (fst (setExternalControlSetpoint true uasId clk i st))
    :: controlRun uasId rest
         (fst (fst (setExternalControlSetpoint true uasId clk i st))).
Proof.
  cbn [controlRun].
  destruct (setExternalControlSetpoint true uasId clk i st) as [[st1 sent] e].
  reflexivity.
Qed.

Lemma controlRun_transmits_within (uasId : Z) (n : nat) :
  forall (calls : list (clock * ControlInput F)) (st : ControlState F),
    0 <= countSinceLastTransmission st ->
    (0 < n)%nat ->
    5 - countSinceLastTransmission st < Z.of_nat n ->
    (n <= length calls)%nat ->
    Exists (fun sent => sent <> []) (take n (controlRun uasId calls st)).
Proof.
  induction n as [|n IH]; intros calls st Hlow Hpos Hn Hlen; [lia|].
  destruct calls as [|[clk i] rest]; [cbn in Hlen; lia|].
  rewrite controlRun_cons. cbn [take].
  destruct (setExternalControlSetpoint_step uasId clk i st)
    as (Hsend & Hquiet & Hcount). cbv zeta in Hsend, Hquiet, Hcount.
  destruct (sendCommand i st) eqn:Hcmd.
  - apply Exists_cons_hd. apply Hsend. reflexivity.
  - apply Exists_cons_tl. unfold sendCommand in Hcmd.
    apply orb_false_iff in Hcmd as [Hfive Hchanged].
    rewrite Hfive, Hchanged in Hcount.
    assert (Hlt : countSinceLastTransmission st < 5)
      by (destruct (Z.geb_spec (countSinceLastTransmission st) 5); [discriminate | lia]).
    rewrite Z.mod_small in Hcount by lia.
    apply IH; [lia | lia | lia | cbn [length] in Hlen; lia].
Qed.

(** X18: the joystick setpoint goes out at least at the lower rate: with
    the vehicle set, among any six calls in a row at least one transmits,
    whatever the inputs. *)
Theorem manual_control_lower_rate (uasId : Z)
    (calls : list (clock * ControlInput F)) (st : ControlState F) :
  0 <= countSinceLastTransmission st ->
  (6 <= length calls)%nat ->
  Exists (fun sent => sent <> []) (take 6 (controlRun uasId calls st)).
Proof.
  intros Hlow Hlen.
  apply controlRun_transmits_within; [exact Hlow | lia | lia | exact Hlen].
Qed.

(** X19: a call whose inputs differ from those last transmitted always
    transmits.  If fewer than five calls went by since the last
    transmission, the next call transmits too, whatever its inputs; if
    five or more did, the counter restarts at zero and the next call
    transmits only if its inputs differ again. *)
Theorem manual_control_change (uasId : Z) (clk clk' : clock)
    (i i' : ControlInput F) (st : ControlState F) :
  inputsChanged i st = true ->
  let st1 := fst (fst (setExternalControlSetpoint true uasId clk i st)) in
  snd (fst (setExternalControlSetpoint true uasId clk i st)) <> []
  /\ (countSinceLastTransmission st < 5 ->
      snd (fst (setExternalControlSetpoint true uasId clk' i' st1)) <> [])
  /\ (5 <= countSinceLastTransmission st ->
      inputsChanged i' st1 = false ->
      snd (fst (setExternalControlSetpoint true uasId clk' i' st1)) = []).
Proof.
  intros Hchanged. cbv zeta.
  destruct (setExternalControlSetpoint_step uasId clk i st)
    as (Hsend & _ & Hcount). cbv zeta in Hsend, Hcount.
  rewrite Hchanged in Hcount.
  set (st1 := fst (fst (setExternalControlSetpoint true uasId clk i st))) in *.
  destruct (setExternalControlSetpoint_step uasId clk' i' st1)
    as (Hsend' & Hquiet' & _). cbv zeta in Hsend', Hquiet'.
  split; [|split].
  - apply Hsend. unfold sendCommand. rewrite Hchanged. apply orb_true_r.
  - intros Hlt. apply Hsend'. unfold sendCommand.
    replace (countSinceLastTransmission st >=? 5) with false in Hcount
      by (symmetry; rewrite Z.geb_leb; apply Z.leb_gt; lia).
    rewrite Hcount. reflexivity.
  - intros Hge Hsame. apply Hquiet'. unfold sendCommand.
    replace (countSinceLastTransmission st >=? 5) with true in Hcount
      by (symmetry; rewrite Z.geb_leb; apply Z.leb_le; lia).
    rewrite Hcount, Hsame. reflexivity.
Qed.

End ManualControlProperties.

(** ** Simulated GPS *)

Section HilGpsProperties.
Context {F : Type} `{CFloat F} `{ControlMath F}.

Lemma spaced100_cons (x : Z) (l : list Z) :
  spaced100 l -> Forall (fun y => x + 100 <= y) l -> spaced100 (x :: l).
Proof.
  intros Hsp Hall. destruct l as [|y l]; [exact I|].
  cbn [spaced100]. inversion Hall; subst. split; [lia | exact Hsp].
Qed.

Lemma hilGpsSendTimes_spaced (calls : list (Z * Z * Z * HilGpsInput F)) :
  forall last from : Z,
    0 <= last <= from ->
    clockAdvances from calls ->
    spaced100 (hilGpsSendTimes calls last)
    /\ Forall (fun t => last + 100 <= t) (hilGpsSendTimes calls last).
Proof.
  induction calls as [|[[[bm now] stamp] g] rest IH]; intros last from Hlast Hclock.
  - split; [exact I | constructor].
  - cbn [clockAdvances] in Hclock. destruct Hclock as (Hnow & Hstamp & Hmax & Hrest).
    cbn [hilGpsSendTimes]. unfold sendHilGps. cbn [negb].
    rewrite (wrap64_small (now - last)) by lia.
    destruct (Z.ltb_spec (now - last) 100) as [Hsoon | Hdue].
    + cbn [existsb app]. apply (IH last stamp); [lia | exact Hrest].
    + destruct (negb (Z.land bm MAV_MODE_FLAG_HIL_ENABLED =? 0)).
      * cbn [existsb isHilGps orb app].
        destruct (IH stamp stamp) as [Hsp Hall]; [lia | exact Hrest |].
        split.
        -- apply spaced100_cons; assumption.
        -- constructor; [lia|].
           eapply Forall_impl; [exact Hall|]. cbn. intros t Ht. lia.
      * cbn [existsb isHilGps orb app]. apply (IH last stamp); [lia | exact Hrest].
Qed.

(** X20: simulated GPS messages go out at 10 Hz at most: over a clock
    that never goes back, the stored send times of the calls that pack a
    message are at least 100 ms apart from one another and from the send
    time stored before the run. *)
Theorem hil_gps_rate_limit (calls : list (Z * Z * Z * HilGpsInput F))
    (lastSendTimeGPS : Z) :
  0 <= lastSendTimeGPS ->
  clockAdvances lastSendTimeGPS calls ->
  spaced100 (hilGpsSendTimes calls lastSendTimeGPS)
  /\ Forall (fun t => lastSendTimeGPS + 100 <= t)
            (hilGpsSendTimes calls lastSendTimeGPS).
Proof.
  intros Hlast Hclock.
  apply (hilGpsSendTimes_spaced calls lastSendTimeGPS lastSendTimeGPS);
    [lia | exact Hclock].
Qed.

End HilGpsProperties.

(** ** Home position *)

Section HomePositionProperties.
Context {F : Type} `{CFloat F}.

Lemma homePositionRun_blocked (uasId : Z)
    (calls : list (bool * bool * F * F * F)) :
  homePositionRun uasId calls true = (true, O, []).
Proof.
  induction calls as [|[[[[vehicle answerYes] lat] lon] alt] rest IH].
  - reflexivity.
  - cbn [homePositionRun]. unfold setHomePosition.
    rewrite orb_true_r, IH. reflexivity.
Qed.

(** X21: once the question about a new home position is answered with
    Cancel, home position changes stay blocked: no later call puts the
    question again or sends anything, whatever its arguments.  A call
    answered with Yes sends the command and the origin message, both
    addressed to the vehicle, and blocks nothing. *)
Theorem home_position_cancel_blocks (uasId : Z) (lat lon alt : F)
    (calls : list (bool * bool * F * F * F)) :
  (let '(blocked, asked, sent) :=
     setHomePosition true uasId false lat lon alt false in
   asked = true /\ sent = []
   /\ homePositionRun uasId calls blocked = (true, O, []))
  /\ (let '(blocked, asked, sent) :=
        setHomePosition true uasId true lat lon alt false in
      blocked = false /\ asked = true
      /\ exists p1 p2 p3 p4 la lo al,
           sent = [home_command_long uasId 0 MAV_CMD_DO_SET_HOME 1
                     p1 p2 p3 p4 lat lon alt;
                   set_gps_global_origin uasId la lo al]).
Proof.
  split.
  - cbn. repeat split. apply homePositionRun_blocked.
  - cbn. repeat split. repeat eexists.
Qed.

End HomePositionProperties.

#[local] Existing Instance plainControlMath.

Lemma manual_control_lower_rate_witness :
  let zero := Binary32.of_Z 0 in
  let idle := mkControlInput zero zero zero zero 0 JoystickModeRC in
  Exists (fun sent => sent <> [])
    (take 6 (controlRun 1 (replicate 6 (mkClock 0 0, idle))
               (mkControl zero zero zero zero 0 0 zero zero zero zero zero
                          zero zero))).
Proof.
  cbv zeta.
  apply (manual_control_lower_rate 1
           (replicate 6 (mkClock 0 0,
                         mkControlInput (Binary32.of_Z 0) (Binary32.of_Z 0)
                           (Binary32.of_Z 0) (Binary32.of_Z 0) 0 JoystickModeRC))).
  - cbn. lia.
  - cbn. lia.
Defined.

Lemma manual_control_change_witness :
  let zero := Binary32.of_Z 0 in
  snd (fst (setExternalControlSetpoint true 1 (mkClock 0 0)
              (mkControlInput zero zero zero zero 1 JoystickModeRC)
              (mkControl zero zero zero zero 0 0 zero zero zero zero zero
                         zero zero))) <> [].
Proof.
  cbv zeta.
  apply (manual_control_change 1 (mkClock 0 0) (mkClock 0 0)
           (mkControlInput (Binary32.of_Z 0) (Binary32.of_Z 0) (Binary32.of_Z 0)
              (Binary32.of_Z 0) 1 JoystickModeRC)
           (mkControlInput (Binary32.of_Z 0) (Binary32.of_Z 0) (Binary32.of_Z 0)
              (Binary32.of_Z 0) 1 JoystickModeRC)).
  vm_compute. reflexivity.
Defined.

Lemma hil_gps_rate_limit_witness :
  let zero := Binary32.of_Z 0 in
  let g := mkHilGps 0 zero zero zero 3 zero zero zero zero zero zero zero 8 in
  spaced100 (hilGpsSendTimes
               [(MAV_MODE_FLAG_HIL_ENABLED, 100, 101, g);
                (MAV_MODE_FLAG_HIL_ENABLED, 150, 150, g);
                (MAV_MODE_FLAG_HIL_ENABLED, 201, 202, g)] 0).
Proof.
  cbv zeta.
  apply (hil_gps_rate_limit
           [(MAV_MODE_FLAG_HIL_ENABLED, 100, 101,
             mkHilGps 0 (Binary32.of_Z 0) (Binary32.of_Z 0) (Binary32.of_Z 0) 3
               (Binary32.of_Z 0) (Binary32.of_Z 0) (Binary32.of_Z 0)
               (Binary32.of_Z 0) (Binary32.of_Z 0) (Binary32.of_Z 0)
               (Binary32.of_Z 0) 8);
            (MAV_MODE_FLAG_HIL_ENABLED, 150, 150,
             mkHilGps 0 (Binary32.of_Z 0) (Binary32.of_Z 0) (Binary32.of_Z 0) 3
               (Binary32.of_Z 0) (Binary32.of_Z 0) (Binary32.of_Z 0)
               (Binary32.of_Z 0) (Binary32.of_Z 0) (Binary32.of_Z 0)
               (Binary32.of_Z 0) 8);
            (MAV_MODE_FLAG_HIL_ENABLED, 201, 202,
             mkHilGps 0 (Binary32.of_Z 0) (Binary32.of_Z 0) (Binary32.of_Z 0) 3
               (Binary32.of_Z 0) (Binary32.of_Z 0) (Binary32.of_Z 0)
               (Binary32.of_Z 0) (Binary32.of_Z 0) (Binary32.of_Z 0)
               (Binary32.of_Z 0) 8)] 0).
  - lia.
  - cbn. lia.
Defined.

(** ** Mode and status from the heartbeat *)

Section HeartbeatMode.
Context {F Rest : Type} `{CFloat F} `{Libm F} `{Collaborators F Rest}.

(** The mode members and the signals of a heartbeat from a vehicle whose
    type is the one the heartbeat names. *)
Lemma handleHeartbeat_same_type (message : mavlink_message_t F) (clk : clock)
    (s : UAS F Rest) :
  let hb := mavlink_msg_heartbeat_decode message in
  type (mode s) = hb_type hb ->
  let statechanged := negb (hb_system_status hb =? status (mode s))
                      && negb (hb_system_status hb =? MAV_STATE_UNINIT) in
  let modechanged := negb (base_mode (mode s) =? hb_base_mode hb)
                     || negb (custom_mode (mode s) =? hb_custom_mode hb) in
  mode (fst (handleHeartbeat message clk s))
  = mkMode (type (mode s)) (autopilot (mode s)) (airframe (mode s))
           (hb_base_mode hb) (hb_custom_mode hb)
           (if statechanged then hb_system_status hb else status (mode s))
  /\ (statechanged = false -> modechanged = false ->
      snd (handleHeartbeat message clk s)
      = [heartbeat;
         valueChanged (sysid message) "HEARTBEAT.base_mode" "bits"
                      (VInt (hb_base_mode hb)) (groundTimeMilliseconds clk);
         valueChanged (sysid message) "HEARTBEAT.custom_mode" "bits"
                      (VInt (hb_custom_mode hb)) (groundTimeMilliseconds clk);
         valueChanged (sysid message) "HEARTBEAT.system_status" "-"
                      (VInt (hb_system_status hb)) (groundTimeMilliseconds clk)]).
Proof.
  cbv zeta. intros Htype. unfold handleHeartbeat.
  change (getUnixTime (groundTimeMilliseconds clk) 0 ?t)
    with (groundTimeMilliseconds clk, t).
  cbv zeta.
  destruct s as [uid comps ids multi unk ts lk md bat att img rst].
  destruct md as [ty ap af bm cm stt].
  cbn [mode type autopilot airframe base_mode custom_mode status withLink
       withTime withMode link timeS uasId fst snd] in *.
  subst ty. rewrite Z.eqb_refl. cbn [negb].
  cbn [mode type autopilot airframe base_mode custom_mode status].
  destruct (Z.eqb_spec (hb_system_status (mavlink_msg_heartbeat_decode message)) stt);
    destruct (hb_system_status (mavlink_msg_heartbeat_decode message)
              =? MAV_STATE_UNINIT);
    cbn [negb andb];
    try destruct (getStatusForCode _) as [uasState stateDescription];
    cbn [mode type autopilot airframe base_mode custom_mode status];
    destruct (Z.eqb_spec bm (hb_base_mode (mavlink_msg_heartbeat_decode message)));
    destruct (Z.eqb_spec cm (hb_custom_mode (mavlink_msg_heartbeat_decode message)));
    cbn [negb orb andb mode type autopilot airframe base_mode custom_mode
         status fst snd app];
    subst;
    (split; [reflexivity | intros Hs Hm; first [discriminate | reflexivity]]).
Qed.

(** X22: a heartbeat from a vehicle of the type it names leaves the mode
    members equal to the heartbeat's base and custom mode, and the status
    equal to the heartbeat's unless that is UNINIT, which is ignored; the
    type, autopilot and airframe stay.  The same heartbeat delivered again
    announces nothing: it emits the heartbeat signal and the three plot
    values only, no status change and no spoken text. *)
Theorem heartbeat_mirrors_mode (message : mavlink_message_t F)
    (clk clk' : clock) (s : UAS F Rest) :
  let hb := mavlink_msg_heartbeat_decode message in
  type (mode s) = hb_type hb ->
  let s' := fst (handleHeartbeat message clk s) in
  base_mode (mode s') = hb_base_mode hb
  /\ custom_mode (mode s') = hb_custom_mode hb
  /\ status (mode s')
     = (if hb_system_status hb =? MAV_STATE_UNINIT then status (mode s)
        else hb_system_status hb)
  /\ type (mode s') = type (mode s)
  /\ autopilot (mode s') = autopilot (mode s)
  /\ airframe (mode s') = airframe (mode s)
  /\ snd (handleHeartbeat message clk' s')
     = [heartbeat;
        valueChanged (sysid message) "HEARTBEAT.base_mode" "bits"
                     (VInt (hb_base_mode hb)) (groundTimeMilliseconds clk');
        valueChanged (sysid message) "HEARTBEAT.custom_mode" "bits"
                     (VInt (hb_custom_mode hb)) (groundTimeMilliseconds clk');
        valueChanged (sysid message) "HEARTBEAT.system_status" "-"
                     (VInt (hb_system_status hb)) (groundTimeMilliseconds clk')].
Proof.
  cbv zeta. intros Htype.
  destruct (handleHeartbeat_same_type message clk s Htype) as [Hmode _].
  cbv zeta in Hmode.
  set (s' := fst (handleHeartbeat message clk s)) in *.
  assert (Hstatus : status (mode s')
                    = (if hb_system_status (mavlink_msg_heartbeat_decode message)
                          =? MAV_STATE_UNINIT
                       then status (mode s)
                       else hb_system_status (mavlink_msg_heartbeat_decode message))).
  { rewrite Hmode. cbn [status].
    destruct (Z.eqb_spec (hb_system_status (mavlink_msg_heartbeat_decode message))
                (status (mode s))) as [Heq | Hne];
      destruct (hb_system_status (mavlink_msg_heartbeat_decode message)
                =? MAV_STATE_UNINIT); cbn [negb andb]; congruence. }
  assert (Htype' : type (mode s')
                   = hb_type (mavlink_msg_heartbeat_decode message))
    by (rewrite Hmode; exact Htype).
  destruct (handleHeartbeat_same_type message clk' s' Htype') as [_ Hquiet].
  cbv zeta in Hquiet.
  split; [rewrite Hmode; reflexivity|].
  split; [rewrite Hmode; reflexivity|].
  split; [exact Hstatus|].
  split; [rewrite Hmode; reflexivity|].
  split; [rewrite Hmode; reflexivity|].
  split; [rewrite Hmode; reflexivity|].
  apply Hquiet.
  - rewrite Hstatus.
    destruct (hb_system_status (mavlink_msg_heartbeat_decode message)
              =? MAV_STATE_UNINIT) eqn:Huninit.
    + rewrite andb_false_r. reflexivity.
    + rewrite Z.eqb_refl. reflexivity.
  - rewrite Hmode. cbn [base_mode custom_mode]. rewrite !Z.eqb_refl. reflexivity.
Qed.

End HeartbeatMode.

Lemma heartbeat_mirrors_mode_witness :
  base_mode (mode (fst (handleHeartbeat
                          (blankMessage 1 1 MAVLINK_MSG_ID_HEARTBEAT)
                          (mkClock 1000000 1000) freshVehicle))) = 0.
Proof.
  apply (heartbeat_mirrors_mode (blankMessage 1 1 MAVLINK_MSG_ID_HEARTBEAT)
           (mkClock 1000000 1000) (mkClock 1000000 1000) freshVehicle).
  reflexivity.
Defined.
